(** * DeepXeno: the training loop, the training entry point and the evaluation
    helpers, as a shallow embedding.

    Sources: [code/train.py] ([set_seed], [load_config], [train_model],
    [main]) and [code/test.py] ([test_model], [calculate_roc_auc],
    [calculate_pr_auc], [main]).

    Python floats are IEEE binary64 values ([spec_float] with precision 53 and
    maximal exponent 1024); Python ints are [Z].  Everything the program
    mutates (random generators, clock, files, standard output, the log) lives
    in a [world] that a small state-and-exception monad threads through the
    code.  The file system is one map from paths to what they hold:
    checkpoints, scripts, data, directories, plots and the log file; opening
    a file and making a directory fail as the operating system makes them
    fail for a missing or unfit parent.  The tensor library, the data
    provider, the encoder, the scheduler and the plotting library are
    collaborators behind the [Backend] interface. *)

From Stdlib Require Import ZArith Ascii String Decimal DecimalString SpecFloat Permutation.
From stdpp Require Import gmap strings list.

Local Open Scope Z_scope.

(** ** Python numbers *)

Module Py.

Definition prec : Z := 53.
Definition emax : Z := 1024.

(** A Python [float]. *)
Definition float : Type := spec_float.

Definition inf : float := S754_infinity false.
Definition nan : float := S754_nan.
Definition zero : float := S754_zero false.
Definition fadd : float -> float -> float := SFadd prec emax.
Definition fdiv : float -> float -> float := SFdiv prec emax.
Definition flt : float -> float -> bool := SFltb.
Definition feq : float -> float -> bool := SFeqb.

(** [float(n)] for an int [n]. *)
Definition of_int (n : Z) : float := binary_normalize prec emax n 0 false.

Definition half : float := Eval vm_compute in binary_normalize prec emax 1 (-1) false.
Definition one : float := Eval vm_compute in of_int 1.



(** The accumulators of the training loop start as the int [0] and become
    floats with the first [+= loss.item()]. *)
Inductive number :=
| Int (n : Z)
| Float (x : float).

Definition to_float (a : number) : float :=
  match a with Int n => of_int n | Float x => x end.

(** [a + x] with [x] a float. *)
Definition add_float (a : number) (x : float) : number :=
  Float (fadd (to_float a) x).

(** [str(n)] for an int [n]. *)
Definition str (n : Z) : string := NilZero.string_of_int (Z.to_int n).

(** [range(n)]. *)
Definition range (n : Z) : list Z := Z.of_nat <$> seq 0 (Z.to_nat n).

Inductive exn :=
| ZeroDivisionError
| KeyError (key : string)
| ValueError (msg : string)
| FileNotFoundError (path : string)
| FileExistsError (path : string)
| IsADirectoryError (path : string)
| NotADirectoryError (path : string)
| AttributeError (msg : string)
| UnpicklingError (msg : string)     (* pickle.UnpicklingError *)
| RuntimeError (msg : string).

(** [a / n] with [n] an int: true division.  Both operands are converted to
    binary64 and divided there, which is what Python computes for operands
    below 2^53 in magnitude. *)
Definition truediv (a : number) (n : Z) : exn + float :=
  if n =? 0 then inl ZeroDivisionError
  else inr (fdiv (to_float a) (of_int n)).

End Py.

(** ** Paths ([os.path]) *)

Module OsPath.

Definition starts_with_slash (s : string) : bool :=
  match s with
  | String c _ => if Ascii.ascii_dec c "/"%char then true else false
  | EmptyString => false
  end.

Fixpoint ends_with_slash (s : string) : bool :=
  match s with
  | EmptyString => false
  | String c EmptyString => if Ascii.ascii_dec c "/"%char then true else false
  | String _ rest => ends_with_slash rest
  end.

(** [os.path.join(a, b)] (POSIX). *)
Definition join (a b : string) : string :=
  if starts_with_slash b then b
  else if bool_decide (a = "") || ends_with_slash a then a +:+ b
  else a +:+ "/" +:+ b.

Definition is_slash (c : ascii) : bool :=
  if Ascii.ascii_dec c "/"%char then true else false.

Fixpoint contains_slash (s : string) : bool :=
  match s with
  | EmptyString => false
  | String c rest => is_slash c || contains_slash rest
  end.

(** [s.rstrip('/')]. *)
Fixpoint rstrip_slash (s : string) : string :=
  match s with
  | EmptyString => EmptyString
  | String c rest =>
      match rstrip_slash rest with
      | EmptyString => if is_slash c then EmptyString else String c EmptyString
      | r => String c r
      end
  end.

(** [s[:i], s[i:]] for [i = s.rfind('/') + 1]: the part up to the last
    slash, with it, and what follows. *)
Fixpoint rpartition (s : string) : string * string :=
  match s with
  | EmptyString => (EmptyString, EmptyString)
  | String c rest =>
      if contains_slash rest then
        let '(head, tail) := rpartition rest in (String c head, tail)
      else if is_slash c then (String c EmptyString, rest)
      else (EmptyString, s)
  end.

(** [os.path.split(p)] (posixpath): the head loses its trailing slashes
    unless it consists of slashes only. *)
Definition split (p : string) : string * string :=
  let '(head, tail) := rpartition p in
  (match rstrip_slash head with
   | EmptyString => head
   | stripped => stripped
   end, tail).

(** [os.path.dirname(p)]. *)
Definition dirname (p : string) : string := (split p).1.

(** A path that consists of slashes: the root directory. *)
Definition is_root (p : string) : bool :=
  match p with
  | EmptyString => false
  | _ => bool_decide (rstrip_slash p = EmptyString)
  end.

(** The current directory and its parent, which always exist. *)
Definition is_dots (p : string) : bool :=
  bool_decide (p = ".") || bool_decide (p = "..").

End OsPath.

(** ** Collaborators

    The tensor library (torch), the clock and the random generators.  The
    numerical operations are total here: a failure inside them (a shape
    mismatch, an allocation failure) aborts the process and is outside every
    property stated below.  Moving a tensor to a device ([.to(device)])
    keeps its values and is left out. *)

Inductive device := Cpu | Cuda.

Definition device_str (d : device) : string :=
  match d with Cpu => "cpu" | Cuda => "cuda" end.

(** The seeded random sources of the process. *)
Record rng {gen : Type} := Rng {
  py_random : gen;            (* random *)
  np_random : gen;            (* numpy.random *)
  torch_cpu : gen;            (* torch default generator *)
  torch_cuda : gen;           (* torch.cuda generators, all devices *)
  cudnn_deterministic : bool;
  cudnn_benchmark : bool;
}.
Arguments rng : clear implicits.
Arguments Rng {gen}.

(** Keyword arguments taken from the configuration. *)
Definition kwargs : Type := list (string * string).

(** A sample of the data provider: (epitope, HLA, label); [sample[2]] and
    [sample[-1]] are both the label. *)
Record raw_sample := RawSample {
  rs_epi : string;
  rs_hla : string;
  rs_label : Py.float;
}.

(** A [DataProvider] instance; [len(provider)] is [len(provider.samples)]. *)
Record provider := Provider {
  samples : list raw_sample;
  top_10_hlas : list string;
}.

Class Backend := {
  feat : Type;         (* the encoded features of one sample *)
  tensor : Type;       (* a prediction or loss tensor *)
  model : Type;        (* an nn.Module: parameters, gradients, mode *)
  optimizer : Type;
  scheduler : Type;
  criterion : Type;
  state_dict : Type;
  gen : Type;
  timestamp : Type;    (* a reading of time.time() *)

  (* seeding *)
  py_seed : Z -> gen;
  np_seed : Z -> gen;
  torch_seed : Z -> gen;
  cuda_seed : Z -> gen;
  cuda_is_available : bool;

  (* nn.Module *)
  model_train : model -> model;
  model_eval : model -> model;
  model_call : model -> list feat -> rng gen -> tensor * rng gen;
  model_regularize : model -> tensor -> device -> tensor;
  model_to : model -> device -> model;
  get_state_dict : model -> state_dict;
  load_state_dict : model -> state_dict -> Py.exn + model;

  (* criterion(outputs, Y), loss.backward(), loss.item() *)
  criterion_call : criterion -> tensor -> list Py.float -> tensor;
  backward : tensor -> model -> model;
  item : tensor -> Py.float;
  (* ((outputs > 0.5).float() == Y).sum().item(): the comparison is the
     tensor library's, broadcasting included *)
  count_correct : tensor -> list Py.float -> Z;
  (* the entries of a prediction tensor, one per sample *)
  values : tensor -> list Py.float;

  (* optimizers and schedulers *)
  zero_grad : optimizer -> model -> model;
  optimizer_step : optimizer -> model -> optimizer * model;
  scheduler_step : scheduler -> optimizer -> scheduler * optimizer;
  Adam : model -> Py.float -> optimizer;
  CosineAnnealingWarmUpRestarts :
    optimizer -> Z -> Z -> Z -> Py.float -> Py.float -> Py.exn + scheduler;

  (* torch.randperm(n), from the torch generator *)
  randperm : nat -> rng gen -> list nat * rng gen;
  randperm_perm : forall n r, Permutation (randperm n r).1 (seq 0 n);

  (* int(t1 - t0) for two clock readings *)
  elapsed : timestamp -> timestamp -> Z;

  (* DataProvider(epi_path, epi_args, hla_path, hla_args, specific_hla), over
     the contents of the data files *)
  data_provider :
    (string -> option string) -> string -> kwargs -> string -> kwargs ->
    option string -> rng gen -> (Py.exn + provider) * rng gen;

  (* sklearn: train_test_split(indices, stratify=y, test_size=..,
     random_state=42), roc_curve, precision_recall_curve, auc *)
  train_test_split :
    list nat -> list Py.float -> Py.float -> Py.exn + (list nat * list nat);
  roc_curve :
    list Py.float -> list Py.float ->
    Py.exn + (list Py.float * list Py.float * list Py.float);
  precision_recall_curve :
    list Py.float -> list Py.float ->
    Py.exn + (list Py.float * list Py.float * list Py.float);
  auc : list Py.float -> list Py.float -> Py.exn + Py.float;

  (* what torch.load raises for a file that is no checkpoint, and what
     importing a configuration raises for a path that does not give one,
     from the contents of the file when it has some; what torch.save raises
     when the file cannot be opened, from the error of the system *)
  torch_load_error : option string -> Py.exn;
  config_error : string -> option string -> Py.exn;
  torch_save_error : Py.exn -> Py.exn;

  (* matplotlib: plt.cm.get_cmap('tab10', 10), the colour of each index *)
  get_cmap : Py.exn + (nat -> string);
}.

Section Program.

Context `{B : Backend}.

(** ** Datasets and loaders *)

(** An encoded sample: the feature tensors and the label. *)
Definition sample : Type := feat * Py.float.

(** A map-style dataset, by index. *)
Definition dataset : Type := list sample.

(** A batch after collation: [batch[:-1]] is [X], [batch[-1]] is [Y]. *)
Definition batch : Type := list sample.
Definition batch_X (b : batch) : list feat := fst <$> b.
Definition batch_Y (b : batch) : list Py.float := snd <$> b.

(** [torch.utils.data.Subset(ds, indices)]: an index outside [ds] raises on
    access; the entry is dropped here, [train_test_split] never yields one. *)
Definition Subset (ds : dataset) (indices : list nat) : dataset :=
  omap (fun i => ds !! i) indices.

Record DataLoader := {
  dl_dataset : dataset;
  dl_batch_size : Z;
  dl_shuffle : bool;
}.

(** [DataLoader(dataset, batch_size=.., shuffle=..)]. *)
Definition mk_DataLoader (ds : dataset) (batch_size : Z) (shuffle : bool)
  : Py.exn + DataLoader :=
  if batch_size <=? 0
  then inl (Py.ValueError
              ("batch_size should be a positive integer value, but got batch_size="
               +:+ Py.str batch_size))
  else inr {| dl_dataset := ds; dl_batch_size := batch_size; dl_shuffle := shuffle |}.

(** [len(loader)]: the number of batches, the last one may be short. *)
Definition dl_len (dl : DataLoader) : Z :=
  (Z.of_nat (length (dl_dataset dl)) + dl_batch_size dl - 1) / dl_batch_size dl.

Fixpoint chunks_fuel {A} (fuel bs : nat) (l : list A) : list (list A) :=
  match fuel with
  | O => []
  | S fuel' =>
      match l with
      | [] => []
      | _ => take bs l :: chunks_fuel fuel' bs (drop bs l)
      end
  end.

Definition chunks {A} (bs : nat) (l : list A) : list (list A) :=
  chunks_fuel (length l) bs l.

(** [iter(loader)]: the batches of one pass, in dataset order or in the order
    of a fresh random permutation. *)
Definition dl_iter (dl : DataLoader) (r : rng gen) : list batch * rng gen :=
  let bs := Z.to_nat (dl_batch_size dl) in
  if dl_shuffle dl then
    let '(perm, r') := randperm (length (dl_dataset dl)) r in
    (chunks bs (omap (fun i => dl_dataset dl !! i) perm), r')
  else (chunks bs (dl_dataset dl), r).

(** ** The configuration mapping *)

Record data_config := {
  epi_path : string;
  epi_args : kwargs;
  hla_path : string;
  hla_args : kwargs;
  test_path : string;
  test_args : kwargs;
  num_workers : Z;
  val_size : Py.float;
}.

(** [config["Train"]]; [transfer] and [chkp_prefix] may be absent. *)
Record train_config := {
  batch_size : Z;
  num_epochs : Z;
  patience : Z;
  regularize : bool;
  criterion_class : Py.exn + criterion;                 (* criterion() *)
  optimizer_class : model -> kwargs -> Py.exn + optimizer;
  optimizer_args : kwargs;
  use_scheduler : bool;
  transfer : option bool;
  chkp_prefix : option string;
}.

(** [config["Test"]]; [batch_size] may be absent. *)
Record test_config := {
  test_batch_size : option Z;
  test_chkp_prefix : string;
}.

Record config := {
  chkp_name : string;
  chkp_path : string;
  log_file : string;
  plot_path : string;
  seed : Z;
  model_class : kwargs -> rng gen -> (Py.exn + model) * rng gen;
  model_args : kwargs;
  encoder : provider -> kwargs -> (string -> option string) -> Py.exn + dataset;
  encoder_args : kwargs;
  Data : data_config;
  Train : train_config;
  Test : test_config;
}.

(** ** The world and the monad *)

(** One line of the training log: the values the format string receives. *)
Record log_line := LogLine {
  ll_model_path : string;
  ll_epoch : Z;            (* epoch+1 *)
  ll_num_epochs : Z;
  ll_time : Z;
  ll_train_acc : Py.float;
  ll_val_acc : Py.float;
  ll_train_loss : Py.float;
  ll_val_loss : Py.float;
}.

(** The label of a curve in the legend, with the area it shows. *)
Inductive curve_label :=
| RocLabel (area : Py.float)                 (* 'ROC curve (area = ..)' *)
| PrLabel (area : Py.float)                  (* 'PR curve (area = ..)' *)
| HlaLabel (hla : string) (area : Py.float). (* '{hla} (area = ..)' *)

(** One [plt.plot(x, y, label=.., color=..)]. *)
Record curve := Curve {
  cv_x : list Py.float;
  cv_y : list Py.float;
  cv_label : option curve_label;
  cv_color : string;
}.

(** A figure: its title and its curves in plotting order.  Axis limits,
    axis labels, line widths and the legend position are constants of the
    script and left out. *)
Record figure := Figure {
  fig_title : string;
  fig_curves : list curve;
}.

(** What a path of the file system holds.  A path is taken as the program
    writes it: two spellings of one location ("a//b" and "a/b", "./a" and
    "a") are two paths here, but for the slashes at the end of a directory
    path. *)
Inductive file :=
| Checkpoint (sd : state_dict)
| Script (c : config)          (* a configuration script *)
| Other (content : string)
| Directory
| Plot (fig : figure)          (* an image written by plt.savefig *)
| LogFile.                     (* the log file; its lines are [w_log] *)

(** The text of a file, where the model keeps it. *)
Definition file_content (f : file) : option string :=
  match f with
  | Other content => Some content
  | _ => None
  end.

Record world := World {
  w_rng : rng gen;
  w_clock : nat -> timestamp;     (* the successive readings of time.time() *)
  w_ticks : nat;                  (* how many readings were taken *)
  w_files : gmap string file;
  w_stdout : list string;         (* print *)
  w_log : list log_line;          (* logging.info *)
}.

Definition M (A : Type) : Type := world -> (Py.exn + A) * world.

Definition ret {A} (a : A) : M A := fun w => (inr a, w).

Definition bind {A C} (m : M A) (k : A -> M C) : M C :=
  fun w =>
    match m w with
    | (inl e, w') => (inl e, w')
    | (inr a, w') => k a w'
    end.

Definition raise {A} (e : Py.exn) : M A := fun w => (inl e, w).

Definition lift {A} (r : Py.exn + A) : M A := fun w => (r, w).

Notation "'do' x <- m ; k" := (bind m (fun x => k))
  (at level 10, x name, m at level 100, k at level 200).
Notation "'do' ' p <- m ; k" := (bind m (fun x => match x with p => k end))
  (at level 10, p pattern, m at level 100, k at level 200).
Notation "m ;; k" := (bind m (fun _ => k))
  (at level 100, k at level 200, right associativity).

Definition print (s : string) : M unit :=
  fun w => (inr tt, World (w_rng w) (w_clock w) (w_ticks w) (w_files w)
                          (w_stdout w ++ [s]) (w_log w)).

Definition logging_info (l : log_line) : M unit :=
  fun w => (inr tt, World (w_rng w) (w_clock w) (w_ticks w) (w_files w)
                          (w_stdout w) (w_log w ++ [l])).

Definition time_time : M timestamp :=
  fun w => (inr (w_clock w (w_ticks w)),
            World (w_rng w) (w_clock w) (S (w_ticks w)) (w_files w)
                  (w_stdout w) (w_log w)).

(** *** The file system

    Every directory that exists can be written to; the root, the current
    directory (also as the empty directory part of a relative path) and its
    parent exist. *)

(** [os.path.isdir(path)]. *)
Definition fs_isdir (fs : gmap string file) (path : string) : bool :=
  match path with
  | EmptyString => false
  | _ =>
      OsPath.is_root path || OsPath.is_dots (OsPath.rstrip_slash path) ||
      match fs !! OsPath.rstrip_slash path with
      | Some Directory => true
      | _ => false
      end
  end.

(** [os.path.exists(path)]: a path that ends in a slash exists as a
    directory only. *)
Definition fs_exists (fs : gmap string file) (path : string) : bool :=
  match path with
  | EmptyString => false
  | _ =>
      if OsPath.ends_with_slash path then fs_isdir fs path
      else OsPath.is_dots path || bool_decide (is_Some (fs !! path))
  end.

(** Whether the directory [parent] of a path can hold an entry: the
    error of the system call when it cannot. *)
Definition parent_error (fs : gmap string file) (parent path : string)
  : option Py.exn :=
  match parent with
  | EmptyString => None
  | _ =>
      if OsPath.is_root parent || OsPath.is_dots parent then None
      else match fs !! parent with
           | Some Directory => None
           | Some _ => Some (Py.NotADirectoryError path)
           | None => Some (Py.FileNotFoundError path)
           end
  end.

(** Opening [path] for writing or appending ([open(path, 'w')]): the error
    it raises, if any. *)
Definition fs_open_write (fs : gmap string file) (path : string)
  : option Py.exn :=
  match path with
  | EmptyString => Some (Py.FileNotFoundError path)
  | _ =>
      if OsPath.ends_with_slash path then Some (Py.IsADirectoryError path)
      else if OsPath.is_dots path then Some (Py.IsADirectoryError path)
      else match fs !! path with
           | Some Directory => Some (Py.IsADirectoryError path)
           | _ => parent_error fs (OsPath.dirname path) path
           end
  end.

(** [os.mkdir(name)]. *)
Definition mkdir (fs : gmap string file) (name : string)
  : Py.exn + gmap string file :=
  match name with
  | EmptyString => inl (Py.FileNotFoundError name)
  | _ =>
      let key := OsPath.rstrip_slash name in
      if OsPath.is_root name || OsPath.is_dots key ||
         bool_decide (is_Some (fs !! key))
      then inl (Py.FileExistsError name)
      else match parent_error fs (OsPath.dirname key) name with
           | Some e => inl e
           | None => inr (<[key := Directory]> fs)
           end
  end.

(** [os.makedirs(name, exist_ok=exist_ok)], as the standard library has it:
    the missing ancestors first, then [name] itself. *)
Fixpoint makedirs_fuel (fuel : nat) (name : string) (exist_ok : bool)
    (fs : gmap string file) : Py.exn + gmap string file :=
  match fuel with
  | O => inl (Py.RuntimeError "maximum recursion depth exceeded")
  | S fuel' =>
      let '(head, tail) := OsPath.split name in
      let '(head, tail) :=
        match tail with
        | EmptyString => OsPath.split head
        | _ => (head, tail)
        end in
      let last (fs : gmap string file) :=
        match mkdir fs name with
        | inr fs' => inr fs'
        | inl e => if exist_ok && fs_isdir fs name then inr fs else inl e
        end in
      if negb (bool_decide (head = EmptyString)) &&
         negb (bool_decide (tail = EmptyString)) &&
         negb (fs_exists fs head)
      then
        match
          match makedirs_fuel fuel' head exist_ok fs with
          | inl (Py.FileExistsError _) => inr fs
          | r => r
          end
        with
        | inl e => inl e
        | inr fs' => if bool_decide (tail = ".") then inr fs' else last fs'
        end
      else last fs
  end.

Definition makedirs (name : string) (exist_ok : bool) (fs : gmap string file)
  : Py.exn + gmap string file :=
  makedirs_fuel (S (String.length name)) name exist_ok fs.

Definition with_files (w : world) (fs : gmap string file) : world :=
  World (w_rng w) (w_clock w) (w_ticks w) fs (w_stdout w) (w_log w).

Definition os_makedirs (name : string) (exist_ok : bool) : M unit :=
  fun w =>
    match makedirs name exist_ok (w_files w) with
    | inl e => (inl e, w)
    | inr fs => (inr tt, with_files w fs)
    end.

(** [torch.save(obj, path)]: the file is opened for writing, and holds the
    object afterwards. *)
Definition torch_save (sd : state_dict) (path : string) : M unit :=
  fun w =>
    match fs_open_write (w_files w) path with
    | Some e => (inl (torch_save_error e), w)
    | None => (inr tt, with_files w (<[path := Checkpoint sd]> (w_files w)))
    end.

(** [plt.savefig(path)] of the current figure: whatever was at [path] is
    overwritten. *)
Definition savefig (path : string) (fig : figure) : M unit :=
  fun w =>
    match fs_open_write (w_files w) path with
    | Some e => (inl e, w)
    | None => (inr tt, with_files w (<[path := Plot fig]> (w_files w)))
    end.

(** [logging.basicConfig(filename=log_file, ..)] in a process that has not
    configured logging yet.  With an empty [log_file] the records go to the
    standard error stream and no file is opened.  Otherwise the handler
    opens the absolute, normalised path for appending: the slashes at the
    end of [log_file] are dropped (what is left of a path of slashes is the
    root directory), and the file is created when it is not there. *)
Definition logging_basicConfig (log_file : string) : M unit :=
  fun w =>
    match log_file with
    | EmptyString => (inr tt, w)
    | _ =>
        let path := OsPath.rstrip_slash log_file in
        match path with
        | EmptyString => (inl (Py.IsADirectoryError log_file), w)
        | _ =>
            match fs_open_write (w_files w) path with
            | Some e => (inl e, w)
            | None =>
                (inr tt,
                 match w_files w !! path with
                 | Some _ => w
                 | None => with_files w (<[path := LogFile]> (w_files w))
                 end)
            end
        end
    end.

(** [os.path.exists(path)]. *)
Definition os_path_exists (path : string) : M bool :=
  fun w => (inr (fs_exists (w_files w) path), w).

(** [torch.load(path)]. *)
Definition torch_load (path : string) : M state_dict :=
  fun w =>
    match w_files w !! path with
    | Some (Checkpoint sd) => (inr sd, w)
    | Some Directory => (inl (Py.IsADirectoryError path), w)
    | Some f => (inl (torch_load_error (file_content f)), w)
    | None => (inl (Py.FileNotFoundError path), w)
    end.

(** The contents of the data files, as the data provider and the encoder
    read them. *)
Definition data_files (w : world) (path : string) : option string :=
  match w_files w !! path with
  | Some (Other content) => Some content
  | _ => None
  end.

Definition read_data_files : M (string -> option string) :=
  fun w => (inr (data_files w), w).

(** A call that draws from the random generators. *)
Definition with_rng {A} (f : rng gen -> A * rng gen) : M A :=
  fun w =>
    let '(a, r) := f (w_rng w) in
    (inr a, World r (w_clock w) (w_ticks w) (w_files w) (w_stdout w) (w_log w)).

(** The same for a call that may raise. *)
Definition try_with_rng {A} (f : rng gen -> (Py.exn + A) * rng gen) : M A :=
  fun w =>
    let '(a, r) := f (w_rng w) in
    (a, World r (w_clock w) (w_ticks w) (w_files w) (w_stdout w) (w_log w)).

Definition set_rng (f : rng gen -> rng gen) : M unit :=
  fun w => (inr tt, World (f (w_rng w)) (w_clock w) (w_ticks w) (w_files w)
                          (w_stdout w) (w_log w)).

Fixpoint foldM {A S} (f : S -> A -> M S) (l : list A) (s : S) : M S :=
  match l with
  | [] => ret s
  | a :: l' => do s' <- f s a; foldM f l' s'
  end.


(** ** [train_model] (train.py, lines 34-129) *)

(** The objects the loop mutates and its three control variables. *)
Record loop_state := LoopState {
  ls_model : model;
  ls_optimizer : optimizer;
  ls_scheduler : option scheduler;
  best_loss : Py.float;
  epochs_no_improve : Z;
  early_stop : bool;
}.

(** The running sums of one pass over a loader. *)
Record sums := Sums {
  sum_loss : Py.number;
  sum_correct : Z;
  sum_total : Z;
}.

Definition sums0 : sums := Sums (Py.Int 0) 0 0.

(** [Y.size(0)]. *)
Definition size0 (Y : list Py.float) : Z := Z.of_nat (length Y).

(** One training batch (lines 62-81). *)
Definition train_batch (crit : criterion) (regularize : bool) (dev : device)
    (st : loop_state * sums) (b : batch) : M (loop_state * sums) :=
  let '(s, acc) := st in
  let X := batch_X b in
  let Y := batch_Y b in
  do outputs <- with_rng (model_call (ls_model s) X);
  let loss := criterion_call crit outputs Y in
  let loss := if regularize then model_regularize (ls_model s) loss dev else loss in
  let m := zero_grad (ls_optimizer s) (ls_model s) in
  let m := backward loss m in
  let '(opt, m) := optimizer_step (ls_optimizer s) m in
  let '(sch, opt) :=
    match ls_scheduler s with
    | Some sch => let '(sch', opt') := scheduler_step sch opt in (Some sch', opt')
    | None => (None, opt)
    end in
  ret (LoopState m opt sch (best_loss s) (epochs_no_improve s) (early_stop s),
       Sums (Py.add_float (sum_loss acc) (item loss))
            (sum_correct acc + count_correct outputs Y)
            (sum_total acc + size0 Y)).

(** One validation batch (lines 89-100). *)
Definition val_batch (crit : criterion) (m : model) (acc : sums) (b : batch)
  : M sums :=
  let X := batch_X b in
  let Y := batch_Y b in
  do outputs <- with_rng (model_call m X);
  let loss := criterion_call crit outputs Y in
  ret (Sums (Py.add_float (sum_loss acc) (item loss))
            (sum_correct acc + count_correct outputs Y)
            (sum_total acc + size0 Y)).

Definition with_model (s : loop_state) (m : model) : loop_state :=
  LoopState m (ls_optimizer s) (ls_scheduler s)
            (best_loss s) (epochs_no_improve s) (early_stop s).

(** [epoch+1 >= 30 and epoch+1 % 5 == 0], as Python parses it: [%] binds
    tighter than [+], so the second conjunct is [epoch + (1 % 5) == 0]. *)
Definition snapshot_due (epoch : Z) : bool :=
  (epoch + 1 >=? 30) && (epoch + (1 mod 5) =? 0).

Definition epoch_path (model_path : string) (epoch : Z) : string :=
  model_path +:+ "-epoch_" +:+ Py.str (epoch + 1) +:+ ".pt".

Definition best_path (model_path : string) : string :=
  model_path +:+ "-best.pt".

(** Early stopping and best model saving (lines 117-129). *)
Definition early_stopping (epoch : Z) (avg_val_loss : Py.float) (patience : Z)
    (model_path : string) (s : loop_state) : M loop_state :=
  if Py.flt avg_val_loss (best_loss s) then
    let model_dir := OsPath.dirname model_path in
    do found <- os_path_exists model_dir;
    (if negb found then os_makedirs model_dir false else ret tt);;
    torch_save (get_state_dict (ls_model s)) (best_path model_path);;
    print ("Best model updated at epoch " +:+ Py.str (epoch + 1));;
    ret (LoopState (ls_model s) (ls_optimizer s) (ls_scheduler s)
                   avg_val_loss 0 (early_stop s))
  else
    let n := epochs_no_improve s + 1 in
    ret (LoopState (ls_model s) (ls_optimizer s) (ls_scheduler s)
                   (best_loss s) n
                   (if n >=? patience then true else early_stop s)).

(** The body of the epoch loop after the [early_stop] test (lines 49-129). *)
Definition epoch_body (train_loader val_loader : DataLoader) (crit : criterion)
    (dev : device) (num_epochs patience : Z) (model_path : string)
    (regularize : bool) (epoch : Z) (s : loop_state) : M loop_state :=
  do start_time <- time_time;
  let s := with_model s (model_train (ls_model s)) in
  do batches <- with_rng (dl_iter train_loader);
  do '(s, tr) <- foldM (train_batch crit regularize dev) batches (s, sums0);
  do avg_train_loss <- lift (Py.truediv (sum_loss tr) (dl_len train_loader));
  do train_acc <- lift (Py.truediv (Py.Int (sum_correct tr)) (sum_total tr));
  let s := with_model s (model_eval (ls_model s)) in
  do vbatches <- with_rng (dl_iter val_loader);
  do va <- foldM (val_batch crit (ls_model s)) vbatches sums0;
  do avg_val_loss <- lift (Py.truediv (sum_loss va) (dl_len val_loader));
  do val_acc <- lift (Py.truediv (Py.Int (sum_correct va)) (sum_total va));
  do now <- time_time;
  let epoch_time := elapsed now start_time in
  logging_info (LogLine model_path (epoch + 1) num_epochs epoch_time
                        train_acc val_acc avg_train_loss avg_val_loss);;
  (if snapshot_due epoch
   then torch_save (get_state_dict (ls_model s)) (epoch_path model_path epoch)
   else ret tt);;
  early_stopping epoch avg_val_loss patience model_path s.

(** [for epoch in range(num_epochs): if early_stop: ...; break] *)
Fixpoint for_epochs (body : Z -> loop_state -> M loop_state)
    (epochs : list Z) (s : loop_state) : M loop_state :=
  match epochs with
  | [] => ret s
  | epoch :: rest =>
      if early_stop s then
        print ("Early stopping at epoch " +:+ Py.str epoch);; ret s
      else
        do s' <- body epoch s; for_epochs body rest s'
  end.

(** The loop of [train_model], with the state it ends in. *)
Definition train_loop (m : model) (train_loader val_loader : DataLoader)
    (crit : criterion) (opt : optimizer) (dev : device)
    (num_epochs patience : Z) (model_path : string) (regularize : bool)
    (sch : option scheduler) : M loop_state :=
  let s := LoopState (model_train m) opt sch Py.inf 0 false in
  for_epochs (epoch_body train_loader val_loader crit dev num_epochs patience
                         model_path regularize)
             (Py.range num_epochs) s.

Definition train_model (m : model) (train_loader val_loader : DataLoader)
    (crit : criterion) (opt : optimizer) (dev : device) (log_file : string)
    (num_epochs patience : Z) (model_path : string) (regularize : bool)
    (sch : option scheduler) : M unit :=
  logging_basicConfig log_file;;
  train_loop m train_loader val_loader crit opt dev num_epochs patience
             model_path regularize sch;;
  ret tt.

(** ** [set_seed] and [load_config] (train.py, lines 17-32) *)

Definition set_seed (seed : Z) : M unit :=
  (* random.seed(seed) *)
  set_rng (fun r => Rng (py_seed seed) (np_random r) (torch_cpu r) (torch_cuda r)
                        (cudnn_deterministic r) (cudnn_benchmark r));;
  (* np.random.seed(seed): the seed must be between 0 and 2**32 - 1 *)
  (if (0 <=? seed) && (seed <? 2 ^ 32) then ret tt
   else raise (Py.ValueError "Seed must be between 0 and 2**32 - 1"));;
  set_rng (fun r => Rng (py_random r) (np_seed seed) (torch_cpu r) (torch_cuda r)
                        (cudnn_deterministic r) (cudnn_benchmark r));;
  (* torch.manual_seed(seed): the default generator and every device *)
  set_rng (fun r => Rng (py_random r) (np_random r) (torch_seed seed) (cuda_seed seed)
                        (cudnn_deterministic r) (cudnn_benchmark r));;
  (if cuda_is_available then
     (* torch.cuda.manual_seed(seed); torch.cuda.manual_seed_all(seed) *)
     set_rng (fun r => Rng (py_random r) (np_random r) (torch_cpu r) (cuda_seed seed)
                           (cudnn_deterministic r) (cudnn_benchmark r));;
     set_rng (fun r => Rng (py_random r) (np_random r) (torch_cpu r) (cuda_seed seed)
                           (cudnn_deterministic r) (cudnn_benchmark r))
   else ret tt);;
  set_rng (fun r => Rng (py_random r) (np_random r) (torch_cpu r) (torch_cuda r)
                        true (cudnn_benchmark r));;
  set_rng (fun r => Rng (py_random r) (np_random r) (torch_cpu r) (torch_cuda r)
                        (cudnn_deterministic r) false).

(** Executing the configuration script and reading its [config]. *)
Definition load_config (config_path : string) : M config :=
  fun w =>
    match w_files w !! config_path with
    | Some (Script c) => (inr c, w)
    | Some f => (inl (config_error config_path (file_content f)), w)
    | None => (inl (config_error config_path None), w)
    end.

(** [config["Train"]["chkp_prefix"]]. *)
Definition get_chkp_prefix (t : train_config) : M string :=
  match chkp_prefix t with
  | Some p => ret p
  | None => raise (Py.KeyError "chkp_prefix")
  end.

Definition torch_device : device := if cuda_is_available then Cuda else Cpu.

(** ** [main] of train.py (lines 131-235) *)

(** Lines 177-194: loading the saved weights when training continues. *)
Definition load_transfer (cfg : config) (m : model) : M model :=
  if default false (transfer (Train cfg)) then
    do prefix <- get_chkp_prefix (Train cfg);
    let model_path :=
      OsPath.join (chkp_path cfg) (chkp_name cfg +:+ "-" +:+ prefix +:+ ".pt") in
    let last_checkpoint := model_path in
    do found <- os_path_exists last_checkpoint;
    if negb (bool_decide (last_checkpoint = "")) && found then
      do sd <- torch_load model_path;
      do m' <- lift (load_state_dict m sd);
      print ("Loaded model weights from " +:+ last_checkpoint);;
      ret m'
    else
      print ("Checkpoint path " +:+ last_checkpoint +:+
             " is invalid or does not exist. Starting training from scratch.");;
      ret m
  else ret m.

Definition eta_max : Py.float := Py.fdiv (Py.of_int 1) (Py.of_int 10).   (* 0.1 *)
Definition gamma : Py.float := Py.fdiv (Py.of_int 4) (Py.of_int 5).      (* 0.8 *)

(** Lines 196-219: criterion, optimizer and the optional scheduler. *)
Definition make_optimizer (cfg : config) (m : model) (train_loader : DataLoader)
  : M (criterion * optimizer * option scheduler) :=
  do crit <- lift (criterion_class (Train cfg));
  do opt <- lift (optimizer_class (Train cfg) m (optimizer_args (Train cfg)));
  let num_epochs := num_epochs (Train cfg) in
  if use_scheduler (Train cfg) then
    let opt := Adam m (Py.of_int 0) in
    let total_training_steps := num_epochs * dl_len train_loader in
    let cycle_len := total_training_steps / 10 in
    let warmup_steps := cycle_len / 10 in
    do sch <- lift (CosineAnnealingWarmUpRestarts opt cycle_len 1 warmup_steps
                                                  eta_max gamma);
    print ("Scheduling with cycle length " +:+ Py.str cycle_len +:+
           " and warmup steps " +:+ Py.str warmup_steps);;
    print "Optimizer is changed to Adam with lr=0 due to scheduler.";;
    ret (crit, opt, Some sch)
  else ret (crit, opt, None).

(** Lines 134-175: seeding, the data, the two loaders and the fresh model. *)
Definition prepare (cfg : config) : M (DataLoader * DataLoader * model) :=
  set_seed (seed cfg);;
  do files <- read_data_files;
  do dp <- try_with_rng
             (data_provider files (epi_path (Data cfg)) (epi_args (Data cfg))
                            (hla_path (Data cfg)) (hla_args (Data cfg)) None);
  let n := length (samples dp) in
  print ("Total samples: " +:+ Py.str (Z.of_nat n));;
  let y := rs_label <$> samples dp in
  do '(train_indices, val_indices) <-
       lift (train_test_split (seq 0 n) y (val_size (Data cfg)));
  do full_dataset <- lift (encoder cfg dp (encoder_args cfg) files);
  let train_dataset := Subset full_dataset train_indices in
  let val_dataset := Subset full_dataset val_indices in
  print ("Samples in train set: " +:+ Py.str (Z.of_nat (length train_dataset)));;
  print ("Samples in validation set: " +:+ Py.str (Z.of_nat (length val_dataset)));;
  let batch_size := batch_size (Train cfg) in
  do train_loader <- lift (mk_DataLoader train_dataset batch_size true);
  do val_loader <- lift (mk_DataLoader val_dataset batch_size false);
  do m <- try_with_rng (model_class cfg (model_args cfg));
  let dev := torch_device in
  let m := model_to m dev in
  print ("Model loaded on " +:+ device_str dev);;
  ret (train_loader, val_loader, m).

(** Lines 196-235: the optimizer, the checkpoint directory, then the
    training itself. *)
Definition train_from (cfg : config) (m : model)
    (train_loader val_loader : DataLoader) : M unit :=
  do '(crit, opt, sch) <- make_optimizer cfg m train_loader;
  os_makedirs (chkp_path cfg) true;;
  train_model m train_loader val_loader crit opt torch_device (log_file cfg)
              (num_epochs (Train cfg)) (patience (Train cfg))
              (OsPath.join (chkp_path cfg) (chkp_name cfg))
              (regularize (Train cfg)) sch.

(** The body of [main] once the configuration is loaded. *)
Definition main_with (cfg : config) : M unit :=
  do '(train_loader, val_loader, m) <- prepare cfg;
  do m <- load_transfer cfg m;
  train_from cfg m train_loader val_loader.

Definition main (config_path : string) : M unit :=
  do cfg <- load_config config_path;
  main_with cfg.

(** ** test.py: [test_model] and the two curve functions (lines 23-54) *)

(** [np.concatenate(arrays)] along the first axis. *)
Definition np_concatenate (arrays : list (list Py.float)) : Py.exn + list Py.float :=
  match arrays with
  | [] => inl (Py.ValueError "need at least one array to concatenate")
  | _ => inr (concat arrays)
  end.

Definition test_model (m : model) (dataloader : DataLoader) (dev : device)
  : M (list Py.float) :=
  let m := model_eval m in
  do batches <- with_rng (dl_iter dataloader);
  do all_preds <-
    foldM (fun all_preds b =>
             do out <- with_rng (model_call m (batch_X b));
             ret (all_preds ++ [values out]))
          batches [];
  lift (np_concatenate all_preds).

(** Lines 35-40 and 46-51: the labels and the predictions both curve
    functions compare. *)
Definition labels_and_predictions (dp : provider) (m : model) (cfg : config)
    (dev : device) : M (list Py.float * list Py.float) :=
  do files <- read_data_files;
  do ds <- lift (encoder cfg dp (encoder_args cfg) files);
  let batch_size :=
    match test_batch_size (Test cfg) with
    | Some b => b
    | None => Z.of_nat (length ds)
    end in
  do dataloader <- lift (mk_DataLoader ds batch_size false);
  let y := rs_label <$> samples dp in
  do y_pred <- test_model m dataloader dev;
  ret (y, y_pred).

Definition calculate_roc_auc (dp : provider) (m : model) (cfg : config)
    (dev : device) : M (list Py.float * list Py.float * Py.float) :=
  do '(y, y_pred) <- labels_and_predictions dp m cfg dev;
  do '(fpr, tpr, _) <- lift (roc_curve y y_pred);
  do roc_auc <- lift (auc fpr tpr);
  ret (fpr, tpr, roc_auc).

Definition calculate_pr_auc (dp : provider) (m : model) (cfg : config)
    (dev : device) : M (list Py.float * list Py.float * Py.float) :=
  do '(y, y_pred) <- labels_and_predictions dp m cfg dev;
  do '(precision, recall, _) <- lift (precision_recall_curve y y_pred);
  do pr_auc <- lift (auc recall precision);
  ret (precision, recall, pr_auc).

(** ** test.py: [main] (lines 56-152) *)

(** Lines 72-77: the fresh model and the weights of the checkpoint named by
    [config["Test"]["chkp_prefix"]]. *)
Definition load_test_model (cfg : config) : M model :=
  do m <- try_with_rng (model_class cfg (model_args cfg));
  let dev := torch_device in
  let model_path :=
    OsPath.join (chkp_path cfg)
                (chkp_name cfg +:+ "-" +:+ test_chkp_prefix (Test cfg) +:+ ".pt") in
  do sd <- torch_load model_path;
  do m <- lift (load_state_dict m sd);
  let m := model_to m dev in
  print ("Model loaded on " +:+ device_str dev);;
  ret m.

(** The [DataProvider] over the test data, for every HLA or for one
    [specific_hla] (lines 64-69, 82, 121, 139). *)
Definition test_provider (cfg : config) (specific_hla : option string)
  : M provider :=
  do files <- read_data_files;
  try_with_rng (data_provider files (test_path (Data cfg)) (test_args (Data cfg))
                              (hla_path (Data cfg)) (hla_args (Data cfg))
                              specific_hla).

(** [plt.plot([0, 1], [0, 1], color='black', ..)]. *)
Definition diagonal : curve :=
  Curve [Py.zero; Py.one] [Py.zero; Py.one] None "black".

Definition newline : string := String (Ascii.ascii_of_nat 10) EmptyString.

(** Lines 84-93.  [test_model] puts the one model object into evaluation
    mode ([model.eval()]): the model is returned as the call leaves it. *)
Definition roc_figure (dp : provider) (m : model) (cfg : config) (dev : device)
  : M (figure * model) :=
  do '(fpr, tpr, roc_auc) <- calculate_roc_auc dp m cfg dev;
  ret (Figure "Receiver Operating Characteristic (All HLAs)"
              [Curve fpr tpr (Some (RocLabel roc_auc)) "lightseagreen"; diagonal],
       model_eval m).

(** Lines 101-109. *)
Definition pr_figure (dp : provider) (m : model) (cfg : config) (dev : device)
  : M (figure * model) :=
  do '(precision, recall, pr_auc) <- calculate_pr_auc dp m cfg dev;
  ret (Figure "Precision-Recall Curve (All HLAs)"
              [Curve recall precision (Some (PrLabel pr_auc)) "purple"],
       model_eval m).

(** Lines 120-124: one pass of the loop over the top HLAs; [index] is the
    number of curves drawn so far. *)
Definition hla_roc_curve (cfg : config) (dev : device) (colors : nat -> string)
    (st : list curve * model) (hla : string) : M (list curve * model) :=
  let '(curves, m) := st in
  let index := length curves in
  do data_provider_hla <- test_provider cfg (Some hla);
  print ("Samples in test set for " +:+ hla +:+ ": " +:+
         Py.str (Z.of_nat (length (samples data_provider_hla))));;
  do '(fpr, tpr, roc_auc) <- calculate_roc_auc data_provider_hla m cfg dev;
  ret (curves ++ [Curve fpr tpr (Some (HlaLabel hla roc_auc)) (colors index)],
       model_eval m).

(** Lines 138-143. *)
Definition hla_pr_curve (cfg : config) (dev : device) (colors : nat -> string)
    (st : list curve * model) (hla : string) : M (list curve * model) :=
  let '(curves, m) := st in
  let index := length curves in
  do data_provider_hla <- test_provider cfg (Some hla);
  do '(precision, recall, pr_auc) <-
       calculate_pr_auc data_provider_hla m cfg dev;
  ret (curves ++ [Curve recall precision (Some (HlaLabel hla pr_auc))
                        (colors index)],
       model_eval m).

Definition roc_path (cfg : config) : string :=
  plot_path cfg +:+ "/roc_curve-" +:+ chkp_name cfg +:+ ".png".
Definition pr_path (cfg : config) : string :=
  plot_path cfg +:+ "/pr_curve-" +:+ chkp_name cfg +:+ ".png".
Definition roc_hla_path (cfg : config) : string :=
  plot_path cfg +:+ "/roc_curve_hla-" +:+ chkp_name cfg +:+ ".png".
Definition pr_hla_path (cfg : config) : string :=
  plot_path cfg +:+ "/pr_curve_hla-" +:+ chkp_name cfg +:+ ".png".

(** The body of [main] of test.py once the configuration is loaded. *)
Definition test_main_with (cfg : config) : M unit :=
  os_makedirs (plot_path cfg) true;;
  (* Model loading *)
  do m <- load_test_model cfg;
  let dev := torch_device in
  (* General ROC curve *)
  do data_provider <- test_provider cfg None;
  print ("Samples in test set: " +:+
         Py.str (Z.of_nat (length (samples data_provider))));;
  do '(fig, m) <- roc_figure data_provider m cfg dev;
  savefig (roc_path cfg) fig;;
  print ("ROC curve saved as " +:+ roc_path cfg +:+ newline);;
  (* General Precision-Recall curve *)
  do '(fig, m) <- pr_figure data_provider m cfg dev;
  savefig (pr_path cfg) fig;;
  print ("Precision-Recall curve saved as " +:+ pr_path cfg +:+ newline);;
  (* ROC curve for each of the top HLAs (lines 117-134) *)
  let top_10_hlas := top_10_hlas data_provider in
  do colors <- lift get_cmap;
  do '(curves, m) <- foldM (hla_roc_curve cfg dev colors) top_10_hlas ([], m);
  savefig (roc_hla_path cfg)
          (Figure "Receiver Operating Characteristic (Top 10 HLAs)"
                  (curves ++ [diagonal]));;
  print ("ROC curve saved as " +:+ roc_hla_path cfg);;
  (* PR curve for each of the top HLAs (lines 137-152) *)
  do '(curves, m) <- foldM (hla_pr_curve cfg dev colors) top_10_hlas ([], m);
  savefig (pr_hla_path cfg)
          (Figure "Precision-Recall Curve (Top 10 HLAs)" curves);;
  print ("Precision-Recall curve saved as " +:+ pr_hla_path cfg +:+ newline).

Definition test_main (config_path : string) : M unit :=
  do cfg <- load_config config_path;
  test_main_with cfg.

End Program.

(** ** A small concrete backend

    A model is the list of the losses it will produce: a forward pass
    predicts the head of the list for every sample of the batch, the
    criterion reports that value as the loss, and an optimizer step drops
    the head.  It is used to run the program on concrete inputs. *)

Module Toy.

Definition hd_or_zero (l : list Py.float) : Py.float := List.hd Py.zero l.

(** The predictions above 0.5 that equal their label, for a prediction
    vector and a label vector of the same shape. *)
Definition count_equal (outputs Y : list Py.float) : Z :=
  Z.of_nat (length (filter (fun py => Py.feq py.1 py.2 = true)
                           (zip ((fun o => if Py.flt Py.half o then Py.one else Py.zero)
                                   <$> outputs) Y))).

Definition unpickling_error (content : option string) : Py.exn :=
  Py.UnpicklingError "invalid load key".

Definition import_error (path : string) (content : option string) : Py.exn :=
  match content with
  | Some _ => Py.AttributeError "module 'config' has no attribute 'config'"
  | None => Py.FileNotFoundError path
  end.

(** The first colours of the colormap, by name. *)
Definition tab10 (index : nat) : string :=
  nth index ["tab:blue"; "tab:orange"; "tab:green"; "tab:red"; "tab:purple";
             "tab:brown"; "tab:pink"; "tab:gray"; "tab:olive"; "tab:cyan"]
      "tab:cyan".

Definition load (m sd : list Py.float) : Py.exn + list Py.float :=
  match sd with
  | [] => inl (Py.RuntimeError "Error(s) in loading state_dict")
  | _ => inr sd
  end.

Definition provide (files : string -> option string) (epi : string)
    (epi_args : kwargs) (hla : string) (hla_args : kwargs)
    (specific_hla : option string) (r : rng nat)
  : (Py.exn + provider) * rng nat :=
  match files epi with
  | Some content =>
      (inr (Provider ((fun _ => RawSample "epi" "hla" Py.one)
                        <$> seq 0 (String.length content)) []), r)
  | None => (inl (Py.FileNotFoundError epi), r)
  end.

(** The last [ceil(n * test_size)] indices form the validation set, here
    always the last one. *)
Definition split (idx : list nat) (y : list Py.float) (test_size : Py.float)
  : Py.exn + (list nat * list nat) :=
  match idx with
  | [] | [_] => inl (Py.ValueError "the resulting train set will be empty")
  | _ => inr (take (length idx - 1)%nat idx, drop (length idx - 1)%nat idx)
  end.

Lemma identity_perm (n : nat) (r : rng nat) :
  Permutation ((fun n (r : rng nat) => (seq 0 n, r)) n r).1 (seq 0 n).
Proof. reflexivity. Qed.

Definition backend : Backend := {|
  feat := Py.float;
  tensor := list Py.float;
  model := list Py.float;
  optimizer := nat;
  scheduler := nat;
  criterion := unit;
  state_dict := list Py.float;
  gen := nat;
  timestamp := Z;
  py_seed := fun s => Z.to_nat s;
  np_seed := fun s => Z.to_nat s;
  torch_seed := fun s => Z.to_nat s;
  cuda_seed := fun s => Z.to_nat s;
  cuda_is_available := false;
  model_train := fun m => m;
  model_eval := fun m => m;
  model_call := fun m X r => ((fun _ => hd_or_zero m) <$> X, r);
  model_regularize := fun m loss dev => loss;
  model_to := fun m dev => m;
  get_state_dict := fun m => m;
  load_state_dict := load;
  criterion_call := fun c outputs Y => [hd_or_zero outputs];
  backward := fun loss m => m;
  item := hd_or_zero;
  count_correct := count_equal;
  values := fun t => t;
  zero_grad := fun opt m => m;
  optimizer_step := fun opt m => (S opt, List.tl m);
  scheduler_step := fun sch opt => (S sch, opt);
  Adam := fun m lr => O;
  CosineAnnealingWarmUpRestarts := fun opt t0 tmult tup eta g => inr O;
  randperm := fun n r => (seq 0 n, r);
  randperm_perm := identity_perm;
  elapsed := fun t1 t0 => t1 - t0;
  data_provider := provide;
  train_test_split := split;
  roc_curve := fun y p => inl (Py.ValueError "not available");
  precision_recall_curve := fun y p => inl (Py.ValueError "not available");
  auc := fun x y => inl (Py.ValueError "not available");
  torch_load_error := unpickling_error;
  config_error := import_error;
  torch_save_error := fun e => e;
  get_cmap := inr tab10;
|}.

Definition rng0 : rng nat := Rng O O O O false true.

Definition world0 : world (B := backend) :=
  @World backend rng0 (fun n => Z.of_nat n) O ∅ [] [].

(** A loader over [n] samples in one batch. *)
Definition loader (n : nat) : DataLoader (B := backend) :=
  @Build_DataLoader backend ((fun _ => (Py.one, Py.one)) <$> seq 0 n) 128 false.

(** [train_loop] over a two-sample train set and a one-sample validation
    set, for the model [script]. *)
Definition run (script : list Py.float) (num_epochs patience : Z) :=
  train_loop (B := backend) script (loader 2) (loader 1) tt O Cpu
             num_epochs patience "models/demo" false None world0.

Definition f (n : Z) : Py.float := Py.of_int n.

End Toy.

(** * Properties *)

Section Proofs.

Context `{B : Backend}.

(** ** The monad *)

Definition upd_rng (w : world) (r : rng gen) : world :=
  World r (w_clock w) (w_ticks w) (w_files w) (w_stdout w) (w_log w).

Lemma upd_rng_id (w : world) : upd_rng w (w_rng w) = w.
Proof. by destruct w. Qed.

Lemma upd_rng_upd (w : world) (r r' : rng gen) :
  upd_rng (upd_rng w r) r' = upd_rng w r'.
Proof. done. Qed.

Lemma bind_inr {A C} (m : M A) (k : A -> M C) (w w' : world) (c : C) :
  bind m k w = (inr c, w') ->
  exists a w1, m w = (inr a, w1) /\ k a w1 = (inr c, w').
Proof.
  unfold bind. destruct (m w) as [[e|a] w1]; [discriminate | eauto].
Qed.

Lemma bind_run {A C} (m : M A) (k : A -> M C) (w w1 : world) (a : A) :
  m w = (inr a, w1) -> bind m k w = k a w1.
Proof. unfold bind. by intros ->. Qed.

Lemma bind_raise {A C} (m : M A) (k : A -> M C) (w w1 : world) (e : Py.exn) :
  m w = (inl e, w1) -> bind m k w = (inl e, w1).
Proof. unfold bind. by intros ->. Qed.

Lemma with_rng_run {A} (f : rng gen -> A * rng gen) (w : world) :
  with_rng f w = (inr (f (w_rng w)).1, upd_rng w (f (w_rng w)).2).
Proof. unfold with_rng. by destruct (f (w_rng w)). Qed.

(** A computation that only draws from the generators: it returns, and the
    rest of the world is as before. *)
Definition rng_only {A} (m : M A) : Prop :=
  forall w, exists a r, m w = (inr a, upd_rng w r).

Lemma rng_only_ret {A} (a : A) : rng_only (ret a).
Proof. intros w. exists a, (w_rng w). by rewrite upd_rng_id. Qed.

Lemma rng_only_with_rng {A} (f : rng gen -> A * rng gen) : rng_only (with_rng f).
Proof. intros w. rewrite with_rng_run. eauto. Qed.

Lemma rng_only_bind {A C} (m : M A) (k : A -> M C) :
  rng_only m -> (forall a, rng_only (k a)) -> rng_only (bind m k).
Proof.
  intros Hm Hk w. destruct (Hm w) as (a & r & Ha).
  rewrite (bind_run _ _ _ _ _ Ha).
  destruct (Hk a (upd_rng w r)) as (c & r' & Hc). rewrite Hc. eauto.
Qed.

Lemma rng_only_foldM {A S} (f : S -> A -> M S) (l : list A) :
  (forall s a, rng_only (f s a)) -> forall s, rng_only (foldM f l s).
Proof.
  intros Hf. induction l as [|a l IH]; intros s; simpl.
  - apply rng_only_ret.
  - apply rng_only_bind; auto.
Qed.

(** ** Loaders *)

Lemma chunks_fuel_concat {A} (fuel bs : nat) (l : list A) :
  (0 < bs)%nat -> (length l <= fuel)%nat -> concat (chunks_fuel fuel bs l) = l.
Proof.
  intros Hbs. revert l. induction fuel as [|fuel IH]; intros l Hl; simpl.
  - destruct l; [done | simpl in Hl; lia].
  - destruct l as [|x l]; [done |].
    simpl. rewrite IH; [apply take_drop |].
    rewrite length_drop. simpl in *. lia.
Qed.

Lemma chunks_concat {A} (bs : nat) (l : list A) :
  (0 < bs)%nat -> concat (chunks bs l) = l.
Proof. intros. by apply chunks_fuel_concat. Qed.

Lemma chunks_nil_iff {A} (bs : nat) (l : list A) : chunks bs l = [] <-> l = [].
Proof.
  unfold chunks. destruct l; simpl; split; done.
Qed.

Lemma omap_lookup_perm {A} (l : list A) (perm : list nat) :
  Permutation perm (seq 0 (length l)) -> length (omap (fun i => l !! i) perm) = length l.
Proof.
  intros Hp.
  assert (Hall : Forall (fun i => (i < length l)%nat) perm).
  { rewrite Forall_forall. intros i Hi. apply list_elem_of_In in Hi.
    apply (Permutation_in _ Hp) in Hi. apply in_seq in Hi. lia. }
  transitivity (length perm).
  - clear Hp. induction perm as [|i perm IH]; [done |].
    inversion Hall as [|? ? Hi Hrest]; subst. simpl.
    destruct (lookup_lt_is_Some_2 l i Hi) as [x Hx]. rewrite Hx. simpl.
    f_equal. by apply IH.
  - rewrite (Permutation_length Hp). apply length_seq.
Qed.

(** The batches of one pass hold every sample of the dataset once. *)
Lemma dl_iter_total (dl : DataLoader) (r : rng gen) :
  0 < dl_batch_size dl ->
  length (concat (dl_iter dl r).1) = length (dl_dataset dl).
Proof.
  intros Hbs. unfold dl_iter.
  assert (0 < Z.to_nat (dl_batch_size dl))%nat by lia.
  destruct (dl_shuffle dl).
  - pose proof (randperm_perm (length (dl_dataset dl)) r) as Hp.
    destruct (randperm _ r) as [perm r']. simpl in *.
    rewrite chunks_concat by done. by apply omap_lookup_perm.
  - simpl. by rewrite chunks_concat.
Qed.

Lemma dl_iter_nil (dl : DataLoader) (r : rng gen) :
  dl_dataset dl = [] -> (dl_iter dl r).1 = [].
Proof.
  intros Hds. unfold dl_iter. rewrite Hds. simpl.
  destruct (dl_shuffle dl); [| done].
  pose proof (randperm_perm 0 r) as Hp.
  destruct (randperm 0 r) as [perm r']. simpl in *.
  apply Permutation_sym, Permutation_nil in Hp. by subst.
Qed.

Lemma dl_len_zero (dl : DataLoader) :
  0 < dl_batch_size dl -> dl_dataset dl = [] -> dl_len dl = 0.
Proof.
  intros Hbs Hds. unfold dl_len. rewrite Hds. simpl.
  apply Z.div_small. lia.
Qed.

Lemma dl_len_pos (dl : DataLoader) :
  0 < dl_batch_size dl -> dl_dataset dl <> [] -> 0 < dl_len dl.
Proof.
  intros Hbs Hds. unfold dl_len.
  assert (0 < length (dl_dataset dl))%nat.
  { destruct (dl_dataset dl); [done | simpl; lia]. }
  apply Z.div_str_pos. lia.
Qed.

(** ** Paths *)

Lemma append_cons (c : ascii) (x s : string) :
  String c x +:+ s = String c (x +:+ s).
Proof. done. Qed.

Lemma append_nil_inv (a b : string) : a +:+ b = "" -> a = "" /\ b = "".
Proof. by destruct a. Qed.

Lemma append_assoc (a b c : string) : (a +:+ b) +:+ c = a +:+ (b +:+ c).
Proof.
  induction a as [|x a IH]; [done |].
  change (String x ((a +:+ b) +:+ c) = String x (a +:+ (b +:+ c))).
  by rewrite IH.
Qed.

Lemma ends_with_slash_app (x s : string) :
  s <> "" -> OsPath.ends_with_slash (x +:+ s) = OsPath.ends_with_slash s.
Proof.
  intros Hs. induction x as [|c x IH]; [done |].
  rewrite append_cons. cbn [OsPath.ends_with_slash]. rewrite IH.
  destruct (x +:+ s) eqn:Hx; [| done].
  by apply append_nil_inv in Hx as [_ ?].
Qed.

Lemma rstrip_slash_id (s : string) :
  OsPath.ends_with_slash s = false -> OsPath.rstrip_slash s = s.
Proof.
  induction s as [|c s IH]; [done |]. cbn [OsPath.ends_with_slash OsPath.rstrip_slash].
  destruct s as [|c' s].
  - unfold OsPath.is_slash. simpl. by intros ->.
  - intros H. rewrite (IH H). done.
Qed.

Lemma ends_with_slash_rstrip (s : string) :
  OsPath.ends_with_slash (OsPath.rstrip_slash s) = false.
Proof.
  induction s as [|c s IH]; [done |]. cbn [OsPath.rstrip_slash].
  destruct (OsPath.rstrip_slash s) as [|c' r] eqn:Hr.
  - unfold OsPath.is_slash. destruct (ascii_dec c "/") as [|Hc]; [done |].
    simpl. by destruct (ascii_dec c "/").
  - done.
Qed.

Lemma rstrip_slash_idem (s : string) :
  OsPath.rstrip_slash (OsPath.rstrip_slash s) = OsPath.rstrip_slash s.
Proof. apply rstrip_slash_id, ends_with_slash_rstrip. Qed.

Lemma is_root_ends (s : string) :
  OsPath.is_root s = true -> OsPath.ends_with_slash s = true.
Proof.
  unfold OsPath.is_root. destruct s as [|c s]; [done |].
  intros H%bool_decide_eq_true.
  destruct (OsPath.ends_with_slash (String c s)) eqn:He; [done |].
  rewrite (rstrip_slash_id _ He) in H. done.
Qed.

Lemma contains_slash_app (x s : string) :
  OsPath.contains_slash (x +:+ s)
  = OsPath.contains_slash x || OsPath.contains_slash s.
Proof.
  induction x as [|c x IH]; [done |].
  rewrite append_cons. cbn [OsPath.contains_slash]. rewrite IH. apply orb_assoc.
Qed.

Lemma rpartition_no_slash (s : string) :
  OsPath.contains_slash s = false -> OsPath.rpartition s = ("", s).
Proof.
  destruct s as [|c s]; [done |]. cbn [OsPath.contains_slash OsPath.rpartition].
  intros [Hc Hs]%orb_false_iff. by rewrite Hs, Hc.
Qed.

Lemma rpartition_app (p s : string) :
  OsPath.contains_slash s = false ->
  OsPath.rpartition (p +:+ s)
  = ((OsPath.rpartition p).1, (OsPath.rpartition p).2 +:+ s).
Proof.
  intros Hs. induction p as [|c p IH].
  - simpl. by rewrite rpartition_no_slash.
  - rewrite append_cons. cbn [OsPath.rpartition].
    rewrite contains_slash_app, Hs, orb_false_r.
    destruct (OsPath.contains_slash p).
    + rewrite IH. by destruct (OsPath.rpartition p).
    + destruct (OsPath.is_slash c); done.
Qed.

(** A suffix without a slash does not change the directory part. *)
Lemma dirname_app (p s : string) :
  OsPath.contains_slash s = false -> OsPath.dirname (p +:+ s) = OsPath.dirname p.
Proof.
  intros Hs. unfold OsPath.dirname, OsPath.split.
  rewrite (rpartition_app _ _ Hs). by destruct (OsPath.rpartition p).
Qed.

(** A directory part is empty, the root, or free of slashes at its end. *)
Lemma dirname_shape (p : string) :
  OsPath.dirname p = "" \/ OsPath.is_root (OsPath.dirname p) = true \/
  OsPath.ends_with_slash (OsPath.dirname p) = false.
Proof.
  unfold OsPath.dirname, OsPath.split.
  destruct (OsPath.rpartition p) as [head tail]. simpl.
  destruct (OsPath.rstrip_slash head) as [|c r] eqn:Hr.
  - destruct head as [|c h]; [by left |]. right; left.
    unfold OsPath.is_root. by apply bool_decide_eq_true.
  - right; right. rewrite <- Hr. apply ends_with_slash_rstrip.
Qed.

Lemma length_append (a b : string) :
  String.length (a +:+ b) = (String.length a + String.length b)%nat.
Proof. induction a as [|c a IH]; [done |]. rewrite append_cons. simpl. by rewrite IH. Qed.

Lemma is_dots_length (p : string) :
  OsPath.is_dots p = true -> (String.length p <= 2)%nat.
Proof.
  unfold OsPath.is_dots.
  intros [->%bool_decide_eq_true | ->%bool_decide_eq_true]%orb_true_iff; simpl; lia.
Qed.


(** ** The file system *)

(** The directory of [model_path] is there, and the path of the "best"
    checkpoint is not a directory. *)
Definition checkpoint_ready (fs : gmap string file) (mp : string) : Prop :=
  fs_isdir fs (OsPath.dirname mp) = true /\ fs !! best_path mp <> Some Directory.

(** The log file can be opened for appending (no file is opened for an
    empty name). *)
Definition log_opens (fs : gmap string file) (lf : string) : Prop :=
  lf = "" \/
  (OsPath.rstrip_slash lf <> "" /\ fs_open_write fs (OsPath.rstrip_slash lf) = None).

Lemma fs_isdir_exists (fs : gmap string file) (d : string) :
  fs_isdir fs d = true -> fs_exists fs d = true.
Proof.
  unfold fs_exists. destruct d as [|c d]; [done |].
  destruct (OsPath.ends_with_slash (String c d)) eqn:He; [done |].
  unfold fs_isdir. rewrite (rstrip_slash_id _ He).
  destruct (OsPath.is_root (String c d)) eqn:Hroot.
  { apply is_root_ends in Hroot. congruence. }
  destruct (OsPath.is_dots (String c d)); [done |]. simpl.
  destruct (fs !! String c d) as [f|]; [| done].
  intros _. apply bool_decide_eq_true. eauto.
Qed.

Lemma fs_isdir_insert (fs : gmap string file) (k : string) (f : file) (d : string) :
  fs !! k <> Some Directory ->
  fs_isdir fs d = true -> fs_isdir (<[k := f]> fs) d = true.
Proof.
  intros Hk. unfold fs_isdir. destruct d as [|c d]; [done |].
  destruct (OsPath.is_root _ || OsPath.is_dots _); [done |]. simpl.
  destruct (decide (k = OsPath.rstrip_slash (String c d))) as [-> | Hne].
  - destruct (fs !! _) as [[]|]; done.
  - by rewrite lookup_insert_ne.
Qed.

Lemma checkpoint_ready_insert (fs : gmap string file) (mp k : string) (f : file) :
  f <> Directory -> fs !! k <> Some Directory ->
  checkpoint_ready fs mp -> checkpoint_ready (<[k := f]> fs) mp.
Proof.
  intros Hf Hk [Hdir Hbest]. split; [by apply fs_isdir_insert |].
  destruct (decide (k = best_path mp)) as [-> | Hne].
  - rewrite lookup_insert_eq. congruence.
  - by rewrite lookup_insert_ne.
Qed.

Lemma parent_of_file (fs : gmap string file) (p path : string) :
  fs_isdir fs (OsPath.dirname p) = true ->
  parent_error fs (OsPath.dirname p) path = None.
Proof.
  unfold parent_error, fs_isdir.
  destruct (dirname_shape p) as [-> | [Hroot | Hend]]; [done | |].
  - destruct (OsPath.dirname p); [done |]. by rewrite Hroot.
  - rewrite (rstrip_slash_id _ Hend).
    destruct (OsPath.dirname p) as [|c d]; [done |].
    destruct (OsPath.is_root _ || OsPath.is_dots _); [done |]. simpl.
    by destruct (fs !! String c d) as [[]|].
Qed.

Lemma best_path_dirname (mp : string) :
  OsPath.dirname (best_path mp) = OsPath.dirname mp.
Proof. by apply dirname_app. Qed.

(** A name with an extension is a plain file name: not empty, no slash at
    its end, not a dot name. *)
Lemma file_name_shape (p s : string) :
  s <> "" -> OsPath.ends_with_slash s = false -> (2 < String.length s)%nat ->
  p +:+ s <> "" /\ OsPath.ends_with_slash (p +:+ s) = false /\
  OsPath.is_dots (p +:+ s) = false.
Proof.
  intros Hs He Hlen. split_and!.
  - by intros [_ ?]%append_nil_inv.
  - by rewrite ends_with_slash_app.
  - destruct (OsPath.is_dots (p +:+ s)) eqn:Hd; [| done].
    apply is_dots_length in Hd. rewrite length_append in Hd. lia.
Qed.

Lemma fs_open_write_file (fs : gmap string file) (p s : string) :
  s <> "" -> OsPath.ends_with_slash s = false -> (2 < String.length s)%nat ->
  OsPath.contains_slash s = false ->
  fs_isdir fs (OsPath.dirname p) = true ->
  fs !! (p +:+ s) <> Some Directory ->
  fs_open_write fs (p +:+ s) = None.
Proof.
  intros Hs He Hlen Hslash Hdir Hfile.
  destruct (file_name_shape p s Hs He Hlen) as (Hne & Hend & Hdots).
  unfold fs_open_write. rewrite Hend, Hdots, (dirname_app _ _ Hslash).
  destruct (p +:+ s) as [|c x] eqn:Hp; [done |].
  destruct (fs !! String c x) as [[]|]; try done; by apply parent_of_file.
Qed.

Lemma fs_exists_file (fs : gmap string file) (p s : string) :
  s <> "" -> OsPath.ends_with_slash s = false -> (2 < String.length s)%nat ->
  fs_exists fs (p +:+ s) = bool_decide (is_Some (fs !! (p +:+ s))).
Proof.
  intros Hs He Hlen.
  destruct (file_name_shape p s Hs He Hlen) as (Hne & Hend & Hdots).
  unfold fs_exists. rewrite Hend, Hdots. by destruct (p +:+ s).
Qed.

(** Joining keeps the extension of the file name. *)
Lemma join_ext (a b s : string) : exists p, OsPath.join a (b +:+ s) = p +:+ s.
Proof.
  unfold OsPath.join. destruct (OsPath.starts_with_slash _); [by exists b |].
  destruct (_ || _).
  - exists (a +:+ b). by rewrite append_assoc.
  - exists (a +:+ "/" +:+ b). by rewrite !append_assoc.
Qed.

(** The path of a checkpoint exists when the file system has an entry for
    it. *)
Lemma checkpoint_path_exists (fs : gmap string file) (dir name suffix : string) :
  let path := OsPath.join dir (name +:+ "-" +:+ suffix +:+ ".pt") in
  fs_exists fs path = bool_decide (is_Some (fs !! path)).
Proof.
  intros path. subst path.
  replace (name +:+ "-" +:+ suffix +:+ ".pt")
    with ((name +:+ "-" +:+ suffix) +:+ ".pt") by (by rewrite !append_assoc).
  destruct (join_ext dir (name +:+ "-" +:+ suffix) ".pt") as [p ->].
  apply fs_exists_file; try done. simpl. lia.
Qed.

Lemma open_best (fs : gmap string file) (mp : string) :
  checkpoint_ready fs mp -> fs_open_write fs (best_path mp) = None.
Proof.
  intros [Hdir Hbest]. apply fs_open_write_file; try done. simpl. lia.
Qed.

(** An entry of the file system after [os.makedirs] is as it was, or a
    directory that was not there. *)
Definition grown (fs fs' : gmap string file) : Prop :=
  forall k, fs' !! k = fs !! k \/ (fs !! k = None /\ fs' !! k = Some Directory).

Lemma grown_refl (fs : gmap string file) : grown fs fs.
Proof. intros k. by left. Qed.

Lemma grown_trans (fs1 fs2 fs3 : gmap string file) :
  grown fs1 fs2 -> grown fs2 fs3 -> grown fs1 fs3.
Proof.
  intros H12 H23 k. destruct (H12 k) as [H1 | [H1 H1']], (H23 k) as [H2 | [H2 H2']].
  - left. congruence.
  - right. split; congruence.
  - right. split; congruence.
  - congruence.
Qed.

Lemma mkdir_grown (fs fs' : gmap string file) (name : string) :
  mkdir fs name = inr fs' -> grown fs fs'.
Proof.
  unfold mkdir. destruct name as [|c n]; [done |].
  destruct (OsPath.is_root _ || OsPath.is_dots _) eqn:H1; [done |]. simpl.
  destruct (bool_decide _) eqn:H2; [done |].
  destruct (parent_error _ _ _); [done |]. intros [= <-] k.
  apply bool_decide_eq_false in H2.
  destruct (decide (k = OsPath.rstrip_slash (String c n))) as [-> | Hne].
  - right. rewrite lookup_insert_eq. split; [| done].
    destruct (fs !! _) eqn:E; [| done]. exfalso. apply H2. eauto.
  - left. by rewrite lookup_insert_ne.
Qed.

Lemma makedirs_fuel_grown (fuel : nat) (name : string) (ok : bool)
    (fs fs' : gmap string file) :
  makedirs_fuel fuel name ok fs = inr fs' -> grown fs fs'.
Proof.
  revert name fs fs'. induction fuel as [|fuel IH]; intros name fs fs'; [done |].
  cbn [makedirs_fuel].
  destruct (OsPath.split name) as [head tail].
  destruct (match tail with "" => OsPath.split head | _ => (head, tail) end)
    as [head' tail'].
  assert (Hlast : forall fs1 fs2,
            match mkdir fs1 name with
            | inr fs'' => inr fs''
            | inl e => if ok && fs_isdir fs1 name then inr fs1 else inl e
            end = inr fs2 -> grown fs1 fs2).
  { intros fs1 fs2. destruct (mkdir fs1 name) as [e|fs''] eqn:Hm.
    - destruct (ok && fs_isdir fs1 name); [| done]. intros [= <-]. apply grown_refl.
    - intros [= <-]. by eapply mkdir_grown. }
  destruct (negb _ && negb _ && negb _); [| apply Hlast].
  destruct (makedirs_fuel fuel head' ok fs) as [e|fs1] eqn:Hrec.
  - destruct e; try done.
    destruct (bool_decide (tail' = ".")); [intros [= <-]; apply grown_refl | apply Hlast].
  - specialize (IH _ _ _ Hrec).
    destruct (bool_decide (tail' = ".")); [by intros [= <-] |].
    intros H. eapply grown_trans; [done | by apply Hlast].
Qed.

Lemma makedirs_grown (name : string) (ok : bool) (fs fs' : gmap string file) :
  makedirs name ok fs = inr fs' -> grown fs fs'.
Proof. apply makedirs_fuel_grown. Qed.

Lemma makedirs_empty (ok : bool) (fs : gmap string file) :
  makedirs "" ok fs = inl (Py.FileNotFoundError "").
Proof. unfold makedirs. simpl. by rewrite andb_false_r. Qed.

(** ** One pass over a loader *)

(** The three control variables of the loop are the same in both states. *)
Definition same_control (s s' : loop_state) : Prop :=
  best_loss s' = best_loss s /\
  epochs_no_improve s' = epochs_no_improve s /\
  early_stop s' = early_stop s.

Lemma same_control_refl (s : loop_state) : same_control s s.
Proof. by repeat split. Qed.

Lemma same_control_trans (s1 s2 s3 : loop_state) :
  same_control s1 s2 -> same_control s2 s3 -> same_control s1 s3.
Proof. unfold same_control. intuition congruence. Qed.

Lemma same_control_with_model (s : loop_state) (m : model) :
  same_control s (with_model s m).
Proof. by repeat split. Qed.

Lemma batch_Y_length (b : batch) : length (batch_Y b) = length b.
Proof. unfold batch_Y. apply length_fmap. Qed.

Lemma train_batch_run crit reg dev s acc (b : batch) (w : world) :
  exists s' acc' r,
    train_batch crit reg dev (s, acc) b w = (inr (s', acc'), upd_rng w r) /\
    same_control s s' /\
    sum_total acc' = sum_total acc + Z.of_nat (length b).
Proof.
  unfold train_batch.
  rewrite (bind_run _ _ _ _ _ (with_rng_run _ w)).
  destruct (model_call (ls_model s) (batch_X b) (w_rng w)) as [outputs r]. simpl.
  destruct (optimizer_step _ _) as [opt m].
  destruct (ls_scheduler s) as [sch|].
  - destruct (scheduler_step sch opt) as [sch' opt'].
    eexists _, _, r. split; [reflexivity |]. split; [by repeat split |].
    simpl. unfold size0. by rewrite batch_Y_length.
  - eexists _, _, r. split; [reflexivity |]. split; [by repeat split |].
    simpl. unfold size0. by rewrite batch_Y_length.
Qed.

Lemma train_pass_run crit reg dev (l : list batch) s acc (w : world) :
  exists s' acc' r,
    foldM (train_batch crit reg dev) l (s, acc) w = (inr (s', acc'), upd_rng w r) /\
    same_control s s' /\
    sum_total acc' = sum_total acc + Z.of_nat (length (concat l)) /\
    (l = [] -> acc' = acc).
Proof.
  revert s acc w. induction l as [|b l IH]; intros s acc w; simpl.
  - exists s, acc, (w_rng w). rewrite upd_rng_id.
    split; [done |]. split; [apply same_control_refl |].
    split; [simpl; lia | done].
  - destruct (train_batch_run crit reg dev s acc b w) as (s1 & acc1 & r1 & H1 & Hc1 & Ht1).
    rewrite (bind_run _ _ _ _ _ H1).
    destruct (IH s1 acc1 (upd_rng w r1)) as (s2 & acc2 & r2 & H2 & Hc2 & Ht2 & _).
    exists s2, acc2, r2. rewrite H2. split; [done |].
    split; [by eapply same_control_trans |].
    split; [| done]. rewrite Ht2, Ht1, length_app. lia.
Qed.

(** The outputs of model [m] on the batches [l], in their order, and the
    generators after the pass. *)
Fixpoint forward_pass (m : model) (l : list batch) (r : rng gen)
  : list tensor * rng gen :=
  match l with
  | [] => ([], r)
  | b :: l' =>
      let '(outputs, r1) := model_call m (batch_X b) r in
      let '(rest, r2) := forward_pass m l' r1 in
      (outputs :: rest, r2)
  end.

(** The loss of a batch, and the number of its predictions that are right,
    for the outputs of the model on it. *)
Definition batch_loss (crit : criterion) (outputs : tensor) (b : batch)
  : Py.float :=
  item (criterion_call crit outputs (batch_Y b)).

Definition batch_correct (outputs : tensor) (b : batch) : Z :=
  count_correct outputs (batch_Y b).

(** [0 + x1 + x2 + ..]: the running sum of a pass starts from the integer
    0. *)
Definition loss_sum (losses : list Py.float) : Py.number :=
  fold_left Py.add_float losses (Py.Int 0).

(** The average validation loss of model [m]: one pass over the validation
    loader, from the generators [r]; the sum of the batch losses over the
    number of batches. *)
Definition val_average (crit : criterion) (vl : DataLoader) (m : model)
    (r : rng gen) : Py.float :=
  let batches := (dl_iter vl r).1 in
  let outputs := (forward_pass m batches (dl_iter vl r).2).1 in
  Py.fdiv (Py.to_float (loss_sum (zip_with (batch_loss crit) outputs batches)))
          (Py.of_int (dl_len vl)).

(** The validation accuracy of model [m] in the same pass: the predictions
    that are right over the number of samples. *)
Definition val_accuracy (vl : DataLoader) (m : model) (r : rng gen) : Py.float :=
  let batches := (dl_iter vl r).1 in
  let outputs := (forward_pass m batches (dl_iter vl r).2).1 in
  Py.fdiv (Py.of_int (fold_left Z.add (zip_with batch_correct outputs batches) 0))
          (Py.of_int (Z.of_nat (length (dl_dataset vl)))).

Lemma val_batch_run crit m acc (b : batch) (w : world) :
  val_batch crit m acc b w =
    (inr (Sums (Py.add_float (sum_loss acc)
                  (batch_loss crit (model_call m (batch_X b) (w_rng w)).1 b))
               (sum_correct acc
                + batch_correct (model_call m (batch_X b) (w_rng w)).1 b)
               (sum_total acc + Z.of_nat (length b))),
     upd_rng w (model_call m (batch_X b) (w_rng w)).2).
Proof.
  unfold val_batch.
  rewrite (bind_run _ _ _ _ _ (with_rng_run _ w)).
  unfold ret, size0. by rewrite batch_Y_length.
Qed.

Lemma val_pass_run crit m (l : list batch) acc (w : world) :
  exists acc',
    foldM (val_batch crit m) l acc w
      = (inr acc', upd_rng w (forward_pass m l (w_rng w)).2) /\
    sum_loss acc'
      = fold_left Py.add_float
          (zip_with (batch_loss crit) (forward_pass m l (w_rng w)).1 l)
          (sum_loss acc) /\
    sum_correct acc'
      = fold_left Z.add
          (zip_with batch_correct (forward_pass m l (w_rng w)).1 l)
          (sum_correct acc) /\
    sum_total acc' = sum_total acc + Z.of_nat (length (concat l)) /\
    (l = [] -> acc' = acc).
Proof.
  revert acc w. induction l as [|b l IH]; intros acc w.
  - exists acc. simpl. rewrite upd_rng_id. split_and!; try done. lia.
  - cbn [foldM forward_pass].
    rewrite (bind_run _ _ _ _ _ (val_batch_run crit m acc b w)).
    destruct (model_call m (batch_X b) (w_rng w)) as [outputs r1] eqn:Hcall.
    cbn [fst snd].
    match goal with |- context [foldM _ l ?a ?w1] =>
      destruct (IH a w1) as (acc2 & H2 & Hl2 & Hc2 & Ht2 & _)
    end.
    cbn [upd_rng w_rng] in H2, Hl2, Hc2.
    destruct (forward_pass m l r1) as [rest r2] eqn:Hrest. cbn [fst snd] in *.
    exists acc2. rewrite H2. split_and!; try done.
    rewrite Ht2. cbn [sum_total concat]. rewrite length_app. lia.
Qed.

Lemma truediv_run (a : Py.number) (n : Z) :
  n <> 0 -> Py.truediv a n = inr (Py.fdiv (Py.to_float a) (Py.of_int n)).
Proof.
  intros Hn. unfold Py.truediv. destruct (Z.eqb_spec n 0); [done | done].
Qed.

Lemma truediv_zero (a : Py.number) : Py.truediv a 0 = inl Py.ZeroDivisionError.
Proof. done. Qed.

(** ** One epoch *)

(** [epoch+1 >= 30 and epoch + (1 % 5) == 0] holds for no epoch. *)
Lemma snapshot_never_due (epoch : Z) : snapshot_due epoch = false.
Proof.
  unfold snapshot_due. change (1 mod 5) with 1.
  apply andb_false_iff.
  destruct (Z.geb_spec (epoch + 1) 30); [right | by left].
  apply Z.eqb_neq. lia.
Qed.

(** With loaders that are not empty, an epoch reaches its last step: it has
    logged its line, whose validation loss [v] and validation accuracy are
    those of the model after the training pass, and it has written no
    file. *)
Lemma epoch_body_runs tl vl crit dev ne pat mp reg epoch s (w : world) :
  0 < dl_batch_size tl -> 0 < dl_batch_size vl ->
  dl_dataset tl <> [] -> dl_dataset vl <> [] ->
  exists v s1 line w1 r,
    epoch_body tl vl crit dev ne pat mp reg epoch s w
      = early_stopping epoch v pat mp s1 w1 /\
    same_control s s1 /\
    w_log w1 = w_log w ++ [line] /\
    ll_val_loss line = v /\
    ll_epoch line = epoch + 1 /\
    w_stdout w1 = w_stdout w /\
    w_files w1 = w_files w /\
    v = val_average crit vl (ls_model s1) r /\
    ll_val_acc line = val_accuracy vl (ls_model s1) r /\
    ll_model_path line = mp /\
    ll_num_epochs line = ne.
Proof.
  intros Hbt Hbv Hdt Hdv. unfold epoch_body. cbv zeta.
  rewrite (bind_run time_time _ w _ _ eq_refl); cbv beta iota zeta.
  rewrite (bind_run _ _ _ _ _ (with_rng_run _ _)); cbv beta iota zeta.
  match goal with
  |- context [bind (foldM (train_batch _ _ _) (dl_iter tl ?r).1 (?s0, _)) _ ?w0] =>
    destruct (train_pass_run crit reg dev (dl_iter tl r).1 s0 sums0 w0)
      as (s1 & tr & r1 & H1 & Hc1 & Ht1 & _);
    pose proof (dl_iter_total tl r Hbt) as Hlen1
  end.
  rewrite (bind_run _ _ _ _ _ H1). cbv beta iota zeta.
  unfold lift at 1. rewrite truediv_run by (apply Z.neq_sym, Z.lt_neq, dl_len_pos; done).
  rewrite (bind_run _ _ _ _ _ eq_refl); cbv beta iota zeta.
  assert (Htot1 : sum_total tr <> 0).
  { rewrite Ht1. simpl in Hlen1 |- *. rewrite Hlen1.
    destruct (dl_dataset tl); [done | simpl; lia]. }
  unfold lift at 1. rewrite (truediv_run _ _ Htot1).
  rewrite (bind_run _ _ _ _ _ eq_refl); cbv beta iota zeta.
  rewrite (bind_run _ _ _ _ _ (with_rng_run _ _)); cbv beta iota zeta.
  match goal with
  |- context [bind (foldM (val_batch _ ?m) (dl_iter vl ?r).1 _) _ ?w0] =>
    destruct (val_pass_run crit m (dl_iter vl r).1 sums0 w0)
      as (va & H2 & Hl2 & Hk2 & Ht2 & _);
    pose proof (dl_iter_total vl r Hbv) as Hlen2;
    set (rv := r) in *
  end.
  rewrite (bind_run _ _ _ _ _ H2); cbv beta iota zeta.
  unfold lift at 1. rewrite truediv_run by (apply Z.neq_sym, Z.lt_neq, dl_len_pos; done).
  rewrite (bind_run _ _ _ _ _ eq_refl); cbv beta iota zeta.
  assert (Htot2 : sum_total va = Z.of_nat (length (dl_dataset vl))).
  { rewrite Ht2. simpl in Hlen2 |- *. by rewrite Hlen2. }
  assert (Htot2' : sum_total va <> 0).
  { rewrite Htot2. destruct (dl_dataset vl); [done | simpl; lia]. }
  unfold lift at 1. rewrite (truediv_run _ _ Htot2').
  rewrite (bind_run _ _ _ _ _ eq_refl); cbv beta iota zeta.
  rewrite (bind_run time_time _ _ _ _ eq_refl); cbv beta iota zeta.
  rewrite (bind_run (logging_info _) _ _ _ _ eq_refl); cbv beta iota zeta.
  rewrite snapshot_never_due.
  rewrite (bind_run (ret tt) _ _ _ _ eq_refl).
  eexists _, _, _, _, rv. split; [reflexivity |].
  split.
  { eapply same_control_trans; [| apply same_control_with_model].
    eapply same_control_trans; [apply same_control_with_model | done]. }
  split; [reflexivity |]. split; [reflexivity |]. split; [reflexivity |].
  split; [reflexivity |]. split; [reflexivity |].
  unfold val_average, val_accuracy. cbv zeta.
  cbn [ll_val_acc ll_model_path ll_num_epochs ls_model with_model].
  rewrite Hl2, Hk2, Htot2. done.
Qed.

Lemma epoch_body_raises tl vl crit dev ne pat mp reg epoch s (w : world) :
  0 < dl_batch_size tl -> 0 < dl_batch_size vl ->
  dl_dataset tl = [] \/ dl_dataset vl = [] ->
  exists w',
    epoch_body tl vl crit dev ne pat mp reg epoch s w
      = (inl Py.ZeroDivisionError, w') /\
    w_log w' = w_log w /\ w_files w' = w_files w /\ w_stdout w' = w_stdout w.
Proof.
  intros Hbt Hbv Hempty. unfold epoch_body. cbv zeta.
  rewrite (bind_run time_time _ w _ _ eq_refl); cbv beta iota zeta.
  rewrite (bind_run _ _ _ _ _ (with_rng_run _ _)); cbv beta iota zeta.
  match goal with
  |- context [bind (foldM (train_batch _ _ _) (dl_iter tl ?r).1 (?s0, _)) _ ?w0] =>
    destruct (train_pass_run crit reg dev (dl_iter tl r).1 s0 sums0 w0)
      as (s1 & tr & r1 & H1 & Hc1 & Ht1 & Hnil1);
    pose proof (dl_iter_total tl r Hbt) as Hlen1
  end.
  rewrite (bind_run _ _ _ _ _ H1); cbv beta iota zeta.
  destruct (decide (dl_dataset tl = [])) as [Hdt | Hdt].
  { (* line 83 raises *)
    unfold lift at 1. rewrite (dl_len_zero tl Hbt Hdt), truediv_zero.
    rewrite (bind_raise _ _ _ _ _ eq_refl). eexists. by repeat split. }
  destruct Hempty as [Hdt' | Hdv]; [done |].
  unfold lift at 1. rewrite truediv_run by (apply Z.neq_sym, Z.lt_neq, dl_len_pos; done).
  rewrite (bind_run _ _ _ _ _ eq_refl); cbv beta iota zeta.
  assert (Htot1 : sum_total tr <> 0).
  { rewrite Ht1. simpl in Hlen1 |- *. rewrite Hlen1.
    destruct (dl_dataset tl); [done | simpl; lia]. }
  unfold lift at 1. rewrite (truediv_run _ _ Htot1).
  rewrite (bind_run _ _ _ _ _ eq_refl); cbv beta iota zeta.
  rewrite (bind_run _ _ _ _ _ (with_rng_run _ _)); cbv beta iota zeta.
  match goal with
  |- context [bind (foldM (val_batch _ ?m) (dl_iter vl ?r).1 _) _ ?w0] =>
    destruct (val_pass_run crit m (dl_iter vl r).1 sums0 w0)
      as (va & H2 & _)
  end.
  rewrite (bind_run _ _ _ _ _ H2); cbv beta iota zeta.
  (* line 102 raises *)
  unfold lift at 1. rewrite (dl_len_zero vl Hbv Hdv), truediv_zero.
  rewrite (bind_raise _ _ _ _ _ eq_refl). eexists. by repeat split.
Qed.

(** ** Early stopping and best model saving *)

Lemma early_stopping_improved epoch v pat mp s (w : world) :
  checkpoint_ready (w_files w) mp ->
  Py.flt v (best_loss s) = true ->
  early_stopping epoch v pat mp s w =
    (inr (LoopState (ls_model s) (ls_optimizer s) (ls_scheduler s) v 0 (early_stop s)),
     World (w_rng w) (w_clock w) (w_ticks w)
           (<[best_path mp := Checkpoint (get_state_dict (ls_model s))]> (w_files w))
           (w_stdout w ++ ["Best model updated at epoch " +:+ Py.str (epoch + 1)])
           (w_log w)).
Proof.
  intros Hready Hlt. unfold early_stopping. rewrite Hlt. cbv zeta.
  rewrite (bind_run (os_path_exists _) _ w _ _ eq_refl).
  rewrite (fs_isdir_exists _ _ (proj1 Hready)). cbn [negb].
  rewrite (bind_run (ret tt) _ w _ _ eq_refl).
  unfold bind at 1, torch_save. by rewrite (open_best _ _ Hready).
Qed.

(** A model path with no directory part: the epoch that improves raises,
    from [os.makedirs('')], before the checkpoint is written. *)
Lemma early_stopping_no_directory epoch v pat mp s (w : world) :
  OsPath.dirname mp = "" ->
  Py.flt v (best_loss s) = true ->
  early_stopping epoch v pat mp s w = (inl (Py.FileNotFoundError ""), w).
Proof.
  intros Hdir Hlt. unfold early_stopping. rewrite Hlt, Hdir. cbv zeta.
  rewrite (bind_run (os_path_exists _) _ w _ _ eq_refl).
  change (fs_exists (w_files w) "") with false. cbn [negb].
  unfold bind at 1, os_makedirs. by rewrite makedirs_empty.
Qed.

Lemma early_stopping_not_improved epoch v pat mp s (w : world) :
  Py.flt v (best_loss s) = false ->
  early_stopping epoch v pat mp s w =
    (inr (LoopState (ls_model s) (ls_optimizer s) (ls_scheduler s) (best_loss s)
                    (epochs_no_improve s + 1)
                    (if epochs_no_improve s + 1 >=? pat then true else early_stop s)),
     w).
Proof. intros Hlt. unfold early_stopping. by rewrite Hlt. Qed.

(** ** Checkpoint names *)

Lemma append_inv_head (p a b : string) : p +:+ a = p +:+ b -> a = b.
Proof. induction p as [|c p IH]; simpl; [done | intros [=]; auto]. Qed.

Lemma epoch_path_not_best (mp : string) (epoch : Z) :
  epoch_path mp epoch <> best_path mp.
Proof.
  unfold epoch_path, best_path. intros H.
  apply append_inv_head in H. discriminate H.
Qed.

(** ** The order of binary64 values *)

(** A position on the number line: the class first, then exponent and
    mantissa (both negated below zero). *)
Definition key (x : Py.float) : option (Z * Z * Z) :=
  match x with
  | S754_nan => None
  | S754_infinity true => Some (-2, 0, 0)
  | S754_infinity false => Some (2, 0, 0)
  | S754_zero _ => Some (0, 0, 0)
  | S754_finite true m e => Some (-1, - e, - Z.pos m)
  | S754_finite false m e => Some (1, e, Z.pos m)
  end.

Definition key_lt (a b : Z * Z * Z) : Prop :=
  a.1.1 < b.1.1 \/
  (a.1.1 = b.1.1 /\ (a.1.2 < b.1.2 \/ (a.1.2 = b.1.2 /\ a.2 < b.2))).


Lemma compare_key (x y : Py.float) (kx ky : Z * Z * Z) :
  key x = Some kx -> key y = Some ky ->
  exists c, SFcompare x y = Some c /\
    match c with
    | Lt => key_lt kx ky
    | Eq => kx = ky
    | Gt => key_lt ky kx
    end.
Proof.
  unfold key_lt.
  destruct x as [sx|sx| |sx mx ex], y as [sy|sy| |sy my ey];
    try destruct sx; try destruct sy; simpl; intros [= <-] [= <-];
    try (eexists; split; [reflexivity |]; simpl; (done || lia)).
  all: change (Pos.compare_cont Eq mx my) with (mx ?= my)%positive.
  all: destruct (Z.compare_spec ex ey); destruct (Pos.compare_spec mx my);
    simpl; eexists; (split; [reflexivity |]); simpl;
    first [ by subst | lia ].
Qed.

Lemma flt_key (x y : Py.float) :
  Py.flt x y = true <->
  exists kx ky, key x = Some kx /\ key y = Some ky /\ key_lt kx ky.
Proof.
  unfold Py.flt, SFltb. split.
  - destruct (key x) as [kx|] eqn:Hx;
      [| destruct x as [[]|[]| |[] ? ?]; try discriminate Hx; by destruct y].
    destruct (key y) as [ky|] eqn:Hy;
      [| destruct y as [[]|[]| |[] ? ?]; try discriminate Hy; by destruct x].
    destruct (compare_key x y kx ky Hx Hy) as (c & -> & Hc).
    destruct c; [done | eauto | done].
  - intros (kx & ky & Hx & Hy & Hlt).
    destruct (compare_key x y kx ky Hx Hy) as (c & -> & Hc).
    destruct c; [| done |]; unfold key_lt in *; subst; lia.
Qed.



Lemma flt_trans (x y z : Py.float) :
  Py.flt x y = true -> Py.flt y z = true -> Py.flt x z = true.
Proof.
  rewrite !flt_key. intros (kx & ky & Hx & Hy & H1) (ky' & kz & Hy' & Hz & H2).
  assert (ky' = ky) as -> by congruence.
  exists kx, kz. unfold key_lt in *. repeat split; [done | done | lia].
Qed.








(** ** The epoch loop *)

Lemma bind_ret_r {A} (m : M A) (w : world) : bind m ret w = m w.
Proof. unfold bind, ret. by destruct (m w) as [[e|a] w1]. Qed.

Lemma range_S (n : nat) :
  Py.range (Z.of_nat (S n)) = Py.range (Z.of_nat n) ++ [Z.of_nat n].
Proof.
  unfold Py.range. rewrite !Nat2Z.id, seq_S, fmap_app. done.
Qed.

Lemma range_cons (n : Z) :
  0 < n -> exists rest, Py.range n = 0 :: rest.
Proof.
  intros Hn. unfold Py.range.
  destruct (Z.to_nat n) as [|k] eqn:Hk; [lia |]. simpl. eauto.
Qed.

(** The world up to what was printed. *)
Definition same_but_stdout (w w' : world) : Prop :=
  w_rng w' = w_rng w /\ w_clock w' = w_clock w /\ w_ticks w' = w_ticks w /\
  w_files w' = w_files w /\ w_log w' = w_log w.

Lemma same_but_stdout_refl (w : world) : same_but_stdout w w.
Proof. by repeat split. Qed.

(** One more epoch index at the end of the range: the loop does what it did
    before, then tests [early_stop] and runs the body once more. *)
Lemma for_epochs_snoc body (l : list Z) (x : Z) s (w : world) :
  match for_epochs body l s w with
  | (inl e, w1) => for_epochs body (l ++ [x]) s w = (inl e, w1)
  | (inr s1, w1) =>
      if early_stop s1
      then exists w1', for_epochs body (l ++ [x]) s w = (inr s1, w1') /\
                       same_but_stdout w1 w1'
      else for_epochs body (l ++ [x]) s w = body x s1 w1
  end.
Proof.
  revert s w. induction l as [|a l IH]; intros s w; simpl.
  - unfold ret at 1. destruct (early_stop s) eqn:Hs.
    + eexists. split; [reflexivity |]. by repeat split.
    + apply bind_ret_r.
  - destruct (early_stop s) eqn:Hs.
    + simpl. rewrite Hs. eexists. split; [reflexivity |]. by repeat split.
    + unfold bind. destruct (body a s w) as [[e|s2] w2]; [done |].
      apply IH.
Qed.

(** ** The end of an epoch *)


(** ** Empty loaders *)

(** Whatever the last step of an epoch does, it leaves the log alone. *)
Lemma early_stopping_log epoch v pat mp s (w : world) :
  w_log (early_stopping epoch v pat mp s w).2 = w_log w.
Proof.
  unfold early_stopping. destruct (Py.flt _ _); [| done]. cbv zeta.
  unfold bind, os_path_exists, os_makedirs, torch_save, print, ret.
  destruct (fs_exists _ _); cbn [negb].
  - by destruct (fs_open_write _ _).
  - destruct (makedirs _ _ _); [done |]. cbn [with_files w_files].
    by destruct (fs_open_write _ _).
Qed.

Lemma logging_basicConfig_run (lf : string) (w : world) :
  log_opens (w_files w) lf ->
  exists w0,
    logging_basicConfig lf w = (inr tt, w0) /\
    w_rng w0 = w_rng w /\ w_clock w0 = w_clock w /\ w_ticks w0 = w_ticks w /\
    w_stdout w0 = w_stdout w /\ w_log w0 = w_log w /\
    (w_files w0 = w_files w \/
     (w_files w !! OsPath.rstrip_slash lf = None /\
      w_files w0 = <[OsPath.rstrip_slash lf := LogFile]> (w_files w))).
Proof.
  unfold logging_basicConfig. intros [-> | [Hne Hopen]].
  - exists w. split_and!; try done. by left.
  - destruct lf as [|c lf]; [done |]. cbv zeta.
    destruct (OsPath.rstrip_slash (String c lf)) as [|c' p] eqn:Hp; [done |].
    rewrite Hopen.
    destruct (w_files w !! String c' p) as [f|] eqn:Hf.
    + exists w. split_and!; try done. by left.
    + eexists. split; [reflexivity |]. split_and!; try done. by right.
Qed.

Lemma logging_basicConfig_ready (lf mp : string) (w w0 : world) :
  logging_basicConfig lf w = (inr tt, w0) ->
  checkpoint_ready (w_files w) mp -> checkpoint_ready (w_files w0) mp.
Proof.
  unfold logging_basicConfig. destruct lf as [|c lf]; [by intros [= <-] |].
  cbv zeta. destruct (OsPath.rstrip_slash (String c lf)) as [|c' p]; [done |].
  destruct (fs_open_write _ _); [done |].
  destruct (w_files w !! String c' p) as [f|] eqn:Hf; intros [= <-]; [done |].
  intros Hready. apply checkpoint_ready_insert; [done | | done]. by rewrite Hf.
Qed.

(** C10: the averages of an epoch divide by the number of batches and by the
    number of samples of each loader with no guard.  With an empty train or
    validation loader every epoch raises ZeroDivisionError: it logs nothing,
    writes no file and prints nothing; and so does a run of at least one
    epoch whose log file can be opened: no line is logged and no checkpoint
    is written.  With both loaders non-empty no division fails: every epoch
    logs the line with its metrics, whatever becomes of the checkpoint
    afterwards. *)
Theorem C10_empty_loader_division tl vl crit dev pat mp reg :
  0 < dl_batch_size tl -> 0 < dl_batch_size vl ->
  (dl_dataset tl = [] \/ dl_dataset vl = [] ->
     (forall ne epoch s (w : world), exists w',
        epoch_body tl vl crit dev ne pat mp reg epoch s w
          = (inl Py.ZeroDivisionError, w') /\
        w_log w' = w_log w /\ w_files w' = w_files w /\
        w_stdout w' = w_stdout w) /\
     (forall m opt lf ne sch (w : world),
        0 < ne -> log_opens (w_files w) lf -> exists w',
        train_model m tl vl crit opt dev lf ne pat mp reg sch w
          = (inl Py.ZeroDivisionError, w') /\
        w_log w' = w_log w /\ w_stdout w' = w_stdout w /\
        forall p sd, w_files w' !! p = Some (Checkpoint sd) ->
                     w_files w !! p = Some (Checkpoint sd))) /\
  (dl_dataset tl <> [] -> dl_dataset vl <> [] ->
     forall ne epoch s (w : world), exists line,
       w_log (epoch_body tl vl crit dev ne pat mp reg epoch s w).2
         = w_log w ++ [line] /\
       ll_epoch line = epoch + 1).
Proof.
  intros Hbt Hbv. split.
  - intros Hempty. split.
    + intros ne epoch s w.
      destruct (epoch_body_raises tl vl crit dev ne pat mp reg epoch s w Hbt Hbv Hempty)
        as (w' & Hrun & Hlog & Hfiles & Hout). eauto.
    + intros m opt lf ne sch w Hne Hopen.
      destruct (logging_basicConfig_run lf w Hopen)
        as (w0 & Hcfg & _ & _ & _ & Hout0 & Hlog0 & Hfiles0).
      destruct (range_cons ne Hne) as [rest Hrange].
      unfold train_model. rewrite (bind_run _ _ _ _ _ Hcfg).
      unfold train_loop. rewrite Hrange. simpl.
      match goal with |- context [epoch_body _ _ _ _ _ _ _ _ 0 ?s0] =>
        destruct (epoch_body_raises tl vl crit dev ne pat mp reg 0 s0 w0 Hbt Hbv Hempty)
          as (w' & Hrun & Hlog & Hfiles & Hout)
      end.
      exists w'. rewrite (bind_raise _ _ _ _ _ (bind_raise _ _ _ _ _ Hrun)).
      split; [done |]. split; [congruence |]. split; [congruence |].
      intros p sd. rewrite Hfiles.
      destruct Hfiles0 as [-> | [Habsent ->]]; [done |].
      destruct (decide (p = OsPath.rstrip_slash lf)) as [-> | Hp].
      * by rewrite lookup_insert_eq.
      * by rewrite lookup_insert_ne.
  - intros Hdt Hdv ne epoch s w.
    destruct (epoch_body_runs tl vl crit dev ne pat mp reg epoch s w Hbt Hbv Hdt Hdv)
      as (v & s1 & line & w1 & r & Hrun & _ & Hlog & _ & Hep & _).
    exists line. by rewrite Hrun, early_stopping_log.
Qed.

(** ** A run of one epoch *)


(** ** The best validation loss of a run *)

(** The best validation loss after the epochs whose losses are [vs], as the
    loop tracks it: it starts at infinity and moves to every strictly lower
    loss. *)
Definition best_so_far (vs : list Py.float) : Py.float :=
  fold_left (fun b v => if Py.flt v b then v else b) vs Py.inf.

(** Epoch [i] (counted from 0) strictly improved the best loss so far. *)
Definition improved (vs : list Py.float) (i : nat) : Prop :=
  exists v, vs !! i = Some v /\ Py.flt v (best_so_far (take i vs)) = true.

Lemma best_so_far_snoc (vs : list Py.float) (v : Py.float) :
  best_so_far (vs ++ [v]) =
    if Py.flt v (best_so_far vs) then v else best_so_far vs.
Proof. unfold best_so_far. by rewrite fold_left_app. Qed.

Lemma improved_lt (vs : list Py.float) (i : nat) :
  improved vs i -> (i < length vs)%nat.
Proof. intros (v & Hv & _). by apply lookup_lt_Some in Hv. Qed.

Lemma improved_app_l (vs : list Py.float) (v : Py.float) (i : nat) :
  (i < length vs)%nat -> improved (vs ++ [v]) i <-> improved vs i.
Proof.
  intros Hi. unfold improved.
  rewrite lookup_app_l by done. rewrite take_app_le by lia. done.
Qed.

Lemma improved_last (vs : list Py.float) (v : Py.float) :
  improved (vs ++ [v]) (length vs) <-> Py.flt v (best_so_far vs) = true.
Proof.
  unfold improved. rewrite take_app_length, list_lookup_middle by done.
  split; [by intros (? & [= <-] & ?) | eauto].
Qed.





(** ** Early stopping over a whole run *)

(** The state and the world after the first [k] iterations of the loop of
    [train_model] (an iteration that finds the flag set ends the loop). *)
Definition first_epochs (m : model) (tl vl : DataLoader) (crit : criterion)
    (opt : optimizer) (dev : device) (ne pat : Z) (mp : string) (reg : bool)
    (sch : option scheduler) (k : nat) : M loop_state :=
  for_epochs (epoch_body tl vl crit dev ne pat mp reg)
             (Py.range (Z.of_nat k))
             (LoopState (model_train m) opt sch Py.inf 0 false).

Lemma train_loop_first_epochs m tl vl crit opt dev ne pat mp reg sch :
  train_loop m tl vl crit opt dev ne pat mp reg sch
  = first_epochs m tl vl crit opt dev ne pat mp reg sch (Z.to_nat ne).
Proof.
  unfold train_loop, first_epochs, Py.range. by rewrite Nat2Z.id.
Qed.

Section EarlyStopping.

Variables (m : model) (tl vl : DataLoader) (crit : criterion)
          (opt : optimizer) (dev : device) (ne pat : Z) (mp : string)
          (reg : bool) (sch : option scheduler) (w0 : world).

Hypothesis Hbt : 0 < dl_batch_size tl.
Hypothesis Hbv : 0 < dl_batch_size vl.
Hypothesis Hdt : dl_dataset tl <> [].
Hypothesis Hdv : dl_dataset vl <> [].
Hypothesis Hready : checkpoint_ready (w_files w0) mp.

Let run (k : nat) : (Py.exn + loop_state) * world :=
  first_epochs m tl vl crit opt dev ne pat mp reg sch k w0.

(** What holds between the iterations: [c] epochs ran since the last one
    that improved, or since the start. *)
Definition loop_inv (k : nat) (s : loop_state) (w : world) : Prop :=
  exists (lines : list log_line) (c : nat),
    let vs := ll_val_loss <$> lines in
    let n := length vs in
    w_log w = w_log w0 ++ lines /\
    (n <= k)%nat /\
    (early_stop s = false -> n = k) /\
    best_loss s = best_so_far vs /\
    epochs_no_improve s = Z.of_nat c /\
    (c <= n)%nat /\
    (early_stop s = false -> c = O \/ Z.of_nat c < pat) /\
    Z.of_nat c <= Z.max pat 1 /\
    (forall j, (n - c <= j < n)%nat -> ~ improved vs j) /\
    ((c < n)%nat ->
       improved vs (n - c - 1) /\
       exists s_i w_i,
         run (n - c) = (inr s_i, w_i) /\
         w_files w !! best_path mp
           = Some (Checkpoint (get_state_dict (ls_model s_i)))) /\
    (c = n -> w_files w !! best_path mp = w_files w0 !! best_path mp) /\
    checkpoint_ready (w_files w) mp /\
    (forall i line, lines !! i = Some line ->
       exists s_i w_i r,
         run (S i) = (inr s_i, w_i) /\
         ll_val_loss line = val_average crit vl (ls_model s_i) r).

Lemma loop_invariant (k : nat) :
  exists s w, run k = (inr s, w) /\ loop_inv k s w.
Proof.
  induction k as [|k (s & w & Hrun & Hinv)].
  - eexists _, w0. split; [reflexivity |].
    exists [], O. simpl. rewrite app_nil_r.
    split_and!; try done; try lia.
  - pose proof (for_epochs_snoc (epoch_body tl vl crit dev ne pat mp reg)
                  (Py.range (Z.of_nat k)) (Z.of_nat k)
                  (LoopState (model_train m) opt sch Py.inf 0 false) w0) as Hsnoc.
    rewrite <- range_S in Hsnoc.
    change (for_epochs _ (Py.range (Z.of_nat k)) _ w0) with (run k) in Hsnoc.
    change (for_epochs _ (Py.range (Z.of_nat (S k))) _ w0) with (run (S k)) in Hsnoc.
    rewrite Hrun in Hsnoc.
    destruct Hinv as (lines & c & Hlog & Hnk & Hfull & Hbest & Hc & Hcn & Hcp
                      & Hcmax & Hnone & Hlast & Hnever & Hdir & Hlines).
    destruct (early_stop s) eqn:Hstop.
    + (* the loop has ended *)
      destruct Hsnoc as (w1 & Hrun1 & _ & _ & _ & Hf & Hl).
      exists s, w1. split; [done |].
      exists lines, c. cbv zeta. rewrite Hf, Hl.
      split_and!; try done; try lia; by rewrite Hstop.
    + (* one more epoch *)
      specialize (Hfull eq_refl).
      destruct (epoch_body_runs tl vl crit dev ne pat mp reg (Z.of_nat k) s w
                  Hbt Hbv Hdt Hdv)
        as (v & s1 & line & w1 & r & Hbody & (Hb1 & Hc1 & He1) & Hlog1 & Hv & _ & _
            & Hf1 & Hval & _).
      rewrite Hbody in Hsnoc. rewrite <- Hf1 in Hdir.
      assert (Hvs : ll_val_loss <$> (lines ++ [line]) = (ll_val_loss <$> lines) ++ [v])
        by (rewrite fmap_app; simpl; by rewrite Hv).
      assert (Hlen : length lines = k) by (by rewrite length_fmap in Hfull).
      assert (Hnew : forall s2 w2,
                run (S k) = (inr s2, w2) -> ls_model s2 = ls_model s1 ->
                forall i line', (lines ++ [line]) !! i = Some line' ->
                  exists s_i w_i r',
                    run (S i) = (inr s_i, w_i) /\
                    ll_val_loss line' = val_average crit vl (ls_model s_i) r').
      { intros s2 w2 Hrun2 Hmodel i line' Hi.
        destruct (decide (i < length lines)%nat) as [Hlt | Hge].
        - rewrite lookup_app_l in Hi by done. by apply Hlines.
        - assert (i = k) as ->.
          { apply lookup_lt_Some in Hi. rewrite length_app in Hi. simpl in Hi. lia. }
          rewrite <- Hlen, list_lookup_middle in Hi by done. injection Hi as <-.
          exists s2, w2, r. split; [done |]. rewrite Hmodel. congruence. }
      destruct (Py.flt v (best_loss s1)) eqn:Hlt.
      * rewrite (early_stopping_improved _ _ _ _ _ _ Hdir Hlt) in Hsnoc.
        eexists _, _. split; [exact Hsnoc |].
        exists (lines ++ [line]), O. cbv zeta. rewrite Hvs, length_app. simpl.
        rewrite Hb1, Hbest in Hlt.
        split_and!.
        -- by rewrite Hlog1, Hlog, <- app_assoc.
        -- lia.
        -- lia.
        -- by rewrite best_so_far_snoc, Hlt.
        -- done.
        -- lia.
        -- by left.
        -- lia.
        -- intros j Hj. lia.
        -- intros _. split.
           ++ replace (length (ll_val_loss <$> lines) + 1 - 0 - 1)%nat
                with (length (ll_val_loss <$> lines)) by lia.
              by apply improved_last.
           ++ replace (length (ll_val_loss <$> lines) + 1 - 0)%nat with (S k) by lia.
              eexists _, _. split; [exact Hsnoc |]. apply lookup_insert_eq.
        -- intros Habs. lia.
        -- apply checkpoint_ready_insert; [done | apply Hdir | done].
        -- by apply (Hnew _ _ Hsnoc).
      * rewrite (early_stopping_not_improved _ _ _ _ _ _ Hlt) in Hsnoc.
        eexists _, _. split; [exact Hsnoc |].
        exists (lines ++ [line]), (S c). cbv zeta. rewrite Hvs, length_app. simpl.
        rewrite Hb1, Hbest in Hlt.
        specialize (Hcp eq_refl).
        split_and!.
        -- by rewrite Hlog1, Hlog, <- app_assoc.
        -- lia.
        -- lia.
        -- by rewrite best_so_far_snoc, Hlt, Hb1.
        -- rewrite Hc1, Hc. lia.
        -- lia.
        -- rewrite Hc1, Hc, He1, Hstop.
           destruct (Z.geb_spec (Z.of_nat c + 1) pat); [done |].
           intros _. right. lia.
        -- lia.
        -- intros j Hj Himp.
           destruct (decide (j = length (ll_val_loss <$> lines))) as [-> | Hne].
           ++ apply improved_last in Himp. congruence.
           ++ apply improved_app_l in Himp; [| lia].
              apply (Hnone j); [lia | done].
        -- intros Hlt'. split.
           ++ replace (length (ll_val_loss <$> lines) + 1 - S c - 1)%nat
                with (length (ll_val_loss <$> lines) - c - 1)%nat by lia.
              apply improved_app_l; [lia |]. apply Hlast. lia.
           ++ replace (length (ll_val_loss <$> lines) + 1 - S c)%nat
                with (length (ll_val_loss <$> lines) - c)%nat by lia.
              rewrite Hf1. apply Hlast. lia.
        -- intros Heq. rewrite Hf1. apply Hnever. lia.
        -- done.
        -- by apply (Hnew _ _ Hsnoc).
Qed.


End EarlyStopping.

(** ** Evaluation: labels and predictions *)

Section Evaluation.

(** The model returns one prediction per sample of the batch. *)
Hypothesis model_call_length :
  forall (m : model) (X : list feat) (r : rng gen),
    length (values (model_call m X r).1) = length X.

Lemma test_fold_run (m : model) (l : list batch) (acc : list (list Py.float))
    (w : world) :
  exists preds r,
    foldM (fun all_preds b =>
             bind (with_rng (model_call m (batch_X b)))
                  (fun out => ret (all_preds ++ [values out])))
          l acc w
      = (inr (acc ++ preds), upd_rng w r) /\
    length preds = length l /\
    length (concat preds) = length (concat l).
Proof.
  revert acc w. induction l as [|b l IH]; intros acc w; simpl.
  - exists [], (w_rng w). rewrite app_nil_r, upd_rng_id. done.
  - rewrite (bind_run _ _ _ _ _ (bind_run _ _ _ _ _ (with_rng_run _ w))).
    destruct (IH (acc ++ [values (model_call m (batch_X b) (w_rng w)).1])
                 (upd_rng w (model_call m (batch_X b) (w_rng w)).2))
      as (preds & r & Hrun & Hlen & Hcat).
    exists (values (model_call m (batch_X b) (w_rng w)).1 :: preds), r.
    rewrite Hrun, <- app_assoc. split; [done |]. simpl.
    split; [by rewrite Hlen |].
    rewrite !length_app, Hcat, model_call_length.
    unfold batch_X. by rewrite length_fmap.
Qed.

Lemma test_model_run (m : model) (dl : DataLoader) (dev : device) (w : world) :
  dl_shuffle dl = false -> 0 < dl_batch_size dl -> dl_dataset dl <> [] ->
  exists y_pred r,
    test_model m dl dev w = (inr y_pred, upd_rng w r) /\
    length y_pred = length (dl_dataset dl).
Proof.
  intros Hsh Hbs Hds. unfold test_model. cbv zeta.
  rewrite (bind_run _ _ _ _ _ (with_rng_run _ w)).
  unfold dl_iter. rewrite Hsh. simpl. rewrite upd_rng_id.
  destruct (test_fold_run (model_eval m)
              (chunks (Z.to_nat (dl_batch_size dl)) (dl_dataset dl)) [] w)
    as (preds & r & Hfold & Hlp & Hcat).
  rewrite (bind_run _ _ _ _ _ Hfold). simpl app.
  unfold lift, np_concatenate.
  destruct preds as [|p preds].
  - exfalso. symmetry in Hlp. apply length_zero_iff_nil in Hlp.
    by apply chunks_nil_iff in Hlp.
  - exists (concat (p :: preds)), r. split; [done |].
    rewrite Hcat, chunks_concat by lia. done.
Qed.

(** C5: in both curve functions the label vector [y] is the label of every
    sample of the provider, in order, and the prediction vector [y_pred]
    that [test_model] concatenates over the encoded dataset has the same
    length, the number of samples of the provider, given an encoder that
    keeps the sample count (and a model that predicts once per sample); the
    two curve functions hand exactly these vectors to the curve
    constructions.  The evaluation returns them for a non-empty provider and
    a positive (or absent) test batch size. *)
Theorem C5_label_and_prediction_counts (dp : provider) (m : model) (cfg : config)
    (dev : device) (w : world) (ds : dataset) :
  encoder cfg dp (encoder_args cfg) (data_files w) = inr ds ->
  length ds = length (samples dp) ->
  samples dp <> [] ->
  (forall b, test_batch_size (Test cfg) = Some b -> 0 < b) ->
  exists y y_pred w',
    labels_and_predictions dp m cfg dev w = (inr (y, y_pred), w') /\
    y = rs_label <$> samples dp /\
    length y = length (samples dp) /\
    length y_pred = length (samples dp) /\
    calculate_roc_auc dp m cfg dev w =
      bind (lift (roc_curve y y_pred))
           (fun '(fpr, tpr, _) =>
              bind (lift (auc fpr tpr)) (fun a => ret (fpr, tpr, a))) w' /\
    calculate_pr_auc dp m cfg dev w =
      bind (lift (precision_recall_curve y y_pred))
           (fun '(precision, recall, _) =>
              bind (lift (auc recall precision))
                   (fun a => ret (precision, recall, a))) w'.
Proof.
  intros Henc Hlen Hne Hbs.
  assert (Hds : ds <> []) by (destruct ds, (samples dp); simpl in *; done).
  set (bs := match test_batch_size (Test cfg) with
             | Some b => b
             | None => Z.of_nat (length ds)
             end).
  assert (Hpos : 0 < bs).
  { unfold bs. destruct (test_batch_size (Test cfg)) as [b|]; [by apply Hbs |].
    destruct ds; [done | simpl; lia]. }
  assert (Hrun : exists y_pred r,
             labels_and_predictions dp m cfg dev w
               = (inr (rs_label <$> samples dp, y_pred), upd_rng w r) /\
             length y_pred = length ds).
  { unfold labels_and_predictions.
    rewrite (bind_run read_data_files _ w _ _ eq_refl); cbv beta.
    unfold lift at 1. rewrite Henc.
    rewrite (bind_run _ _ _ _ _ eq_refl); cbv beta zeta. fold bs.
    unfold mk_DataLoader. destruct (Z.leb_spec bs 0) as [|_]; [lia |].
    unfold lift at 1. rewrite (bind_run _ _ _ _ _ eq_refl); cbv beta zeta.
    destruct (test_model_run m (Build_DataLoader ds bs false) dev w)
      as (y_pred & r & Htest & Hlp); [done | done | done |].
    rewrite (bind_run _ _ _ _ _ Htest).
    exists y_pred, r. done. }
  destruct Hrun as (y_pred & r & Hrun & Hlp).
  exists (rs_label <$> samples dp), y_pred, (upd_rng w r).
  split; [exact Hrun |]. split; [done |].
  split; [apply length_fmap |]. split; [congruence |].
  unfold calculate_roc_auc, calculate_pr_auc.
  by rewrite !(bind_run _ _ _ _ _ Hrun).
Qed.

End Evaluation.

(** ** The training entry point *)

(** The world after [print s]. *)
Definition printed (w : world) (s : string) : world :=
  World (w_rng w) (w_clock w) (w_ticks w) (w_files w) (w_stdout w ++ [s]) (w_log w).

(** A computation that leaves the files and the log as they are. *)
Definition keeps {A} (m : M A) : Prop :=
  forall w, w_files (m w).2 = w_files w /\ w_log (m w).2 = w_log w.

Lemma keeps_ret {A} (a : A) : keeps (ret a).
Proof. by intros w. Qed.

Lemma keeps_raise {A} (e : Py.exn) : keeps (raise (A := A) e).
Proof. by intros w. Qed.

Lemma keeps_lift {A} (r : Py.exn + A) : keeps (lift r).
Proof. by intros w. Qed.

Lemma keeps_print (s : string) : keeps (print s).
Proof. by intros w. Qed.

Lemma keeps_set_rng (f : rng gen -> rng gen) : keeps (set_rng f).
Proof. by intros w. Qed.

Lemma keeps_read_data_files : keeps read_data_files.
Proof. by intros w. Qed.

Lemma keeps_with_rng {A} (f : rng gen -> A * rng gen) : keeps (with_rng f).
Proof. intros w. unfold with_rng. by destruct (f (w_rng w)). Qed.

Lemma keeps_try_with_rng {A} (f : rng gen -> (Py.exn + A) * rng gen) :
  keeps (try_with_rng f).
Proof. intros w. unfold try_with_rng. by destruct (f (w_rng w)). Qed.

Lemma keeps_bind {A C} (m : M A) (k : A -> M C) :
  keeps m -> (forall a, keeps (k a)) -> keeps (bind m k).
Proof.
  intros Hm Hk w. unfold bind. specialize (Hm w).
  destruct (m w) as [[e|a] w1]; [done |].
  specialize (Hk a w1). simpl in *. destruct Hk as [-> ->]. done.
Qed.

Lemma keeps_set_seed (seed : Z) : keeps (set_seed seed).
Proof.
  unfold set_seed.
  repeat first
    [ apply keeps_bind; [| intros ?]
    | apply keeps_set_rng | apply keeps_ret | apply keeps_raise
    | match goal with |- keeps (if ?c then _ else _) => destruct c end ].
Qed.

Lemma keeps_prepare (cfg : config) : keeps (prepare cfg).
Proof.
  unfold prepare.
  repeat first
    [ apply keeps_bind; [| intros ?]
    | apply keeps_set_seed | apply keeps_read_data_files
    | apply keeps_try_with_rng | apply keeps_print | apply keeps_lift
    | apply keeps_ret
    | match goal with |- keeps (match ?x with _ => _ end) => destruct x end ].
Qed.

Lemma join_not_empty (a b : string) : b <> "" -> OsPath.join a b <> "".
Proof.
  intros Hb. unfold OsPath.join.
  destruct (OsPath.starts_with_slash b); [done |].
  destruct (_ || _); intros H; apply append_nil_inv in H as [_ H]; [done |].
  discriminate H.
Qed.

Lemma checkpoint_name_not_empty (name prefix : string) :
  name +:+ "-" +:+ prefix +:+ ".pt" <> "".
Proof. intros H. apply append_nil_inv in H as [_ H]. discriminate H. Qed.

(** C7: with transfer learning enabled, once [main] has prepared the data
    and built the fresh model [m0]: when no file exists at the derived
    checkpoint path, loading reports it and returns [m0] without raising, and
    [main] goes on to train from [m0]; when a checkpoint exists there (and
    fits the model), [main] goes on to train from the model with the saved
    weights loaded. *)
Theorem C7_transfer_checkpoint (cfg : config) (prefix : string) (w w1 : world)
    (tl vl : DataLoader) (m0 : model) :
  transfer (Train cfg) = Some true ->
  chkp_prefix (Train cfg) = Some prefix ->
  prepare cfg w = (inr (tl, vl, m0), w1) ->
  let path :=
    OsPath.join (chkp_path cfg) (chkp_name cfg +:+ "-" +:+ prefix +:+ ".pt") in
  (w_files w !! path = None ->
     let w2 := printed w1 ("Checkpoint path " +:+ path +:+
                 " is invalid or does not exist. Starting training from scratch.") in
     load_transfer cfg m0 w1 = (inr m0, w2) /\
     main_with cfg w = train_from cfg m0 tl vl w2) /\
  (forall sd m',
     w_files w !! path = Some (Checkpoint sd) ->
     load_state_dict m0 sd = inr m' ->
     let w2 := printed w1 ("Loaded model weights from " +:+ path) in
     load_transfer cfg m0 w1 = (inr m', w2) /\
     main_with cfg w = train_from cfg m' tl vl w2).
Proof.
  intros Htr Hpre Hprep path.
  pose proof (keeps_prepare cfg w) as [Hfiles _]. rewrite Hprep in Hfiles.
  simpl in Hfiles.
  assert (Hpath : negb (bool_decide (path = "")) = true).
  { apply negb_true_iff, bool_decide_eq_false, join_not_empty,
      checkpoint_name_not_empty. }
  split.
  - intros Hnone w2.
    assert (Hload : load_transfer cfg m0 w1 = (inr m0, w2)).
    { unfold load_transfer, get_chkp_prefix. rewrite Htr, Hpre.
      unfold bind, ret, os_path_exists, print.
      cbn -[OsPath.join String.append fs_exists].
      rewrite checkpoint_path_exists. fold path. rewrite Hfiles, Hnone.
      rewrite (bool_decide_eq_false_2 (is_Some None)) by (by intros [? ?]).
      rewrite andb_false_r. done. }
    split; [exact Hload |].
    unfold main_with. rewrite (bind_run _ _ _ _ _ Hprep); cbv beta iota.
    by rewrite (bind_run _ _ _ _ _ Hload).
  - intros sd m' Hsome Hsd w2.
    assert (Hload : load_transfer cfg m0 w1 = (inr m', w2)).
    { unfold load_transfer, get_chkp_prefix. rewrite Htr, Hpre.
      unfold bind, ret, os_path_exists, torch_load, lift, print.
      cbn -[OsPath.join String.append fs_exists].
      rewrite checkpoint_path_exists. fold path. rewrite Hfiles, Hsome.
      rewrite (bool_decide_eq_true_2 (is_Some (Some (Checkpoint sd)))) by eauto.
      rewrite Hpath. cbn -[OsPath.join String.append].
      rewrite Hfiles, Hsome, Hsd. done. }
    split; [exact Hload |].
    unfold main_with. rewrite (bind_run _ _ _ _ _ Hprep); cbv beta iota.
    by rewrite (bind_run _ _ _ _ _ Hload).
Qed.

(** ** The optimizer under a scheduler *)

(** The configuration with another optimizer class and other optimizer
    arguments, everything else as it is. *)
Definition with_optimizer (cfg : config)
    (cls : model -> kwargs -> Py.exn + optimizer) (args : kwargs) : config :=
  {| chkp_name := chkp_name cfg;
     chkp_path := chkp_path cfg;
     log_file := log_file cfg;
     plot_path := plot_path cfg;
     seed := seed cfg;
     model_class := model_class cfg;
     model_args := model_args cfg;
     encoder := encoder cfg;
     encoder_args := encoder_args cfg;
     Data := Data cfg;
     Train :=
       {| batch_size := batch_size (Train cfg);
          num_epochs := num_epochs (Train cfg);
          patience := patience (Train cfg);
          regularize := regularize (Train cfg);
          criterion_class := criterion_class (Train cfg);
          optimizer_class := cls;
          optimizer_args := args;
          use_scheduler := use_scheduler (Train cfg);
          transfer := transfer (Train cfg);
          chkp_prefix := chkp_prefix (Train cfg) |};
     Test := Test cfg |}.

Lemma make_optimizer_with_optimizer (cfg : config) cls args (m : model)
    (tl : DataLoader) (w : world) opt0 opt1 :
  use_scheduler (Train cfg) = true ->
  optimizer_class (Train cfg) m (optimizer_args (Train cfg)) = inr opt0 ->
  cls m args = inr opt1 ->
  make_optimizer (with_optimizer cfg cls args) m tl w = make_optimizer cfg m tl w.
Proof.
  intros Hsch H0 H1. unfold make_optimizer. simpl.
  rewrite Hsch, H0, H1. unfold bind, lift.
  by destruct (criterion_class (Train cfg)).
Qed.

(** C9: with [use_scheduler] set, the optimizer the configured class builds
    from [optimizer_args] is dropped: training gets a fresh Adam optimizer
    with learning rate 0 and the scheduler built on it, and any other
    optimizer class and arguments (that construct an optimizer as well) give
    the same run of [main], result and world. *)
Theorem C9_scheduler_replaces_optimizer (cfg : config) (m : model)
    (tl : DataLoader) (w : world) (crit : criterion) (opt0 : optimizer)
    (sch : scheduler) :
  use_scheduler (Train cfg) = true ->
  criterion_class (Train cfg) = inr crit ->
  optimizer_class (Train cfg) m (optimizer_args (Train cfg)) = inr opt0 ->
  CosineAnnealingWarmUpRestarts
    (Adam m (Py.of_int 0)) (num_epochs (Train cfg) * dl_len tl / 10) 1
    (num_epochs (Train cfg) * dl_len tl / 10 / 10) eta_max gamma = inr sch ->
  (exists w', make_optimizer cfg m tl w
                = (inr (crit, Adam m (Py.of_int 0), Some sch), w') /\
              w_files w' = w_files w /\ w_log w' = w_log w /\ w_rng w' = w_rng w) /\
  (forall cls args vl opt1,
     cls m args = inr opt1 ->
     train_from (with_optimizer cfg cls args) m tl vl w = train_from cfg m tl vl w) /\
  (forall cls args w0,
     (forall m', exists o, optimizer_class (Train cfg) m' (optimizer_args (Train cfg)) = inr o) ->
     (forall m', exists o, cls m' args = inr o) ->
     main_with (with_optimizer cfg cls args) w0 = main_with cfg w0).
Proof.
  intros Hsch Hcrit Hopt Hcos. split_and!.
  - unfold make_optimizer. rewrite Hsch, Hcrit, Hopt. cbv zeta.
    unfold lift at 1 2. rewrite !(bind_run _ _ _ _ _ eq_refl); cbv beta.
    unfold lift at 1. rewrite Hcos.
    rewrite !(bind_run _ _ _ _ _ eq_refl); cbv beta.
    eexists. split; [reflexivity | done].
  - intros cls args vl opt1 H1. unfold train_from, bind.
    by rewrite (make_optimizer_with_optimizer cfg cls args m tl w opt0 opt1).
  - intros cls args w0 Hall0 Hall1. unfold main_with.
    change (prepare (with_optimizer cfg cls args)) with (prepare cfg).
    unfold bind. destruct (prepare cfg w0) as [[e|[[tl' vl'] m1]] w1]; [done |].
    change (load_transfer (with_optimizer cfg cls args) m1)
      with (load_transfer cfg m1).
    destruct (load_transfer cfg m1 w1) as [[e|m2] w2]; [done |].
    destruct (Hall0 m2) as [o0 Ho0], (Hall1 m2) as [o1 Ho1].
    unfold train_from, bind.
    by rewrite (make_optimizer_with_optimizer cfg cls args m2 tl' w2 o0 o1).
Qed.

(** ** Two runs of the entry point *)

(** What a log line says apart from the elapsed time. *)
Definition metrics (l : log_line)
  : string * Z * Z * Py.float * Py.float * Py.float * Py.float :=
  (ll_model_path l, ll_epoch l, ll_num_epochs l,
   ll_train_acc l, ll_val_acc l, ll_train_loss l, ll_val_loss l).

(** Two worlds with the same files and the same logged metrics: the
    generators, the clock and the standard output may differ. *)
Definition low (w1 w2 : world) : Prop :=
  w_files w1 = w_files w2 /\ metrics <$> w_log w1 = metrics <$> w_log w2.

(** The same, with the generators in the same state. *)
Definition sim (w1 w2 : world) : Prop :=
  w_rng w1 = w_rng w2 /\ low w1 w2.

(** Two computations started in worlds related by [Pre] end alike: both
    return, with results related by [RA] and worlds related by [Post], or
    both raise the same exception, in worlds related by [low]. *)
Definition rel (Pre Post : world -> world -> Prop) {A} (RA : A -> A -> Prop)
    (m1 m2 : M A) : Prop :=
  forall w1 w2, Pre w1 w2 ->
    match m1 w1, m2 w2 with
    | (inr a1, w1'), (inr a2, w2') => RA a1 a2 /\ Post w1' w2'
    | (inl e1, w1'), (inl e2, w2') => e1 = e2 /\ low w1' w2'
    | _, _ => False
    end.

Lemma rel_bind {A C} Pre Mid Post (RA : A -> A -> Prop) (RC : C -> C -> Prop)
    (m1 m2 : M A) (k1 k2 : A -> M C) :
  rel Pre Mid RA m1 m2 ->
  (forall a1 a2, RA a1 a2 -> rel Mid Post RC (k1 a1) (k2 a2)) ->
  rel Pre Post RC (bind m1 k1) (bind m2 k2).
Proof.
  intros Hm Hk w1 w2 Hpre. specialize (Hm w1 w2 Hpre). unfold bind.
  destruct (m1 w1) as [[e1|a1] w1'], (m2 w2) as [[e2|a2] w2']; try done.
  destruct Hm as [Ha Hmid]. by apply Hk.
Qed.

Lemma rel_ret {A} (RA : A -> A -> Prop) (a1 a2 : A) :
  RA a1 a2 -> rel sim sim RA (ret a1) (ret a2).
Proof. by intros Ha w1 w2 Hsim. Qed.

Lemma rel_raise {A} (RA : A -> A -> Prop) (e : Py.exn) :
  rel sim sim RA (raise e) (raise e).
Proof. by intros w1 w2 [_ Hlow]. Qed.

Lemma rel_lift {A} (r : Py.exn + A) : rel sim sim eq (lift r) (lift r).
Proof. intros w1 w2 Hsim. destruct r; simpl; [by destruct Hsim | done]. Qed.

Lemma rel_with_rng {A} (f : rng gen -> A * rng gen) :
  rel sim sim eq (with_rng f) (with_rng f).
Proof.
  intros w1 w2 (Hr & Hf & Hl). unfold with_rng. rewrite Hr.
  by destruct (f (w_rng w2)).
Qed.

Lemma rel_try_with_rng {A} (f : rng gen -> (Py.exn + A) * rng gen) :
  rel sim sim eq (try_with_rng f) (try_with_rng f).
Proof.
  intros w1 w2 (Hr & Hf & Hl). unfold try_with_rng. rewrite Hr.
  by destruct (f (w_rng w2)) as [[e|a] r].
Qed.

Lemma rel_print (s1 s2 : string) : rel sim sim eq (print s1) (print s2).
Proof. by intros w1 w2 (Hr & Hf & Hl). Qed.

Lemma rel_time_time : rel sim sim (fun _ _ => True) time_time time_time.
Proof. by intros w1 w2 (Hr & Hf & Hl). Qed.

Lemma rel_logging_info (l1 l2 : log_line) :
  metrics l1 = metrics l2 -> rel sim sim eq (logging_info l1) (logging_info l2).
Proof.
  intros Hm w1 w2 (Hr & Hf & Hl). unfold logging_info. cbv beta iota.
  cbn [w_rng w_files w_log]. unfold sim, low. cbn [w_rng w_files w_log].
  split_and!; try done.
  rewrite !fmap_app. cbn [fmap list_fmap]. by rewrite Hl, Hm.
Qed.

Lemma rel_torch_save (sd : state_dict) (path : string) :
  rel sim sim eq (torch_save sd path) (torch_save sd path).
Proof.
  intros w1 w2 (Hr & Hf & Hl). unfold torch_save. rewrite Hf.
  destruct (fs_open_write _ _); [done |].
  unfold sim, low. cbn [with_files w_rng w_files w_log]. by repeat split.
Qed.

Lemma rel_os_makedirs (name : string) (exist_ok : bool) :
  rel sim sim eq (os_makedirs name exist_ok) (os_makedirs name exist_ok).
Proof.
  intros w1 w2 (Hr & Hf & Hl). unfold os_makedirs. rewrite Hf.
  by destruct (makedirs _ _ _).
Qed.

Lemma rel_logging_basicConfig (log_file : string) :
  rel sim sim eq (logging_basicConfig log_file) (logging_basicConfig log_file).
Proof.
  intros w1 w2 (Hr & Hf & Hl). unfold logging_basicConfig.
  destruct log_file as [|c lf]; [done |]. cbv zeta.
  destruct (OsPath.rstrip_slash _); [done |]. rewrite Hf.
  destruct (fs_open_write _ _); [done |].
  destruct (w_files w2 !! _); [done |].
  unfold sim, low. cbn [with_files w_rng w_files w_log]. by repeat split.
Qed.

Lemma rel_os_path_exists (path : string) :
  rel sim sim eq (os_path_exists path) (os_path_exists path).
Proof.
  intros w1 w2 (Hr & Hf & Hl). simpl. repeat split; try done. by rewrite Hf.
Qed.

Lemma rel_torch_load (path : string) :
  rel sim sim eq (torch_load path) (torch_load path).
Proof.
  intros w1 w2 (Hr & Hf & Hl). unfold torch_load. rewrite Hf.
  by destruct (w_files w2 !! path) as [[]|].
Qed.

Lemma rel_read_data_files : rel sim sim eq read_data_files read_data_files.
Proof.
  intros w1 w2 (Hr & Hf & Hl). simpl. repeat split; try done.
  unfold data_files. by rewrite Hf.
Qed.

Lemma rel_foldM {A S} (f : S -> A -> M S) (l : list A) :
  (forall s a, rel sim sim eq (f s a) (f s a)) ->
  forall s, rel sim sim eq (foldM f l s) (foldM f l s).
Proof.
  intros Hf. induction l as [|a l IH]; intros s; simpl.
  - by apply rel_ret.
  - eapply rel_bind; [apply Hf | intros s1 ? <-; apply IH].
Qed.

Lemma rel_train_batch crit reg dev st (b : batch) :
  rel sim sim eq (train_batch crit reg dev st b) (train_batch crit reg dev st b).
Proof.
  unfold train_batch. destruct st as [s acc]. cbv zeta.
  eapply rel_bind; [apply rel_with_rng | intros outputs ? <-].
  destruct (optimizer_step _ _) as [opt m].
  destruct (ls_scheduler s) as [sch|]; [destruct (scheduler_step sch opt) |];
    by apply rel_ret.
Qed.

Lemma rel_val_batch crit m acc (b : batch) :
  rel sim sim eq (val_batch crit m acc b) (val_batch crit m acc b).
Proof.
  unfold val_batch. cbv zeta.
  eapply rel_bind; [apply rel_with_rng | intros outputs ? <-].
  by apply rel_ret.
Qed.

Lemma rel_early_stopping epoch v pat mp s :
  rel sim sim eq (early_stopping epoch v pat mp s) (early_stopping epoch v pat mp s).
Proof.
  unfold early_stopping. destruct (Py.flt v (best_loss s)).
  - cbv zeta.
    eapply rel_bind; [apply rel_os_path_exists | intros found ? <-].
    eapply rel_bind; [| intros ? ? _].
    { destruct (negb found); [apply rel_os_makedirs | by apply rel_ret]. }
    eapply rel_bind; [apply rel_torch_save | intros ? ? _].
    eapply rel_bind; [apply rel_print | intros ? ? _].
    by apply rel_ret.
  - by apply rel_ret.
Qed.

Lemma rel_epoch_body tl vl crit dev ne pat mp reg epoch s :
  rel sim sim eq (epoch_body tl vl crit dev ne pat mp reg epoch s)
                 (epoch_body tl vl crit dev ne pat mp reg epoch s).
Proof.
  unfold epoch_body. cbv zeta.
  eapply rel_bind; [apply rel_time_time | intros start1 start2 _].
  eapply rel_bind; [apply rel_with_rng | intros batches ? <-].
  eapply rel_bind;
    [apply rel_foldM; intros; apply rel_train_batch | intros [s1 tr] ? <-].
  eapply rel_bind; [apply rel_lift | intros avg_train_loss ? <-].
  eapply rel_bind; [apply rel_lift | intros train_acc ? <-].
  eapply rel_bind; [apply rel_with_rng | intros vbatches ? <-].
  eapply rel_bind;
    [apply rel_foldM; intros; apply rel_val_batch | intros va ? <-].
  eapply rel_bind; [apply rel_lift | intros avg_val_loss ? <-].
  eapply rel_bind; [apply rel_lift | intros val_acc ? <-].
  eapply rel_bind; [apply rel_time_time | intros now1 now2 _].
  eapply rel_bind; [by apply rel_logging_info | intros ? ? _].
  eapply rel_bind; [| intros ? ? _; apply rel_early_stopping].
  destruct (snapshot_due epoch); [apply rel_torch_save | by apply rel_ret].
Qed.

Lemma rel_for_epochs body (l : list Z) :
  (forall epoch s, rel sim sim eq (body epoch s) (body epoch s)) ->
  forall s, rel sim sim eq (for_epochs body l s) (for_epochs body l s).
Proof.
  intros Hbody. induction l as [|epoch l IH]; intros s; simpl.
  - by apply rel_ret.
  - destruct (early_stop s).
    + eapply rel_bind; [apply rel_print | intros ? ? _]. by apply rel_ret.
    + eapply rel_bind; [apply Hbody | intros s1 ? <-; apply IH].
Qed.

Lemma rel_train_model m tl vl crit opt dev lf ne pat mp reg sch :
  rel sim sim eq (train_model m tl vl crit opt dev lf ne pat mp reg sch)
                 (train_model m tl vl crit opt dev lf ne pat mp reg sch).
Proof.
  unfold train_model, train_loop.
  eapply rel_bind; [apply rel_logging_basicConfig | intros ? ? _].
  eapply rel_bind; [| intros ? ? _; by apply rel_ret].
  apply rel_for_epochs. intros. apply rel_epoch_body.
Qed.

Lemma rel_make_optimizer cfg m tl :
  rel sim sim eq (make_optimizer cfg m tl) (make_optimizer cfg m tl).
Proof.
  unfold make_optimizer. cbv zeta.
  eapply rel_bind; [apply rel_lift | intros crit ? <-].
  eapply rel_bind; [apply rel_lift | intros opt ? <-].
  destruct (use_scheduler (Train cfg)); [| by apply rel_ret].
  eapply rel_bind; [apply rel_lift | intros sch ? <-].
  eapply rel_bind; [apply rel_print | intros ? ? _].
  eapply rel_bind; [apply rel_print | intros ? ? _].
  by apply rel_ret.
Qed.

Lemma rel_load_transfer cfg m :
  rel sim sim eq (load_transfer cfg m) (load_transfer cfg m).
Proof.
  unfold load_transfer.
  destruct (default false (transfer (Train cfg))); [| by apply rel_ret].
  eapply rel_bind.
  { unfold get_chkp_prefix. destruct (chkp_prefix (Train cfg));
      [by apply (rel_ret eq) | apply rel_raise]. }
  intros prefix ? <-. cbv zeta.
  eapply rel_bind; [apply rel_os_path_exists | intros found ? <-].
  destruct (_ && _).
  - eapply rel_bind; [apply rel_torch_load | intros sd ? <-].
    eapply rel_bind; [apply rel_lift | intros m' ? <-].
    eapply rel_bind; [apply rel_print | intros ? ? _].
    by apply rel_ret.
  - eapply rel_bind; [apply rel_print | intros ? ? _].
    by apply rel_ret.
Qed.

Lemma rel_train_from cfg m tl vl :
  rel sim sim eq (train_from cfg m tl vl) (train_from cfg m tl vl).
Proof.
  unfold train_from.
  eapply rel_bind; [apply rel_make_optimizer | intros [[crit opt] sch] ? <-].
  eapply rel_bind; [apply rel_os_makedirs | intros ? ? _].
  apply rel_train_model.
Qed.

(** [set_seed] in one step: every generator is seeded, or numpy rejects the
    seed once the [random] module has taken it. *)
Lemma set_seed_run (seed : Z) (w : world) :
  set_seed seed w =
    if (0 <=? seed) && (seed <? 2 ^ 32) then
      (inr tt,
       World (Rng (py_seed seed) (np_seed seed) (torch_seed seed)
                  (cuda_seed seed) true false)
             (w_clock w) (w_ticks w) (w_files w) (w_stdout w) (w_log w))
    else
      (inl (Py.ValueError "Seed must be between 0 and 2**32 - 1"),
       World (Rng (py_seed seed) (np_random (w_rng w)) (torch_cpu (w_rng w))
                  (torch_cuda (w_rng w)) (cudnn_deterministic (w_rng w))
                  (cudnn_benchmark (w_rng w)))
             (w_clock w) (w_ticks w) (w_files w) (w_stdout w) (w_log w)).
Proof.
  unfold set_seed. destruct w as [[] ? ? ? ? ?].
  destruct ((0 <=? seed) && (seed <? 2 ^ 32)); destruct cuda_is_available;
    cbv; reflexivity.
Qed.

(** After [set_seed] the generators depend on the seed alone. *)
Lemma rel_set_seed (seed : Z) : rel low sim eq (set_seed seed) (set_seed seed).
Proof.
  intros w1 w2 [Hf Hl]. rewrite !set_seed_run.
  destruct ((0 <=? seed) && (seed <? 2 ^ 32)); by repeat split.
Qed.

Lemma rel_prepare cfg : rel low sim eq (prepare cfg) (prepare cfg).
Proof.
  unfold prepare. cbv zeta.
  eapply rel_bind; [apply rel_set_seed | intros ? ? _].
  eapply rel_bind; [apply rel_read_data_files | intros files ? <-].
  eapply rel_bind; [apply rel_try_with_rng | intros dp ? <-].
  eapply rel_bind; [apply rel_print | intros ? ? _].
  eapply rel_bind; [apply rel_lift | intros [train_indices val_indices] ? <-].
  eapply rel_bind; [apply rel_lift | intros full_dataset ? <-].
  eapply rel_bind; [apply rel_print | intros ? ? _].
  eapply rel_bind; [apply rel_print | intros ? ? _].
  eapply rel_bind; [apply rel_lift | intros train_loader ? <-].
  eapply rel_bind; [apply rel_lift | intros val_loader ? <-].
  eapply rel_bind; [apply rel_try_with_rng | intros m ? <-].
  eapply rel_bind; [apply rel_print | intros ? ? _].
  by apply rel_ret.
Qed.

Lemma rel_main_with cfg : rel low sim eq (main_with cfg) (main_with cfg).
Proof.
  unfold main_with.
  eapply rel_bind; [apply rel_prepare | intros [[tl vl] m] ? <-].
  eapply rel_bind; [apply rel_load_transfer | intros m' ? <-].
  apply rel_train_from.
Qed.

Lemma rel_load_config (config_path : string) :
  rel low low eq (load_config config_path) (load_config config_path).
Proof.
  intros w1 w2 [Hf Hl]. unfold load_config. rewrite Hf.
  by destruct (w_files w2 !! config_path) as [[]|].
Qed.

Lemma rel_main (config_path : string) :
  rel low sim eq (main config_path) (main config_path).
Proof.
  unfold main.
  eapply rel_bind; [apply rel_load_config | intros cfg ? <-].
  apply rel_main_with.
Qed.

(** C4: two executions of the training entry point on the same
    configuration script and files (data, embeddings, checkpoints), whatever
    the states of the random generators before seeding, the clock readings
    and the standard output, end alike (both return, or both raise the same
    exception) and write the same per-epoch accuracy and loss values to the
    log; the collaborators draw their randomness from the seeded generators
    only. *)
Theorem C4_same_seed_same_log (config_path : string) (w1 w2 : world) :
  w_files w1 = w_files w2 ->
  metrics <$> w_log w1 = metrics <$> w_log w2 ->
  (main config_path w1).1 = (main config_path w2).1 /\
  metrics <$> w_log (main config_path w1).2
    = metrics <$> w_log (main config_path w2).2 /\
  w_files (main config_path w1).2 = w_files (main config_path w2).2.
Proof.
  intros Hf Hl. pose proof (rel_main config_path w1 w2 (conj Hf Hl)) as H.
  destruct (main config_path w1) as [[e1|[]] w1'],
           (main config_path w2) as [[e2|[]] w2']; try done; simpl.
  - destruct H as (-> & Hf' & Hl'). done.
  - destruct H as (_ & _ & Hf' & Hl'). done.
Qed.

End Proofs.

(** * Concrete runs *)

Module Runs.

Import Toy.

(** The loop state a toy run starts in. *)
Definition state0 (script : list Py.float) : loop_state (B := backend) :=
  @LoopState backend script O None Py.inf 0 false.

(** Thirty-two losses going down from 40: no epoch stops early. *)
Definition descending : list Py.float :=
  (fun i => f (40 - Z.of_nat i)) <$> seq 0 32.

(** A world whose checkpoint directory is there. *)
Definition ready : world (B := backend) :=
  @World backend rng0 (fun n => Z.of_nat n) O (<["models" := Directory]> ∅) [] [].



End Runs.

(** The state and the world that the equation [H] names, evaluated. *)
Ltac evaluate H :=
  match type of H with
  | ?run = (_, ?w) => replace w with (run.2) by (by rewrite H)
  end;
  try match type of H with
      | ?run = (inr ?s, _) =>
          is_var s;
          replace s with (match run.1 with inr a => a | inl _ => s end)
            by (by rewrite H)
      end;
  vm_compute; repeat split.

(** C1: the code tests [epoch+1 >= 30 and epoch+1 % 5 == 0], which Python
    reads as [epoch + (1 % 5) == 0].  At the 30th epoch (index 29), where a
    numbered snapshot is due every 5 epochs from epoch 30 on, the test is
    false; it is false at every epoch index, and a run of 30 epochs leaves no
    file "models/demo-epoch_30.pt". *)
Theorem C1_numbered_snapshot_never_written :
  ((29 + 1) mod 5 = 0 /\ 30 <= 29 + 1) /\
  snapshot_due 29 = false /\
  (forall epoch : Z, snapshot_due epoch = false) /\
  exists s w,
    Toy.run Runs.descending 30 100 = (inr s, w) /\
    length (w_log w) = 30%nat /\
    epoch_path "models/demo" 29 = "models/demo-epoch_30.pt" /\
    w_files w !! "models/demo-epoch_30.pt" = None /\
    is_Some (w_files w !! "models/demo-best.pt").
Proof.
  split; [by vm_compute |]. split; [reflexivity |].
  split; [apply snapshot_never_due |].
  eexists _, _. split; [vm_compute; reflexivity |].
  split; [vm_compute; reflexivity |]. split; [vm_compute; reflexivity |].
  split; [vm_compute; reflexivity |]. eexists. vm_compute. reflexivity.
Qed.



(** An empty validation loader: the first epoch of the toy run raises, and
    so does the run; with the loader of one sample the epoch logs its
    line. *)
Lemma C10_empty_loader_division_witness :
  (0 < dl_batch_size (Toy.loader 2) /\ 0 < dl_batch_size (Toy.loader 0) /\
   dl_dataset (Toy.loader 0) = [] /\ 0 < 5 /\
   log_opens (w_files Toy.world0) "train.log") /\
  (exists w',
     epoch_body (B := Toy.backend) (Toy.loader 2) (Toy.loader 0) tt Cpu 5 2
                "models/demo" false 0 (Runs.state0 [Toy.f 9; Toy.f 1]) Toy.world0
       = (inl Py.ZeroDivisionError, w') /\
     w_log w' = w_log Toy.world0 /\ w_files w' = w_files Toy.world0 /\
     w_stdout w' = w_stdout Toy.world0) /\
  (exists w',
     train_model (B := Toy.backend) [Toy.f 9; Toy.f 1] (Toy.loader 2)
                 (Toy.loader 0) tt O Cpu "train.log" 5 2 "models/demo" false
                 None Toy.world0
       = (inl Py.ZeroDivisionError, w') /\
     w_log w' = [] /\ w_files w' !! "models/demo-best.pt" = None).
Proof.
  assert (Hopen : log_opens (w_files Toy.world0) "train.log")
    by (right; split; [discriminate | reflexivity]).
  split; [by split_and! |].
  destruct (C10_empty_loader_division (B := Toy.backend) (Toy.loader 2) (Toy.loader 0)
              tt Cpu 2 "models/demo" false) as [Hraise _];
    [reflexivity | reflexivity |].
  destruct Hraise as [Hepoch Hrun]; [by right |].
  split; [apply (Hepoch 5 0 (Runs.state0 [Toy.f 9; Toy.f 1]) Toy.world0) |].
  destruct (Hrun [Toy.f 9; Toy.f 1] O "train.log" 5 None Toy.world0)
    as (w' & Hw' & Hlog & _ & Hfiles); [reflexivity | exact Hopen |].
  exists w'. split; [exact Hw' |]. split; [exact Hlog |].
  evaluate Hw'.
Defined.





(** * A concrete configuration

    The training section follows the demonstration configuration of the
    repository (batch size 128, 50 epochs, patience 100, no scheduler, no
    transfer), over the backend of [Toy]. *)

Module Demo.

Import Toy.

(** The encoder keeps one encoded sample per sample of the provider. *)
Definition encode (dp : provider) (args : kwargs)
    (files : string -> option string) : Py.exn + dataset (B := backend) :=
  inr ((fun s => (rs_label s, rs_label s)) <$> samples dp).

(** A fresh model: its first loss is drawn from the torch generator. *)
Definition new_model (args : kwargs) (r : rng nat)
  : (Py.exn + list Py.float) * rng nat :=
  (inr [f (Z.of_nat (torch_cpu r)); f 3; f 2; f 3; f 4], r).

Definition data : data_config :=
  {| epi_path := "train.csv"; epi_args := [];
     hla_path := "hla.csv"; hla_args := [];
     test_path := "test.csv"; test_args := [];
     num_workers := 8;
     val_size := Py.fdiv (Py.of_int 1) (Py.of_int 5) |}.

Definition training (scheduler_on : bool) (transfer_on : option bool)
  : train_config (B := backend) :=
  @Build_train_config backend 128 50 100 false (inr tt)
    (fun m args => inr 7%nat) [("lr", "1e-5")] scheduler_on transfer_on
    (Some "best").

Definition testing : test_config :=
  {| test_batch_size := Some 64; test_chkp_prefix := "best" |}.

Definition cfg (scheduler_on : bool) (transfer_on : option bool)
  : config (B := backend) :=
  @Build_config backend "demo_chai2_sp" "models" "train.log" "plots" 100
    new_model [] encode [] data (training scheduler_on transfer_on) testing.

(** The files of a run: the training data (three samples) and the
    configuration script. *)
Definition files (c : config (B := backend)) : gmap string (file (B := backend)) :=
  <["train.csv" := Other "abc"]> (<["config.py" := Script c]> ∅).

Definition world1 (c : config (B := backend)) : world (B := backend) :=
  @World backend (Rng 1 2 3 4 false true)%nat (fun n => Z.of_nat n) O (files c) [] [].

(** The same files under other generators, another clock and some output. *)
Definition world2 (c : config (B := backend)) : world (B := backend) :=
  @World backend (Rng 9 8 7 6 true false)%nat (fun n => 1000 + 3 * Z.of_nat n) 5%nat
         (files c) ["hello"] [].

(** A world with the training data only. *)
Definition data_world : world (B := backend) :=
  @World backend (Rng 1 2 3 4 false true)%nat (fun n => Z.of_nat n) O
         (<["train.csv" := Other "abc"]> ∅) [] [].

(** A provider of three samples. *)
Definition three : provider :=
  Provider [RawSample "e1" "h1" Py.one; RawSample "e2" "h1" Py.zero;
            RawSample "e3" "h2" Py.one] ["h1"; "h2"].

End Demo.

(** Two runs of [main] on the same files, from different generators,
    clocks and outputs. *)
Lemma C4_same_seed_same_log_witness :
  (w_files (Demo.world1 (Demo.cfg false None))
     = w_files (Demo.world2 (Demo.cfg false None)) /\
   metrics <$> w_log (Demo.world1 (Demo.cfg false None))
     = metrics <$> w_log (Demo.world2 (Demo.cfg false None))) /\
  metrics <$> w_log (main (B := Toy.backend) "config.py"
                          (Demo.world1 (Demo.cfg false None))).2
    = metrics <$> w_log (main (B := Toy.backend) "config.py"
                              (Demo.world2 (Demo.cfg false None))).2.
Proof.
  split; [split; reflexivity |].
  destruct (C4_same_seed_same_log (B := Toy.backend) "config.py"
           (Demo.world1 (Demo.cfg false None))
           (Demo.world2 (Demo.cfg false None))) as (_ & H & _);
    [reflexivity | reflexivity | exact H].
Defined.

(** Evaluation over a provider of three samples. *)
Lemma C5_label_and_prediction_counts_witness :
  (Demo.encode Demo.three [] (data_files (Demo.world1 (Demo.cfg false None)))
     = inr [(Py.one, Py.one); (Py.zero, Py.zero); (Py.one, Py.one)] /\
   samples Demo.three <> []) /\
  exists y y_pred w',
    labels_and_predictions (B := Toy.backend) Demo.three [Toy.f 2]
                           (Demo.cfg false None) Cpu
                           (Demo.world1 (Demo.cfg false None))
      = (inr (y, y_pred), w') /\
    length y = 3%nat /\ length y_pred = 3%nat.
Proof.
  split; [by split |].
  destruct (C5_label_and_prediction_counts (B := Toy.backend)
              (fun m X r => length_fmap _ X)
              Demo.three [Toy.f 2] (Demo.cfg false None) Cpu
              (Demo.world1 (Demo.cfg false None))
              [(Py.one, Py.one); (Py.zero, Py.zero); (Py.one, Py.one)])
    as (y & y_pred & w' & Hrun & _ & Hy & Hp & _);
    [reflexivity | reflexivity | discriminate
    | intros b [= <-]; reflexivity |].
  exists y, y_pred, w'. split; [exact Hrun |]. split; [exact Hy | exact Hp].
Defined.

(** Transfer learning enabled, no checkpoint on disk. *)
Lemma C7_transfer_checkpoint_witness :
  (transfer (Train (Demo.cfg false (Some true))) = Some true /\
   chkp_prefix (Train (Demo.cfg false (Some true))) = Some "best" /\
   w_files Demo.data_world !! "models/demo_chai2_sp-best.pt" = None) /\
  exists tl vl m0 w1 w2,
    prepare (B := Toy.backend) (Demo.cfg false (Some true)) Demo.data_world
      = (inr (tl, vl, m0), w1) /\
    load_transfer (Demo.cfg false (Some true)) m0 w1 = (inr m0, w2).
Proof.
  split; [split_and!; [reflexivity | reflexivity | vm_compute; reflexivity] |].
  edestruct (C7_transfer_checkpoint (B := Toy.backend)
               (Demo.cfg false (Some true)) "best" Demo.data_world)
    as [Hmissing _].
  - reflexivity.
  - reflexivity.
  - vm_compute. reflexivity.
  - destruct Hmissing as [Hload _]; [vm_compute; reflexivity |].
    eexists _, _, _, _, _. split; [vm_compute; reflexivity | exact Hload].
Defined.

(** A scheduler over the configured optimizer. *)
Lemma C9_scheduler_replaces_optimizer_witness :
  (use_scheduler (Train (Demo.cfg true None)) = true /\
   optimizer_class (Train (Demo.cfg true None)) [Toy.f 9] [("lr", "1e-5")]
     = inr 7%nat) /\
  exists w',
    make_optimizer (B := Toy.backend) (Demo.cfg true None) [Toy.f 9]
                   (Toy.loader 2) Toy.world0
      = (inr (tt, O, Some O), w').
Proof.
  split; [by split |].
  destruct (C9_scheduler_replaces_optimizer (B := Toy.backend)
              (Demo.cfg true None) [Toy.f 9] (Toy.loader 2) Toy.world0
              tt 7%nat O)
    as [(w' & Hrun & _) _];
    [reflexivity | reflexivity | reflexivity | reflexivity |].
  exists w'. exact Hrun.
Defined.

(** * Further properties of the training and evaluation code *)

Section Coverage.

Context `{B : Backend}.

(** ** What a run writes *)

(** A computation that changes the file system in two ways at most: where
    nothing was, it may put what [fresh] admits; anywhere, it may put what
    [target] admits.  Every other entry is as before, and it only appends to
    the log. *)
Definition touches (fresh target : string -> file -> Prop) {A} (m : M A) : Prop :=
  forall w,
    (forall path,
       w_files (m w).2 !! path = w_files w !! path \/
       (w_files w !! path = None /\
        exists f, fresh path f /\ w_files (m w).2 !! path = Some f) \/
       (exists f, target path f /\ w_files (m w).2 !! path = Some f)) /\
    exists lines, w_log (m w).2 = w_log w ++ lines.

Section Frames.

Variables fresh target : string -> file -> Prop.

Lemma touches_keeps {A} (m : M A) : keeps m -> touches fresh target m.
Proof.
  intros Hk w. destruct (Hk w) as [Hf Hl]. rewrite Hf, Hl.
  split; [by left |]. exists []. by rewrite app_nil_r.
Qed.

Lemma touches_bind {A C} (m : M A) (k : A -> M C) :
  touches fresh target m -> (forall a, touches fresh target (k a)) ->
  touches fresh target (bind m k).
Proof.
  intros Hm Hk w. unfold bind. specialize (Hm w).
  destruct (m w) as [[e|a] w1]; [done |].
  destruct Hm as [Hf1 [l1 Hl1]], (Hk a w1) as [Hf2 [l2 Hl2]]. simpl in *.
  split.
  - intros path.
    destruct (Hf1 path) as [H1 | [(H1 & f1 & Hfresh1 & H1') | (f1 & Ht1 & H1)]],
             (Hf2 path) as [H2 | [(H2 & f2 & Hfresh2 & H2') | (f2 & Ht2 & H2)]];
      try congruence.
    + left. congruence.
    + right; left. rewrite <- H1. eauto.
    + right; right. eauto.
    + right; left. split; [done |]. exists f1. split; [done | congruence].
    + right; right. eauto.
    + right; right. exists f1. split; [done | congruence].
    + right; right. eauto.
  - exists (l1 ++ l2). by rewrite Hl2, Hl1, app_assoc.
Qed.

Lemma touches_foldM {A S} (f : S -> A -> M S) (l : list A) :
  (forall s a, touches fresh target (f s a)) ->
  forall s, touches fresh target (foldM f l s).
Proof.
  intros Hf. induction l as [|a l IH]; intros s; simpl.
  - apply touches_keeps, keeps_ret.
  - apply touches_bind; auto.
Qed.

Lemma touches_logging_info (l : log_line) : touches fresh target (logging_info l).
Proof. intros w. simpl. split; [by left | by exists [l]]. Qed.

Lemma touches_torch_save (p : string) (sd : state_dict) :
  target p (Checkpoint sd) -> touches fresh target (torch_save sd p).
Proof.
  intros Ht w. unfold torch_save.
  destruct (fs_open_write _ _); simpl.
  - split; [by left |]. exists []. by rewrite app_nil_r.
  - split; [| exists []; by rewrite app_nil_r].
    intros path. destruct (decide (path = p)) as [-> | Hne].
    + right; right. rewrite lookup_insert_eq. eauto.
    + left. by rewrite lookup_insert_ne.
Qed.

Lemma touches_savefig (p : string) (fig : figure) :
  target p (Plot fig) -> touches fresh target (savefig p fig).
Proof.
  intros Ht w. unfold savefig.
  destruct (fs_open_write _ _); simpl.
  - split; [by left |]. exists []. by rewrite app_nil_r.
  - split; [| exists []; by rewrite app_nil_r].
    intros path. destruct (decide (path = p)) as [-> | Hne].
    + right; right. rewrite lookup_insert_eq. eauto.
    + left. by rewrite lookup_insert_ne.
Qed.

Lemma touches_os_makedirs (name : string) (exist_ok : bool) :
  (forall path, fresh path Directory) ->
  touches fresh target (os_makedirs name exist_ok).
Proof.
  intros Hfresh w. unfold os_makedirs.
  destruct (makedirs _ _ _) as [e|fs] eqn:Hmk; simpl.
  - split; [by left |]. exists []. by rewrite app_nil_r.
  - split; [| exists []; by rewrite app_nil_r].
    intros path. destruct (makedirs_grown _ _ _ _ Hmk path) as [? | [? ?]];
      [by left |]. right; left. eauto.
Qed.

Lemma touches_logging_basicConfig (lf : string) :
  fresh (OsPath.rstrip_slash lf) LogFile ->
  touches fresh target (logging_basicConfig lf).
Proof.
  intros Hfresh w. unfold logging_basicConfig.
  assert (Hsame : forall w' : world, w_files w' = w_files w -> w_log w' = w_log w ->
            (forall path,
               w_files w' !! path = w_files w !! path \/
               (w_files w !! path = None /\
                exists f, fresh path f /\ w_files w' !! path = Some f) \/
               (exists f, target path f /\ w_files w' !! path = Some f)) /\
            exists lines, w_log w' = w_log w ++ lines).
  { intros w' -> ->. split; [by left |]. exists []. by rewrite app_nil_r. }
  destruct lf as [|c lf]; [by apply Hsame |]. cbv zeta.
  destruct (OsPath.rstrip_slash (String c lf)) as [|c' p] eqn:Hp; [by apply Hsame |].
  destruct (fs_open_write _ _); [by apply Hsame |].
  destruct (w_files w !! String c' p) eqn:Hf; [by apply Hsame |]. simpl.
  split; [| exists []; by rewrite app_nil_r].
  intros path. destruct (decide (path = String c' p)) as [-> | Hne].
  - right; left. rewrite lookup_insert_eq. eauto.
  - left. by rewrite lookup_insert_ne.
Qed.

End Frames.

Lemma keeps_time_time : keeps time_time.
Proof. by intros w. Qed.

Lemma keeps_os_path_exists (path : string) : keeps (os_path_exists path).
Proof. by intros w. Qed.

Lemma keeps_torch_load (path : string) : keeps (torch_load path).
Proof. intros w. unfold torch_load. by destruct (w_files w !! path) as [[]|]. Qed.

Lemma keeps_train_batch crit reg dev st (b : batch) :
  keeps (train_batch crit reg dev st b).
Proof.
  unfold train_batch. destruct st as [s acc]. cbv zeta.
  apply keeps_bind; [apply keeps_with_rng | intros outputs].
  destruct (optimizer_step _ _) as [opt m].
  destruct (ls_scheduler s) as [sch|]; [destruct (scheduler_step sch opt) |];
    apply keeps_ret.
Qed.

Lemma keeps_val_batch crit m acc (b : batch) : keeps (val_batch crit m acc b).
Proof.
  unfold val_batch. cbv zeta.
  apply keeps_bind; [apply keeps_with_rng | intros outputs; apply keeps_ret].
Qed.

(** What a training run may create where nothing was: directories, and its
    log file; and what it may write anywhere: the "best" checkpoint. *)
Definition run_fresh (lf : string) (path : string) (f : file) : Prop :=
  f = Directory \/ (path = OsPath.rstrip_slash lf /\ f = LogFile).

Definition run_target (mp : string) (path : string) (f : file) : Prop :=
  path = best_path mp /\ exists sd, f = Checkpoint sd.

Lemma touches_early_stopping lf epoch v pat mp s :
  touches (run_fresh lf) (run_target mp) (early_stopping epoch v pat mp s).
Proof.
  unfold early_stopping. destruct (Py.flt v (best_loss s)).
  - cbv zeta.
    apply touches_bind; [apply touches_keeps, keeps_os_path_exists | intros found].
    apply touches_bind; [| intros _].
    { destruct (negb found);
        [apply touches_os_makedirs; by left | apply touches_keeps, keeps_ret]. }
    apply touches_bind; [apply touches_torch_save; split; eauto | intros _].
    apply touches_keeps, keeps_bind; [apply keeps_print | intros _; apply keeps_ret].
  - apply touches_keeps, keeps_ret.
Qed.

Lemma touches_epoch_body lf tl vl crit dev ne pat mp reg epoch s :
  touches (run_fresh lf) (run_target mp)
          (epoch_body tl vl crit dev ne pat mp reg epoch s).
Proof.
  unfold epoch_body. cbv zeta. rewrite snapshot_never_due.
  repeat first
    [ apply touches_early_stopping
    | apply touches_logging_info
    | apply touches_bind; [| intros ?]
    | apply touches_foldM; intros; apply touches_keeps;
      first [apply keeps_train_batch | apply keeps_val_batch]
    | apply touches_keeps;
      first [ apply keeps_time_time | apply keeps_with_rng | apply keeps_lift
            | apply keeps_ret ]
    | match goal with |- touches _ _ (match ?x with _ => _ end) => destruct x end ].
Qed.

Lemma touches_for_epochs fresh target body (l : list Z) :
  (forall epoch s, touches fresh target (body epoch s)) ->
  forall s, touches fresh target (for_epochs body l s).
Proof.
  intros Hbody. induction l as [|epoch l IH]; intros s; simpl.
  - apply touches_keeps, keeps_ret.
  - destruct (early_stop s).
    + apply touches_keeps, keeps_bind; [apply keeps_print | intros _; apply keeps_ret].
    + apply touches_bind; auto.
Qed.

Lemma touches_train_model m tl vl crit opt dev lf ne pat mp reg sch :
  touches (run_fresh lf) (run_target mp)
          (train_model m tl vl crit opt dev lf ne pat mp reg sch).
Proof.
  unfold train_model, train_loop.
  apply touches_bind; [apply touches_logging_basicConfig; by right | intros _].
  apply touches_bind; [| intros _; apply touches_keeps, keeps_ret].
  apply touches_for_epochs. intros. apply touches_epoch_body.
Qed.

Lemma keeps_load_transfer cfg m : keeps (load_transfer cfg m).
Proof.
  unfold load_transfer, get_chkp_prefix.
  repeat first
    [ apply keeps_bind; [| intros ?]
    | apply keeps_ret | apply keeps_raise | apply keeps_print | apply keeps_lift
    | apply keeps_os_path_exists | apply keeps_torch_load
    | match goal with
      | |- keeps (if ?c then _ else _) => destruct c
      | |- keeps (match ?x with _ => _ end) => destruct x
      end ].
Qed.

Lemma keeps_make_optimizer cfg m tl : keeps (make_optimizer cfg m tl).
Proof.
  unfold make_optimizer. cbv zeta.
  repeat first
    [ apply keeps_bind; [| intros ?]
    | apply keeps_ret | apply keeps_print | apply keeps_lift
    | match goal with |- keeps (if ?c then _ else _) => destruct c end ].
Qed.

Lemma touches_main_with cfg :
  touches (run_fresh (log_file cfg))
          (run_target (OsPath.join (chkp_path cfg) (chkp_name cfg)))
          (main_with cfg).
Proof.
  unfold main_with.
  apply touches_bind; [apply touches_keeps, keeps_prepare |].
  intros [[tl vl] m].
  apply touches_bind; [apply touches_keeps, keeps_load_transfer |].
  intros m'. unfold train_from.
  apply touches_bind; [apply touches_keeps, keeps_make_optimizer |].
  intros [[crit opt] sch].
  apply touches_bind; [apply touches_os_makedirs; by left | intros _].
  apply touches_train_model.
Qed.

(** Whatever the configuration, the data and the outcome, [train_model] and
    the body of [main] write no file other than the "best" checkpoint of the
    configured path: no numbered snapshot, nothing deleted, nothing else
    overwritten.  Every other path is as before, or held nothing and is now
    a directory (from [os.makedirs]) or the log file of the run; and they
    only append to the log. *)
Theorem run_writes_only_best_checkpoint :
  (forall m tl vl crit opt dev lf ne pat mp reg sch (w : world),
     let w' := (train_model m tl vl crit opt dev lf ne pat mp reg sch w).2 in
     (forall path, path <> best_path mp ->
        w_files w' !! path = w_files w !! path \/
        (w_files w !! path = None /\
         (w_files w' !! path = Some Directory \/
          (path = OsPath.rstrip_slash lf /\ w_files w' !! path = Some LogFile)))) /\
     exists lines, w_log w' = w_log w ++ lines) /\
  (forall cfg (w : world),
     let w' := (main_with cfg w).2 in
     (forall path,
        path <> best_path (OsPath.join (chkp_path cfg) (chkp_name cfg)) ->
        w_files w' !! path = w_files w !! path \/
        (w_files w !! path = None /\
         (w_files w' !! path = Some Directory \/
          (path = OsPath.rstrip_slash (log_file cfg) /\
           w_files w' !! path = Some LogFile)))) /\
     exists lines, w_log w' = w_log w ++ lines).
Proof.
  assert (Hframe : forall lf mp {A} (m : M A) (w : world),
            touches (run_fresh lf) (run_target mp) m ->
            (forall path, path <> best_path mp ->
               w_files (m w).2 !! path = w_files w !! path \/
               (w_files w !! path = None /\
                (w_files (m w).2 !! path = Some Directory \/
                 (path = OsPath.rstrip_slash lf /\
                  w_files (m w).2 !! path = Some LogFile)))) /\
            exists lines, w_log (m w).2 = w_log w ++ lines).
  { intros lf mp A m w Hm. destruct (Hm w) as [Hf Hl]. split; [| exact Hl].
    intros path Hp.
    destruct (Hf path) as [H | [(H & f & [-> | [-> ->]] & H') | (f & [-> _] & _)]];
      [by left | right | right | done]; split; auto. }
  split.
  - intros. apply Hframe, touches_train_model.
  - intros. apply Hframe, touches_main_with.
Qed.

(** ** Seeding *)

(** [set_seed] with a seed numpy accepts leaves every generator in the
    state its seed fixes, with cudnn deterministic and not benchmarking,
    whatever they were before; seeding twice is seeding once.  With a seed
    outside [0, 2**32 - 1] numpy raises ValueError after the [random] module
    has been seeded: the other generators and the cudnn flags are as they
    were. *)
Theorem set_seed_outcome (seed : Z) (w : world) :
  (if (0 <=? seed) && (seed <? 2 ^ 32) then
     set_seed seed w =
       (inr tt,
        World (Rng (py_seed seed) (np_seed seed) (torch_seed seed)
                   (cuda_seed seed) true false)
              (w_clock w) (w_ticks w) (w_files w) (w_stdout w) (w_log w))
   else
     set_seed seed w =
       (inl (Py.ValueError "Seed must be between 0 and 2**32 - 1"),
        World (Rng (py_seed seed) (np_random (w_rng w)) (torch_cpu (w_rng w))
                   (torch_cuda (w_rng w)) (cudnn_deterministic (w_rng w))
                   (cudnn_benchmark (w_rng w)))
              (w_clock w) (w_ticks w) (w_files w) (w_stdout w) (w_log w))) /\
  bind (set_seed seed) (fun _ => set_seed seed) w = set_seed seed w.
Proof.
  unfold set_seed. destruct w as [[] ? ? ? ? ?].
  destruct ((0 <=? seed) && (seed <? 2 ^ 32));
    destruct cuda_is_available; split; cbv; reflexivity.
Qed.

(** ** Transfer learning: every outcome *)

(** [main] with [transfer] set, once the data are loaded and the model is
    built.  Without a [chkp_prefix] key it raises KeyError; with a directory
    at the checkpoint path it raises IsADirectoryError; with a file there
    that is no checkpoint it raises the error of [torch.load] for the
    content of the file; with a checkpoint the model refuses it raises the
    error of [load_state_dict]: in the four cases nothing is printed and
    training does not start.  Otherwise it trains the model with the loaded
    weights, or the fresh model when nothing is at the path, after printing
    which. *)
Theorem transfer_outcomes (cfg : config) (tl vl : DataLoader) (m : model)
    (w0 w : world) :
  transfer (Train cfg) = Some true ->
  prepare cfg w0 = (inr (tl, vl, m), w) ->
  match chkp_prefix (Train cfg) with
  | None => main_with cfg w0 = (inl (Py.KeyError "chkp_prefix"), w)
  | Some prefix =>
      let path :=
        OsPath.join (chkp_path cfg) (chkp_name cfg +:+ "-" +:+ prefix +:+ ".pt") in
      match w_files w !! path with
      | None =>
          main_with cfg w0 =
            train_from cfg m tl vl
              (printed w ("Checkpoint path " +:+ path +:+
                          " is invalid or does not exist. Starting training from scratch."))
      | Some (Checkpoint sd) =>
          match load_state_dict m sd with
          | inr m' =>
              main_with cfg w0 =
                train_from cfg m' tl vl
                  (printed w ("Loaded model weights from " +:+ path))
          | inl e => main_with cfg w0 = (inl e, w)
          end
      | Some Directory =>
          main_with cfg w0 = (inl (Py.IsADirectoryError path), w)
      | Some f =>
          main_with cfg w0 = (inl (torch_load_error (file_content f)), w)
      end
  end.
Proof.
  intros Hon Hprep. unfold main_with.
  rewrite (bind_run _ _ _ _ _ Hprep); cbv beta iota.
  unfold load_transfer, get_chkp_prefix. rewrite Hon. cbn [default from_option].
  destruct (chkp_prefix (Train cfg)) as [prefix|]; [| reflexivity].
  cbv zeta.
  assert (Hpath : negb (bool_decide
            (OsPath.join (chkp_path cfg)
               (chkp_name cfg +:+ "-" +:+ prefix +:+ ".pt") = "")) = true).
  { apply negb_true_iff, bool_decide_eq_false, join_not_empty,
      checkpoint_name_not_empty. }
  unfold bind, ret, os_path_exists, torch_load, lift, print.
  cbn -[OsPath.join String.append train_from fs_exists].
  rewrite checkpoint_path_exists, Hpath.
  set (path := OsPath.join (chkp_path cfg)
                 (chkp_name cfg +:+ "-" +:+ prefix +:+ ".pt")).
  destruct (w_files w !! path) as [f|] eqn:Hfile.
  - rewrite (bool_decide_eq_true_2 (is_Some (Some f))) by eauto.
    cbn -[OsPath.join String.append train_from]. rewrite Hfile.
    destruct f; try done. by destruct (load_state_dict m sd).
  - rewrite (bool_decide_eq_false_2 (is_Some None)) by (by intros [? ?]).
    reflexivity.
Qed.

(** ** The configured optimizer is always built *)

(** When the optimizer of the configuration cannot be constructed, [main]
    raises its error once the data, the model and the criterion are there:
    also with [use_scheduler] set, where the configured optimizer would be
    replaced.  No epoch runs: no file is written and nothing is logged. *)
Theorem failing_optimizer_aborts (cfg : config) (tl vl : DataLoader)
    (m m' : model) (w0 w w1 : world) (crit : criterion) (e : Py.exn) :
  prepare cfg w0 = (inr (tl, vl, m), w) ->
  load_transfer cfg m w = (inr m', w1) ->
  criterion_class (Train cfg) = inr crit ->
  optimizer_class (Train cfg) m' (optimizer_args (Train cfg)) = inl e ->
  main_with cfg w0 = (inl e, w1) /\
  w_files w1 = w_files w0 /\ w_log w1 = w_log w0.
Proof.
  intros Hprep Hload Hcrit Hopt.
  assert (Hmk : make_optimizer cfg m' tl w1 = (inl e, w1))
    by (unfold make_optimizer; rewrite Hcrit, Hopt; done).
  split.
  - unfold main_with.
    rewrite (bind_run _ _ _ _ _ Hprep); cbv beta iota.
    rewrite (bind_run _ _ _ _ _ Hload). unfold train_from.
    by rewrite (bind_raise _ _ _ _ _ Hmk).
  - pose proof (keeps_prepare cfg w0) as [Hf Hl].
    pose proof (keeps_load_transfer cfg m w) as [Hf1 Hl1].
    rewrite Hprep in Hf, Hl. rewrite Hload in Hf1, Hl1. simpl in *.
    split; congruence.
Qed.

(** ** The log of a run *)

Section TrainingLog.

Variables (m : model) (tl vl : DataLoader) (crit : criterion)
          (opt : optimizer) (dev : device) (ne pat : Z)
          (mp : string) (reg : bool) (sch : option scheduler) (w0 : world).

Hypothesis Hbt : 0 < dl_batch_size tl.
Hypothesis Hbv : 0 < dl_batch_size vl.
Hypothesis Hdt : dl_dataset tl <> [].
Hypothesis Hdv : dl_dataset vl <> [].
Hypothesis Hready : checkpoint_ready (w_files w0) mp.

(** What a line of the log says about the epoch it reports: where it
    stands, and the validation loss and accuracy of the model at the end of
    that epoch. *)
Definition line_of (i : nat) (line : log_line) : Prop :=
  ll_model_path line = mp /\
  ll_epoch line = Z.of_nat i + 1 /\
  ll_num_epochs line = ne /\
  exists s_i w_i r,
    first_epochs m tl vl crit opt dev ne pat mp reg sch (S i) w0 = (inr s_i, w_i) /\
    ll_val_loss line = val_average crit vl (ls_model s_i) r /\
    ll_val_acc line = val_accuracy vl (ls_model s_i) r.

(** Between the iterations: the lines logged so far report the epochs run
    so far, and the flag is set only after [patience] epochs in a row without
    improvement. *)
Definition log_inv (k : nat) (s : loop_state) (w : world) : Prop :=
  exists lines : list log_line,
    w_log w = w_log w0 ++ lines /\
    (length lines <= k)%nat /\
    (early_stop s = false -> length lines = k) /\
    (early_stop s = true ->
       (1 <= length lines)%nat /\ pat <= epochs_no_improve s) /\
    0 <= epochs_no_improve s <= Z.of_nat (length lines) /\
    checkpoint_ready (w_files w) mp /\
    (forall i line, lines !! i = Some line -> line_of i line).

Lemma log_invariant (k : nat) :
  exists s w,
    first_epochs m tl vl crit opt dev ne pat mp reg sch k w0 = (inr s, w) /\
    log_inv k s w.
Proof.
  induction k as [|k (s & w & Hrun & Hinv)].
  - eexists _, w0. split; [reflexivity |].
    exists []. simpl. rewrite app_nil_r. split_and!; try done; lia.
  - pose proof (for_epochs_snoc (epoch_body tl vl crit dev ne pat mp reg)
                  (Py.range (Z.of_nat k)) (Z.of_nat k)
                  (LoopState (model_train m) opt sch Py.inf 0 false) w0) as Hsnoc.
    rewrite <- range_S in Hsnoc. unfold first_epochs in Hrun.
    rewrite Hrun in Hsnoc.
    change (for_epochs _ (Py.range (Z.of_nat (S k))) _ w0)
      with (first_epochs m tl vl crit opt dev ne pat mp reg sch (S k) w0) in Hsnoc.
    destruct Hinv as (lines & Hlog & Hnk & Hfull & Hset & Hc & Hdir & Hlines).
    destruct (early_stop s) eqn:Hstop.
    + destruct Hsnoc as (w1 & Hrun1 & _ & _ & _ & Hf & Hl).
      exists s, w1. split; [done |].
      exists lines. rewrite Hl, Hf, Hstop. split_and!; try done; lia.
    + specialize (Hfull eq_refl).
      destruct (epoch_body_runs tl vl crit dev ne pat mp reg (Z.of_nat k) s w
                  Hbt Hbv Hdt Hdv)
        as (v & s1 & line & w1 & r & Hbody & (Hb1 & Hc1 & He1) & Hlog1 & Hv & Hep
            & _ & Hf1 & Hval & Hacc & Hmp & Hne).
      rewrite Hbody in Hsnoc. rewrite <- Hf1 in Hdir.
      assert (Hall : forall s2 w2,
                first_epochs m tl vl crit opt dev ne pat mp reg sch (S k) w0
                  = (inr s2, w2) ->
                ls_model s2 = ls_model s1 ->
                forall i l, (lines ++ [line]) !! i = Some l -> line_of i l).
      { intros s2 w2 Hrun2 Hmodel i l Hi.
        destruct (decide (i < length lines)%nat) as [Hlt | Hge].
        - rewrite lookup_app_l in Hi by done. by apply Hlines.
        - assert (i = length lines) as ->.
          { apply lookup_lt_Some in Hi. rewrite length_app in Hi. simpl in Hi. lia. }
          rewrite list_lookup_middle in Hi by done. injection Hi as <-.
          rewrite Hfull. split_and!; try done.
          exists s2, w2, r. rewrite Hmodel. split_and!; congruence. }
      destruct (Py.flt v (best_loss s1)) eqn:Hlt.
      * rewrite (early_stopping_improved _ _ _ _ _ _ Hdir Hlt) in Hsnoc.
        eexists _, _. split; [exact Hsnoc |].
        exists (lines ++ [line]). rewrite length_app. simpl.
        split_and!; try done; try lia.
        -- by rewrite Hlog1, Hlog, <- app_assoc.
        -- rewrite He1, Hstop. done.
        -- apply checkpoint_ready_insert; [done | apply Hdir | done].
        -- by apply (Hall _ _ Hsnoc).
      * rewrite (early_stopping_not_improved _ _ _ _ _ _ Hlt) in Hsnoc.
        eexists _, _. split; [exact Hsnoc |].
        exists (lines ++ [line]). rewrite length_app. simpl.
        rewrite Hc1, He1, Hstop.
        split_and!; try done; try lia.
        -- by rewrite Hlog1, Hlog, <- app_assoc.
        -- destruct (Z.geb_spec (epochs_no_improve s + 1) pat); [| done].
           intros _. split; lia.
        -- by apply (Hall _ _ Hsnoc).
Qed.

End TrainingLog.

(** Over loaders that are not empty, with a log file that can be opened and
    the directory of the model path in place, [train_model] returns (no
    epoch raises) and has logged one line per epoch it ran, numbered 1, 2,
    ... under the model path and the configured number of epochs.  It ran
    all [num_epochs] epochs, or it stopped early after at least
    [max(patience, 1)] of them; with [num_epochs <= patience] it never stops
    early. *)
Theorem train_model_epochs_logged m tl vl crit opt dev lf ne pat mp reg sch
    (w : world) :
  0 < dl_batch_size tl -> 0 < dl_batch_size vl ->
  dl_dataset tl <> [] -> dl_dataset vl <> [] ->
  log_opens (w_files w) lf ->
  checkpoint_ready (w_files w) mp ->
  exists lines w',
    train_model m tl vl crit opt dev lf ne pat mp reg sch w = (inr tt, w') /\
    w_log w' = w_log w ++ lines /\
    (length lines = Z.to_nat ne \/
     (Z.max pat 1 <= Z.of_nat (length lines) /\ (length lines < Z.to_nat ne)%nat)) /\
    (ne <= pat -> length lines = Z.to_nat ne) /\
    (forall i line, lines !! i = Some line ->
       ll_epoch line = Z.of_nat i + 1 /\
       ll_num_epochs line = ne /\
       ll_model_path line = mp).
Proof.
  intros Hbt Hbv Hdt Hdv Hopen Hready.
  destruct (logging_basicConfig_run lf w Hopen)
    as (w0 & Hcfg & _ & _ & _ & _ & Hlog0 & _).
  pose proof (logging_basicConfig_ready _ _ _ _ Hcfg Hready) as Hready0.
  destruct (log_invariant m tl vl crit opt dev ne pat mp reg sch w0
              Hbt Hbv Hdt Hdv Hready0 (Z.to_nat ne))
    as (s & w' & Hrun & lines & Hlog & Hnk & Hfull & Hset & Hc & _ & Hlines).
  rewrite <- train_loop_first_epochs in Hrun.
  exists lines, w'. unfold train_model.
  rewrite (bind_run _ _ _ _ _ Hcfg), (bind_run _ _ _ _ _ Hrun).
  split; [done |]. split; [congruence |].
  assert (Hcases : length lines = Z.to_nat ne \/
            (Z.max pat 1 <= Z.of_nat (length lines) /\
             (length lines < Z.to_nat ne)%nat)).
  { destruct (early_stop s); [| left; by apply Hfull].
    destruct (Hset eq_refl) as [H1 Hp].
    destruct (decide (length lines = Z.to_nat ne)); [by left | right]. lia. }
  split; [exact Hcases |]. split; [lia |].
  intros i line Hi. destruct (Hlines i line Hi) as (Hmp & He & Hn & _). done.
Qed.

(** In such a run, each line of the log reports the validation loss and the
    validation accuracy of the model at the end of its epoch: the loss is
    the sum of the losses of the validation batches over their number, and
    the accuracy is the number of predictions the validation pass counts as
    right over the number of samples of the validation set, whatever the
    batch size. *)
Theorem train_model_logged_validation m tl vl crit opt dev lf ne pat mp reg sch
    (w : world) :
  0 < dl_batch_size tl -> 0 < dl_batch_size vl ->
  dl_dataset tl <> [] -> dl_dataset vl <> [] ->
  log_opens (w_files w) lf ->
  checkpoint_ready (w_files w) mp ->
  exists w0 lines w',
    logging_basicConfig lf w = (inr tt, w0) /\
    train_model m tl vl crit opt dev lf ne pat mp reg sch w = (inr tt, w') /\
    w_log w' = w_log w ++ lines /\
    forall i line, lines !! i = Some line ->
      exists s_i w_i r,
        first_epochs m tl vl crit opt dev ne pat mp reg sch (S i) w0
          = (inr s_i, w_i) /\
        ll_val_loss line = val_average crit vl (ls_model s_i) r /\
        ll_val_acc line = val_accuracy vl (ls_model s_i) r.
Proof.
  intros Hbt Hbv Hdt Hdv Hopen Hready.
  destruct (logging_basicConfig_run lf w Hopen)
    as (w0 & Hcfg & _ & _ & _ & _ & Hlog0 & _).
  pose proof (logging_basicConfig_ready _ _ _ _ Hcfg Hready) as Hready0.
  destruct (log_invariant m tl vl crit opt dev ne pat mp reg sch w0
              Hbt Hbv Hdt Hdv Hready0 (Z.to_nat ne))
    as (s & w' & Hrun & lines & Hlog & _ & _ & _ & _ & _ & Hlines).
  rewrite <- train_loop_first_epochs in Hrun.
  exists w0, lines, w'. unfold train_model.
  rewrite (bind_run _ _ _ _ _ Hcfg), (bind_run _ _ _ _ _ Hrun).
  split; [done |]. split; [done |]. split; [congruence |].
  intros i line Hi. by destruct (Hlines i line Hi) as (_ & _ & _ & H).
Qed.


(** ** Evaluation: what is predicted, and for what *)

Lemma concat_fmap_fmap {X Y} (h : X -> Y) (l : list (list X)) :
  concat (fmap (M := list) (fmap (M := list) h) l) = fmap (M := list) h (concat l).
Proof.
  induction l as [|x l IH]; [done |].
  rewrite fmap_cons, !concat_cons, fmap_app. by rewrite IH.
Qed.

Lemma chunks_fuel_nil {X} (fuel bs : nat) : chunks_fuel fuel bs (@nil X) = [].
Proof. by destruct fuel. Qed.

(** The fold of [test_model] over the batches [l], for a model that
    predicts [f x] for the features [x] of each sample. *)
Lemma test_fold_pointwise (m : model) (f : feat -> Py.float) (l : list batch)
    (acc : list (list Py.float)) (w : world) :
  (forall X r, values (model_call m X r).1 = f <$> X) ->
  exists r,
    foldM (fun all_preds b =>
             bind (with_rng (model_call m (batch_X b)))
                  (fun out => ret (all_preds ++ [values out])))
          l acc w
      = (inr (acc ++ ((fun b => f <$> batch_X b) <$> l)), upd_rng w r).
Proof.
  intros Hf. revert acc w. induction l as [|b l IH]; intros acc w; simpl.
  - exists (w_rng w). by rewrite app_nil_r, upd_rng_id.
  - rewrite (bind_run _ _ _ _ _ (bind_run _ _ _ _ _ (with_rng_run _ w))).
    destruct (IH (acc ++ [values (model_call m (batch_X b) (w_rng w)).1])
                 (upd_rng w (model_call m (batch_X b) (w_rng w)).2))
      as (r & Hrun).
    exists r. rewrite Hrun, Hf, <- app_assoc. done.
Qed.

Lemma test_model_pointwise (m : model) (f : feat -> Py.float) (ds : dataset)
    (bs : Z) (dev : device) (w : world) :
  (forall X r, values (model_call (model_eval m) X r).1 = f <$> X) ->
  0 < bs -> ds <> [] ->
  exists r,
    test_model m (Build_DataLoader ds bs false) dev w
      = (inr ((fun x => f x.1) <$> ds), upd_rng w r).
Proof.
  intros Hf Hbs Hds. unfold test_model. cbv zeta.
  rewrite (bind_run _ _ _ _ _ (with_rng_run _ w)).
  unfold dl_iter. cbn [dl_shuffle dl_dataset dl_batch_size fst snd].
  rewrite upd_rng_id.
  destruct (test_fold_pointwise (model_eval m) f (chunks (Z.to_nat bs) ds) [] w Hf)
    as (r & Hfold).
  rewrite (bind_run _ _ _ _ _ Hfold). cbn [app].
  exists r. unfold lift, np_concatenate.
  destruct ((fun b : batch => f <$> batch_X b) <$> chunks (Z.to_nat bs) ds)
    as [|p ps] eqn:Hp.
  { apply fmap_nil_inv in Hp. by apply chunks_nil_iff in Hp. }
  rewrite <- Hp. f_equal. f_equal.
  unfold batch_X.
  rewrite (list_fmap_ext _ (fmap (M := list) (fun x : sample => f x.1))
                          (chunks (Z.to_nat bs) ds))
    by (intros; by rewrite <- list_fmap_compose).
  rewrite concat_fmap_fmap, chunks_concat by lia. done.
Qed.

(** For a model that predicts sample by sample, the evaluation returns the
    labels of the provider in order and, in the order of the encoded
    dataset, the prediction for each of its samples: whatever the test batch
    size is, as long as it is positive or absent, prediction [i] belongs to
    encoded sample [i]. *)
Theorem predictions_follow_the_dataset (dp : provider) (m : model) (cfg : config)
    (dev : device) (w : world) (ds : dataset) (f : feat -> Py.float) :
  (forall X r, values (model_call (model_eval m) X r).1 = f <$> X) ->
  encoder cfg dp (encoder_args cfg) (data_files w) = inr ds ->
  ds <> [] ->
  (forall b, test_batch_size (Test cfg) = Some b -> 0 < b) ->
  exists w',
    labels_and_predictions dp m cfg dev w
      = (inr (rs_label <$> samples dp, (fun x => f x.1) <$> ds), w') /\
    w_files w' = w_files w /\ w_log w' = w_log w /\ w_stdout w' = w_stdout w.
Proof.
  intros Hf Henc Hds Hbs.
  set (bs := match test_batch_size (Test cfg) with
             | Some b => b
             | None => Z.of_nat (length ds)
             end).
  assert (Hpos : 0 < bs).
  { unfold bs. destruct (test_batch_size (Test cfg)) as [b|]; [by apply Hbs |].
    destruct ds; [done | simpl; lia]. }
  unfold labels_and_predictions.
  rewrite (bind_run read_data_files _ w _ _ eq_refl); cbv beta.
  unfold lift at 1. rewrite Henc.
  rewrite (bind_run _ _ _ _ _ eq_refl); cbv beta zeta. fold bs.
  unfold mk_DataLoader. destruct (Z.leb_spec bs 0) as [|_]; [lia |].
  unfold lift at 1. rewrite (bind_run _ _ _ _ _ eq_refl); cbv beta zeta.
  destruct (test_model_pointwise m f ds bs dev w Hf Hpos Hds) as (r & Htest).
  rewrite (bind_run _ _ _ _ _ Htest).
  exists (upd_rng w r). done.
Qed.

(** An encoded dataset without samples makes the evaluation raise
    ValueError, in either curve function: from [np.concatenate] of no
    predictions when the test batch size is positive, from [DataLoader]
    when it is absent (then it is the length of the dataset, 0) or not
    positive, with the batch size in the message. *)
Theorem empty_test_set_raises (dp : provider) (m : model) (cfg : config)
    (dev : device) (w : world) :
  encoder cfg dp (encoder_args cfg) (data_files w) = inr [] ->
  exists msg,
    msg = match test_batch_size (Test cfg) with
          | Some b =>
              if 0 <? b then "need at least one array to concatenate"
              else "batch_size should be a positive integer value, but got batch_size="
                   +:+ Py.str b
          | None =>
              "batch_size should be a positive integer value, but got batch_size=0"
          end /\
    labels_and_predictions dp m cfg dev w = (inl (Py.ValueError msg), w) /\
    calculate_roc_auc dp m cfg dev w = (inl (Py.ValueError msg), w) /\
    calculate_pr_auc dp m cfg dev w = (inl (Py.ValueError msg), w).
Proof.
  intros Henc. eexists. split; [reflexivity |].
  assert (Hrun : labels_and_predictions dp m cfg dev w =
            (inl (Py.ValueError
               match test_batch_size (Test cfg) with
               | Some b =>
                   if 0 <? b then "need at least one array to concatenate"
                   else "batch_size should be a positive integer value, but got batch_size="
                        +:+ Py.str b
               | None =>
                   "batch_size should be a positive integer value, but got batch_size=0"
               end), w)).
  { unfold labels_and_predictions.
    rewrite (bind_run read_data_files _ w _ _ eq_refl); cbv beta.
    unfold lift at 1. rewrite Henc.
    rewrite (bind_run _ _ _ _ _ eq_refl); cbv beta zeta.
    unfold mk_DataLoader.
    destruct (test_batch_size (Test cfg)) as [b|]; cbn [length Z.of_nat].
    - destruct (Z.leb_spec b 0) as [Hle | Hlt].
      + replace (0 <? b) with false by (symmetry; apply Z.ltb_ge; lia).
        reflexivity.
      + replace (0 <? b) with true by (symmetry; apply Z.ltb_lt; lia).
        unfold lift at 1. rewrite (bind_run _ _ _ _ _ eq_refl); cbv beta zeta.
        unfold test_model, dl_iter, chunks. cbv zeta.
        cbn [dl_shuffle dl_dataset dl_batch_size length chunks_fuel].
        unfold bind, with_rng, lift, np_concatenate, ret. cbn.
        by destruct w.
    - reflexivity. }
  split; [exact Hrun |].
  unfold calculate_roc_auc, calculate_pr_auc.
  by rewrite !(bind_raise _ _ _ _ _ Hrun).
Qed.

(** ** From training to testing: the "best" checkpoint *)

Lemma starts_with_slash_app (b c : string) :
  OsPath.starts_with_slash c = false ->
  OsPath.starts_with_slash (b +:+ c) = OsPath.starts_with_slash b.
Proof. by destruct b. Qed.

(** The path [test.py] and the transfer block of [train.py] build for the
    prefix "best" is the path [train_model] saves the best model under. *)
Lemma best_checkpoint_path (a b : string) :
  OsPath.join a (b +:+ "-" +:+ "best" +:+ ".pt") = best_path (OsPath.join a b).
Proof.
  unfold best_path, OsPath.join.
  change ("-" +:+ "best" +:+ ".pt") with "-best.pt".
  rewrite starts_with_slash_app by done.
  destruct (OsPath.starts_with_slash b); [done |].
  destruct (bool_decide (a = "") || OsPath.ends_with_slash a);
    by rewrite ?append_assoc.
Qed.

(** Lines 72-77 of test.py with the weights [sd] in place of the file. *)
Definition load_weights (cfg : config) (sd : state_dict) : M model :=
  bind (try_with_rng (model_class cfg (model_args cfg))) (fun m =>
  bind (lift (load_state_dict m sd)) (fun m =>
  bind (print ("Model loaded on " +:+ device_str torch_device)) (fun _ =>
  ret (model_to m torch_device)))).

Lemma load_test_model_found (cfg : config) (sd : state_dict) (w : world) :
  w_files w !! OsPath.join (chkp_path cfg)
                 (chkp_name cfg +:+ "-" +:+ test_chkp_prefix (Test cfg) +:+ ".pt")
    = Some (Checkpoint sd) ->
  load_test_model cfg w = load_weights cfg sd w.
Proof.
  intros Hfile. unfold load_test_model, load_weights, bind at 1 5. cbv zeta.
  pose proof (keeps_try_with_rng (model_class cfg (model_args cfg)) w) as [Hk _].
  destruct (try_with_rng (model_class cfg (model_args cfg)) w) as [[e|m0] w1];
    [done |].
  simpl in Hk. unfold bind at 1, torch_load. rewrite Hk, Hfile. done.
Qed.

Lemma load_test_model_missing (cfg : config) (w : world) (m0 : model) (r : rng gen) :
  model_class cfg (model_args cfg) (w_rng w) = (inr m0, r) ->
  w_files w !! OsPath.join (chkp_path cfg)
                 (chkp_name cfg +:+ "-" +:+ test_chkp_prefix (Test cfg) +:+ ".pt")
    = None ->
  load_test_model cfg w
    = (inl (Py.FileNotFoundError
              (OsPath.join (chkp_path cfg)
                 (chkp_name cfg +:+ "-" +:+ test_chkp_prefix (Test cfg) +:+ ".pt"))),
       upd_rng w r).
Proof.
  intros Hm Hfile. unfold load_test_model, bind at 1, try_with_rng. cbv zeta.
  rewrite Hm. unfold bind at 1, torch_load. cbn [w_files]. by rewrite Hfile.
Qed.

(** A run of [train_model] under the configured checkpoint path, over
    loaders that are not empty, with a log file that can be opened and the
    checkpoint directory in place; and then the model loading of test.py
    with [chkp_prefix] "best", in any world with the files the run left.
    When some epoch improved the best validation loss, test.py loads the
    weights the model had at the end of the last such epoch.  When none did
    (every loss was NaN or infinite) and nothing was at the path of the
    "best" checkpoint when the loop started, test.py raises
    FileNotFoundError. *)
Theorem test_loads_the_best_of_training (cfg : config) (m : model)
    (tl vl : DataLoader) (crit : criterion) (opt : optimizer) (dev : device)
    (lf : string) (ne pat : Z) (reg : bool) (sch : option scheduler) (w : world) :
  0 < dl_batch_size tl -> 0 < dl_batch_size vl ->
  dl_dataset tl <> [] -> dl_dataset vl <> [] ->
  test_chkp_prefix (Test cfg) = "best" ->
  let mp := OsPath.join (chkp_path cfg) (chkp_name cfg) in
  log_opens (w_files w) lf ->
  checkpoint_ready (w_files w) mp ->
  exists w0 lines w',
    logging_basicConfig lf w = (inr tt, w0) /\
    train_model m tl vl crit opt dev lf ne pat mp reg sch w = (inr tt, w') /\
    w_log w' = w_log w ++ lines /\
    let vs := ll_val_loss <$> lines in
    (forall i, improved vs i -> (forall j, (i < j)%nat -> ~ improved vs j) ->
       exists s_i w_i,
         first_epochs m tl vl crit opt dev ne pat mp reg sch (S i) w0
           = (inr s_i, w_i) /\
         forall w'', w_files w'' = w_files w' ->
           load_test_model cfg w''
             = load_weights cfg (get_state_dict (ls_model s_i)) w'') /\
    ((forall j, ~ improved vs j) ->
       w_files w0 !! best_path mp = None ->
       forall w'' m0 r,
         w_files w'' = w_files w' ->
         model_class cfg (model_args cfg) (w_rng w'') = (inr m0, r) ->
         load_test_model cfg w''
           = (inl (Py.FileNotFoundError (best_path mp)), upd_rng w'' r)).
Proof.
  intros Hbt Hbv Hdt Hdv Hbest mp Hopen Hready.
  destruct (logging_basicConfig_run lf w Hopen)
    as (w0 & Hcfg & _ & _ & _ & _ & Hlog0 & _).
  pose proof (logging_basicConfig_ready _ _ _ _ Hcfg Hready) as Hready0.
  destruct (loop_invariant m tl vl crit opt dev ne pat mp reg sch w0
              Hbt Hbv Hdt Hdv Hready0 (Z.to_nat ne))
    as (s & w' & Hrun & lines & c & Hlog & Hnk & Hfull & Hb & Hc & Hcn & Hcp
        & Hcmax & Hnone & Hlast & Hnever & _).
  rewrite <- train_loop_first_epochs in Hrun.
  exists w0, lines, w'. unfold train_model.
  rewrite (bind_run _ _ _ _ _ Hcfg), (bind_run _ _ _ _ _ Hrun).
  split; [done |]. split; [done |]. split; [congruence |]. cbv zeta.
  assert (Hpath : OsPath.join (chkp_path cfg)
                    (chkp_name cfg +:+ "-" +:+ test_chkp_prefix (Test cfg) +:+ ".pt")
                  = best_path mp)
    by (rewrite Hbest; apply best_checkpoint_path).
  split.
  - intros i Himp Hlater.
    pose proof (improved_lt _ _ Himp) as Hi.
    assert (i < length (ll_val_loss <$> lines) - c)%nat as Hic.
    { destruct (decide (i < length (ll_val_loss <$> lines) - c)%nat); [done |].
      exfalso. apply (Hnone i); [lia | done]. }
    assert (Hlt : (c < length (ll_val_loss <$> lines))%nat) by lia.
    destruct (Hlast Hlt) as (Himp' & s_i & w_i & Hrun_i & Hfile).
    assert (S i = length (ll_val_loss <$> lines) - c)%nat as Hi'.
    { destruct (decide (S i = length (ll_val_loss <$> lines) - c)%nat); [done |].
      exfalso. apply (Hlater (length (ll_val_loss <$> lines) - c - 1)%nat); [lia | done]. }
    exists s_i, w_i. rewrite Hi'. split; [exact Hrun_i |].
    intros w'' Hsame. apply load_test_model_found.
    by rewrite Hpath, Hsame.
  - intros Hno Hnofile w'' m0 r Hsame Hm.
    assert (c = length (ll_val_loss <$> lines)) as Hcn'.
    { destruct (decide (c < length (ll_val_loss <$> lines))%nat) as [Hlt |]; [| lia].
      destruct (Hlast Hlt) as [Himp _]. by apply Hno in Himp. }
    rewrite <- Hpath. apply (load_test_model_missing cfg w'' m0 r Hm).
    by rewrite Hpath, Hsame, (Hnever Hcn').
Qed.

(** ** test.py: what [main] reads and writes *)

Lemma keeps_foldM {X S} (f : S -> X -> M S) (l : list X) :
  (forall s a, keeps (f s a)) -> forall s, keeps (foldM f l s).
Proof.
  intros Hf. induction l as [|a l IH]; intros s; simpl.
  - apply keeps_ret.
  - apply keeps_bind; auto.
Qed.

Ltac keeps_step :=
  first
    [ apply keeps_bind; [| intros ?]
    | apply keeps_ret | apply keeps_raise | apply keeps_print | apply keeps_lift
    | apply keeps_read_data_files | apply keeps_try_with_rng
    | apply keeps_with_rng | apply keeps_torch_load
    | match goal with
      | |- keeps (if ?c then _ else _) => destruct c
      | |- keeps (match ?x with _ => _ end) => destruct x
      end ].

Lemma keeps_load_test_model cfg : keeps (load_test_model cfg).
Proof. unfold load_test_model. cbv zeta. repeat keeps_step. Qed.

Lemma keeps_test_provider cfg hla : keeps (test_provider cfg hla).
Proof. unfold test_provider. repeat keeps_step. Qed.

Lemma keeps_test_model m dl dev : keeps (test_model m dl dev).
Proof.
  unfold test_model. cbv zeta.
  apply keeps_bind; [apply keeps_with_rng | intros batches].
  apply keeps_bind; [| intros ?; apply keeps_lift].
  apply keeps_foldM. intros. repeat keeps_step.
Qed.

Lemma keeps_labels_and_predictions dp m cfg dev :
  keeps (labels_and_predictions dp m cfg dev).
Proof.
  unfold labels_and_predictions. cbv zeta.
  repeat first [apply keeps_test_model | keeps_step].
Qed.

Lemma keeps_calculate_roc_auc dp m cfg dev : keeps (calculate_roc_auc dp m cfg dev).
Proof.
  unfold calculate_roc_auc.
  repeat first [apply keeps_labels_and_predictions | keeps_step].
Qed.

Lemma keeps_calculate_pr_auc dp m cfg dev : keeps (calculate_pr_auc dp m cfg dev).
Proof.
  unfold calculate_pr_auc.
  repeat first [apply keeps_labels_and_predictions | keeps_step].
Qed.

Lemma keeps_roc_figure dp m cfg dev : keeps (roc_figure dp m cfg dev).
Proof. unfold roc_figure. repeat first [apply keeps_calculate_roc_auc | keeps_step]. Qed.

Lemma keeps_pr_figure dp m cfg dev : keeps (pr_figure dp m cfg dev).
Proof. unfold pr_figure. repeat first [apply keeps_calculate_pr_auc | keeps_step]. Qed.

Lemma keeps_hla_roc_curve cfg dev colors st hla :
  keeps (hla_roc_curve cfg dev colors st hla).
Proof.
  destruct st as [curves m]. unfold hla_roc_curve.
  repeat first [apply keeps_calculate_roc_auc | apply keeps_test_provider | keeps_step].
Qed.

Lemma keeps_hla_pr_curve cfg dev colors st hla :
  keeps (hla_pr_curve cfg dev colors st hla).
Proof.
  destruct st as [curves m]. unfold hla_pr_curve.
  repeat first [apply keeps_calculate_pr_auc | apply keeps_test_provider | keeps_step].
Qed.

Lemma keeps_load_config path : keeps (load_config path).
Proof. intros w. unfold load_config. by destruct (w_files w !! path) as [[]|]. Qed.

(** What the evaluation may create where nothing was: directories; and
    what it may write anywhere: a plot at one of its four paths. *)
Definition test_fresh (path : string) (f : file) : Prop := f = Directory.

Definition plot_paths (cfg : config) : list string :=
  [roc_path cfg; pr_path cfg; roc_hla_path cfg; pr_hla_path cfg].

Definition test_target (cfg : config) (path : string) (f : file) : Prop :=
  path ∈ plot_paths cfg /\ exists fig, f = Plot fig.

(** A computation that logs nothing. *)
Definition quiet {A} (m : M A) : Prop := forall w, w_log (m w).2 = w_log w.

Lemma quiet_keeps {A} (m : M A) : keeps m -> quiet m.
Proof. intros Hk w. by destruct (Hk w). Qed.

Lemma quiet_bind {A C} (m : M A) (k : A -> M C) :
  quiet m -> (forall a, quiet (k a)) -> quiet (bind m k).
Proof.
  intros Hm Hk w. unfold bind. specialize (Hm w).
  destruct (m w) as [[e|a] w1]; [done |]. rewrite Hk. done.
Qed.

Lemma quiet_os_makedirs name exist_ok : quiet (os_makedirs name exist_ok).
Proof. intros w. unfold os_makedirs. by destruct (makedirs _ _ _). Qed.

Lemma quiet_savefig path fig : quiet (savefig path fig).
Proof. intros w. unfold savefig. by destruct (fs_open_write _ _). Qed.

Lemma quiet_test_main_with cfg : quiet (test_main_with cfg).
Proof.
  unfold test_main_with. cbv zeta.
  repeat first
    [ apply quiet_os_makedirs
    | apply quiet_savefig
    | apply quiet_keeps;
      first [ apply keeps_load_test_model | apply keeps_test_provider
            | apply keeps_print | apply keeps_roc_figure | apply keeps_pr_figure
            | apply keeps_lift
            | apply keeps_foldM; intros;
              first [apply keeps_hla_roc_curve | apply keeps_hla_pr_curve] ]
    | apply quiet_bind; [| intros ?]
    | match goal with |- quiet (match ?x with _ => _ end) => destruct x end ].
Qed.

Lemma touches_test_main_with cfg :
  touches test_fresh (test_target cfg) (test_main_with cfg).
Proof.
  unfold test_main_with. cbv zeta.
  repeat first
    [ apply touches_os_makedirs; by intros
    | apply touches_savefig; split; [unfold plot_paths; set_solver | eauto]
    | apply touches_keeps;
      first [ apply keeps_load_test_model | apply keeps_test_provider
            | apply keeps_print | apply keeps_roc_figure | apply keeps_pr_figure
            | apply keeps_lift
            | apply keeps_foldM; intros;
              first [apply keeps_hla_roc_curve | apply keeps_hla_pr_curve] ]
    | apply touches_bind; [| intros ?]
    | match goal with |- touches _ _ (match ?x with _ => _ end) => destruct x end ].
Qed.

(** Whatever the configuration and the outcome, the body of [main] of
    test.py logs nothing, and every entry of the file system is as it was,
    or is a directory made where nothing was, or is a plot at one of the
    four paths the script names: no checkpoint, script or data file is
    changed or removed, unless a plot path names it.  Without a
    configuration script [main] changes no file at all. *)
Theorem test_writes_only_its_plots :
  (forall cfg (w : world),
     let w' := (test_main_with cfg w).2 in
     w_log w' = w_log w /\
     forall path,
       w_files w' !! path = w_files w !! path \/
       (w_files w !! path = None /\ w_files w' !! path = Some Directory) \/
       (path ∈ [roc_path cfg; pr_path cfg; roc_hla_path cfg; pr_hla_path cfg] /\
        exists fig, w_files w' !! path = Some (Plot fig))) /\
  (forall config_path (w : world),
     let w' := (test_main config_path w).2 in
     w_log w' = w_log w /\
     ((forall cfg, w_files w !! config_path <> Some (Script cfg)) ->
      w_files w' = w_files w)).
Proof.
  split.
  - intros cfg w w'. split; [apply quiet_test_main_with |].
    intros path. destruct (touches_test_main_with cfg w) as [Hf _].
    destruct (Hf path) as [H | [(H & f & -> & H') | (f & [Hin [fig ->]] & H')]];
      [by left | right; by left | right; right]. eauto.
  - intros config_path w w'. subst w'. unfold test_main, bind, load_config.
    destruct (w_files w !! config_path) as [[]|] eqn:Hcfg; try done.
    split; [apply quiet_test_main_with |].
    intros Hno. by destruct (Hno c).
Qed.


(** The plot directory comes first: when it cannot be made, for one with
    the empty path, or for a path that a file holds, the body of [main] of
    test.py raises the error of [os.makedirs] before the model is built, and
    the world is as it was. *)
Theorem test_without_plot_directory (cfg : config) (w : world) :
  (forall e, makedirs (plot_path cfg) true (w_files w) = inl e ->
     test_main_with cfg w = (inl e, w)) /\
  (plot_path cfg = "" ->
     test_main_with cfg w = (inl (Py.FileNotFoundError ""), w)).
Proof.
  assert (Hraise : forall e, makedirs (plot_path cfg) true (w_files w) = inl e ->
            test_main_with cfg w = (inl e, w)).
  { intros e He. unfold test_main_with, bind at 1, os_makedirs. by rewrite He. }
  split; [exact Hraise |].
  intros Hempty. apply Hraise. rewrite Hempty. apply makedirs_empty.
Qed.

(** ** test.py: the plots of a run that returns *)

(** The curve of the HLA at position [i] of the loop, for the model [m] the
    loop starts with: the provider of that HLA is built, the curve function
    [calculate] runs on it with the model as the passes before have left it,
    and its two coordinate vectors [xy] and its area are plotted under the
    name of the HLA, in the colour the colormap has for [i]. *)
Definition hla_curve (cfg : config) (colors : nat -> string)
    (calculate : provider -> model -> M (list Py.float * list Py.float * Py.float))
    (xy : list Py.float * list Py.float * Py.float -> list Py.float * list Py.float)
    (m : model) (i : nat) (hla : string) (c : curve) : Prop :=
  exists dp (w1 w2 w3 w4 : world) result,
    test_provider cfg (Some hla) w1 = (inr dp, w2) /\
    calculate dp (Nat.iter i model_eval m) w3 = (inr result, w4) /\
    c = Curve (xy result).1 (xy result).2 (Some (HlaLabel hla result.2))
              (colors i).

(** The curves of a loop over the HLAs [hlas], one each, in their order. *)
Definition hla_curves (cfg : config) (colors : nat -> string)
    (calculate : provider -> model -> M (list Py.float * list Py.float * Py.float))
    (xy : list Py.float * list Py.float * Py.float -> list Py.float * list Py.float)
    (m : model) (hlas : list string) (curves : list curve) : Prop :=
  length curves = length hlas /\
  forall i hla c, hlas !! i = Some hla -> curves !! i = Some c ->
    hla_curve cfg colors calculate xy m i hla c.

Definition roc_xy (result : list Py.float * list Py.float * Py.float)
  : list Py.float * list Py.float :=
  (result.1.1, result.1.2).

Definition pr_xy (result : list Py.float * list Py.float * Py.float)
  : list Py.float * list Py.float :=
  (result.1.2, result.1.1).

Lemma hla_curves_cons cfg colors calculate xy m hla hlas c0 curves :
  hla_curve cfg colors calculate xy m 0 hla c0 ->
  hla_curves cfg (fun i => colors (S i)) calculate xy (model_eval m) hlas curves ->
  hla_curves cfg colors calculate xy m (hla :: hlas) (c0 :: curves).
Proof.
  intros H0 [Hlen Hrest]. split; [simpl; by rewrite Hlen |].
  intros [|i] hla' c; simpl.
  - by intros [= <-] [= <-].
  - intros Hh Hc.
    destruct (Hrest i hla' c Hh Hc) as (dp & w1 & w2 & w3 & w4 & res & Hp & Hcalc & ->).
    exists dp, w1, w2, w3, w4, res. split; [done |]. split; [| done].
    by rewrite Nat.iter_succ_r.
Qed.

Lemma hla_roc_fold cfg dev colors (hlas : list string) curves0 m (w : world)
    curves m' (w' : world) :
  foldM (hla_roc_curve cfg dev colors) hlas (curves0, m) w = (inr (curves, m'), w') ->
  exists new,
    curves = curves0 ++ new /\
    m' = Nat.iter (length hlas) model_eval m /\
    hla_curves cfg (fun i => colors (length curves0 + i)%nat)
               (fun dp m => calculate_roc_auc dp m cfg dev) roc_xy m hlas new.
Proof.
  revert curves0 m w. induction hlas as [|hla hlas IH]; intros curves0 m w; cbn [foldM].
  - intros [= <- <- <-]. exists []. rewrite app_nil_r. split; [done |].
    split; [done |]. split; [done |]. by intros i hla c [=].
  - intros (st & w1 & Hstep & Hrest)%bind_inr. destruct st as [curves1 m1].
    unfold hla_roc_curve in Hstep.
    apply bind_inr in Hstep as (dp & w2 & Hdp & Hstep).
    apply bind_inr in Hstep as ([] & w3 & _ & Hstep).
    apply bind_inr in Hstep as ([[fpr tpr] a] & w4 & Hcalc & Hstep).
    injection Hstep as <- <- <-.
    apply IH in Hrest as (new & -> & -> & Hnew).
    eexists (_ :: new). rewrite <- app_assoc. split; [reflexivity |].
    split; [by rewrite <- Nat.iter_succ_r |].
    apply hla_curves_cons.
    + exists dp, w, w2, w3, w4, (fpr, tpr, a). rewrite Nat.add_0_r. by split_and!.
    + destruct Hnew as [Hlen Hnew]. split; [done |].
      intros i hla' c Hh Hc.
      destruct (Hnew i hla' c Hh Hc)
        as (dp' & u1 & u2 & u3 & u4 & res & Hp & Hcalc' & ->).
      exists dp', u1, u2, u3, u4, res. split; [done |]. split; [done |].
      f_equal. f_equal. rewrite length_app. simpl. lia.
Qed.

Lemma hla_pr_fold cfg dev colors (hlas : list string) curves0 m (w : world)
    curves m' (w' : world) :
  foldM (hla_pr_curve cfg dev colors) hlas (curves0, m) w = (inr (curves, m'), w') ->
  exists new,
    curves = curves0 ++ new /\
    m' = Nat.iter (length hlas) model_eval m /\
    hla_curves cfg (fun i => colors (length curves0 + i)%nat)
               (fun dp m => calculate_pr_auc dp m cfg dev) pr_xy m hlas new.
Proof.
  revert curves0 m w. induction hlas as [|hla hlas IH]; intros curves0 m w; cbn [foldM].
  - intros [= <- <- <-]. exists []. rewrite app_nil_r. split; [done |].
    split; [done |]. split; [done |]. by intros i hla c [=].
  - intros (st & w1 & Hstep & Hrest)%bind_inr. destruct st as [curves1 m1].
    unfold hla_pr_curve in Hstep.
    apply bind_inr in Hstep as (dp & w2 & Hdp & Hstep).
    apply bind_inr in Hstep as ([[precision recall] a] & w4 & Hcalc & Hstep).
    injection Hstep as <- <- <-.
    apply IH in Hrest as (new & -> & -> & Hnew).
    eexists (_ :: new). rewrite <- app_assoc. split; [reflexivity |].
    split; [by rewrite <- Nat.iter_succ_r |].
    apply hla_curves_cons.
    + exists dp, w, w2, w2, w4, (precision, recall, a). rewrite Nat.add_0_r.
      by split_and!.
    + destruct Hnew as [Hlen Hnew]. split; [done |].
      intros i hla' c Hh Hc.
      destruct (Hnew i hla' c Hh Hc)
        as (dp' & u1 & u2 & u3 & u4 & res & Hp & Hcalc' & ->).
      exists dp', u1, u2, u3, u4, res. split; [done |]. split; [done |].
      f_equal. f_equal. rewrite length_app. simpl. lia.
Qed.

(** The four plot paths of a configuration are different paths. *)
Lemma plot_paths_differ (cfg : config) :
  roc_path cfg <> pr_path cfg /\ roc_path cfg <> roc_hla_path cfg /\
  roc_path cfg <> pr_hla_path cfg /\ pr_path cfg <> roc_hla_path cfg /\
  pr_path cfg <> pr_hla_path cfg /\ roc_hla_path cfg <> pr_hla_path cfg.
Proof.
  unfold roc_path, pr_path, roc_hla_path, pr_hla_path.
  split_and!; intros H; apply append_inv_head in H; vm_compute in H;
    discriminate H.
Qed.

Lemma savefig_inr path fig (w w' : world) :
  savefig path fig w = (inr tt, w') ->
  w' = with_files w (<[path := Plot fig]> (w_files w)).
Proof. unfold savefig. destruct (fs_open_write _ _); [done | by intros [= <-]]. Qed.

Lemma keeps_files {A} (m : M A) (w w' : world) (a : A) :
  keeps m -> m w = (inr a, w') -> w_files w' = w_files w.
Proof. intros Hk Hrun. destruct (Hk w) as [Hf _]. by rewrite Hrun in Hf. Qed.

(** A run of the body of [main] of test.py that returns has made the plot
    directory, loaded the model, built the provider of the whole test set
    and the colormap, and saved four plots under four different paths:
    - the ROC curve that [calculate_roc_auc] returns for the provider and
      the loaded model, with its area in the label, and the diagonal;
    - the precision-recall curve that [calculate_pr_auc] returns for them,
      recall on the x axis;
    - for the top HLAs of the provider, in their order, the ROC curve of
      [calculate_roc_auc] on the provider of each, in the colour of its
      position, with the diagonal after them;
    - and the precision-recall curve of [calculate_pr_auc] on the provider
      of each.
    Every pass puts the one model into evaluation mode once more. *)
Theorem test_saves_four_plots (cfg : config) (w w' : world) :
  test_main_with cfg w = (inr tt, w') ->
  exists w0 m1 w1 dp w2 colors,
    let dev := torch_device in
    let hlas := top_10_hlas dp in
    os_makedirs (plot_path cfg) true w = (inr tt, w0) /\
    load_test_model cfg w0 = (inr m1, w1) /\
    test_provider cfg None w1 = (inr dp, w2) /\
    get_cmap = inr colors /\
    (exists w3 fpr tpr area,
       calculate_roc_auc dp m1 cfg dev
         (printed w2 ("Samples in test set: " +:+
                      Py.str (Z.of_nat (length (samples dp)))))
         = (inr (fpr, tpr, area), w3) /\
       w_files w' !! roc_path cfg
         = Some (Plot (Figure "Receiver Operating Characteristic (All HLAs)"
                   [Curve fpr tpr (Some (RocLabel area)) "lightseagreen";
                    diagonal]))) /\
    (exists w3 w4 precision recall area,
       calculate_pr_auc dp (model_eval m1) cfg dev w3
         = (inr (precision, recall, area), w4) /\
       w_files w' !! pr_path cfg
         = Some (Plot (Figure "Precision-Recall Curve (All HLAs)"
                   [Curve recall precision (Some (PrLabel area)) "purple"]))) /\
    (exists rocs,
       w_files w' !! roc_hla_path cfg
         = Some (Plot (Figure "Receiver Operating Characteristic (Top 10 HLAs)"
                   (rocs ++ [diagonal]))) /\
       hla_curves cfg colors (fun dp m => calculate_roc_auc dp m cfg dev) roc_xy
                  (Nat.iter 2 model_eval m1) hlas rocs) /\
    (exists prs,
       w_files w' !! pr_hla_path cfg
         = Some (Plot (Figure "Precision-Recall Curve (Top 10 HLAs)" prs)) /\
       hla_curves cfg colors (fun dp m => calculate_pr_auc dp m cfg dev) pr_xy
                  (Nat.iter (2 + length hlas) model_eval m1) hlas prs).
Proof.
  unfold test_main_with. cbv zeta. intros H.
  apply bind_inr in H as ([] & w0 & Hmk & H).
  apply bind_inr in H as (m1 & w1 & Hload & H).
  apply bind_inr in H as (dp & w2 & Hdp & H).
  apply bind_inr in H as ([] & w3 & [= <-] & H).
  apply bind_inr in H as ([fig1 m2] & w4 & Hroc & H).
  apply bind_inr in H as ([] & w5 & ->%savefig_inr & H).
  apply bind_inr in H as ([] & w6 & [= <-] & H).
  apply bind_inr in H as ([fig2 m3] & w7 & Hpr & H).
  apply bind_inr in H as ([] & w8 & ->%savefig_inr & H).
  apply bind_inr in H as ([] & w9 & [= <-] & H).
  apply bind_inr in H as (colors & w10 & [= Hcmap <-] & H).
  apply bind_inr in H as ([rocs m4] & w11 & Hrocs & H).
  apply bind_inr in H as ([] & w12 & ->%savefig_inr & H).
  apply bind_inr in H as ([] & w13 & [= <-] & H).
  apply bind_inr in H as ([prs m5] & w14 & Hprs & H).
  apply bind_inr in H as ([] & w15 & ->%savefig_inr & H).
  injection H as <-.
  pose proof (keeps_files _ _ _ _ (keeps_pr_figure _ _ _ _) Hpr) as Hf7.
  pose proof (keeps_files _ _ _ _
                (keeps_foldM _ _ (keeps_hla_roc_curve cfg _ colors) _) Hrocs) as Hf11.
  pose proof (keeps_files _ _ _ _
                (keeps_foldM _ _ (keeps_hla_pr_curve cfg _ colors) _) Hprs) as Hf14.
  unfold roc_figure in Hroc.
  apply bind_inr in Hroc as ([[fpr tpr] a1] & wr & Hcalc1 & [= <- <- <-]).
  unfold pr_figure in Hpr.
  apply bind_inr in Hpr as ([[precision recall] a2] & ? & Hcalc2 & [= <- <- <-]).
  apply hla_roc_fold in Hrocs as (rocs' & -> & -> & Hrocs').
  apply hla_pr_fold in Hprs as (prs' & -> & -> & Hprs').
  destruct (plot_paths_differ cfg) as (D1 & D2 & D3 & D4 & D5 & D6).
  cbn [with_files w_files printed] in *.
  exists w0, m1, w1, dp, w2, colors. cbv zeta.
  split_and!; try done.
  - exists wr, fpr, tpr, a1. split; [exact Hcalc1 |].
    rewrite !lookup_insert_ne by done. rewrite Hf14.
    rewrite !lookup_insert_ne by done. rewrite Hf11. cbn [w_files].
    rewrite !lookup_insert_ne by done. rewrite Hf7. cbn [w_files].
    by rewrite lookup_insert_eq.
  - eexists _, _, precision, recall, a2. split; [exact Hcalc2 |].
    rewrite !lookup_insert_ne by done. rewrite Hf14.
    rewrite !lookup_insert_ne by done. rewrite Hf11. cbn [w_files].
    by rewrite lookup_insert_eq.
  - exists rocs'. split; [| exact Hrocs'].
    rewrite !lookup_insert_ne by done. rewrite Hf14.
    by rewrite lookup_insert_eq.
  - exists prs'. split; [by rewrite lookup_insert_eq |].
    rewrite <- !Nat.iter_succ_r in Hprs'. exact Hprs'.
Qed.

(** ** The split into training and validation data *)

Lemma omap_lookup_seq {X} (pre l : list X) :
  omap (fun i => (pre ++ l) !! i) (seq (length pre) (length l)) = l.
Proof.
  revert pre. induction l as [|x l IH]; intros pre; [done |].
  cbn [length seq omap list_omap]. rewrite list_lookup_middle by done.
  f_equal. specialize (IH (pre ++ [x])).
  rewrite length_app, <- app_assoc in IH. cbn [length app] in IH.
  rewrite Nat.add_1_r in IH. exact IH.
Qed.

Lemma Subset_partition (ds : dataset) (tr va : list nat) :
  Permutation (tr ++ va) (seq 0 (length ds)) ->
  Permutation (Subset ds tr ++ Subset ds va) ds.
Proof.
  intros Hp. unfold Subset. rewrite <- omap_app.
  rewrite (omap_Permutation _ _ _ Hp).
  pose proof (omap_lookup_seq [] ds) as Hseq. cbn [app length] in Hseq.
  exact (eq_ind_r (fun l => Permutation l ds) (Permutation_refl ds) Hseq).
Qed.

Lemma set_seed_valid (seed : Z) (w : world) :
  (0 <=? seed) && (seed <? 2 ^ 32) = true ->
  set_seed seed w =
    (inr tt,
     World (Rng (py_seed seed) (np_seed seed) (torch_seed seed)
                (cuda_seed seed) true false)
           (w_clock w) (w_ticks w) (w_files w) (w_stdout w) (w_log w)).
Proof.
  intros Hseed. unfold set_seed. rewrite Hseed. destruct w as [[] ? ? ? ? ?].
  destruct cuda_is_available; cbv; reflexivity.
Qed.

(** [main] up to the model, when its collaborators succeed and the splitter
    returns a partition of the sample indices (as [train_test_split] does):
    the training loader shuffles and the validation loader does not, both
    with the configured batch size, and every encoded sample is in exactly
    one of the two datasets. *)
Theorem prepare_partitions_the_data (cfg : config) (w : world) (dp : provider)
    (r1 r2 : rng gen) (tr va : list nat) (ds : dataset) (m : model) :
  (0 <=? seed cfg) && (seed cfg <? 2 ^ 32) = true ->
  data_provider (data_files w) (epi_path (Data cfg)) (epi_args (Data cfg))
                (hla_path (Data cfg)) (hla_args (Data cfg)) None
                (Rng (py_seed (seed cfg)) (np_seed (seed cfg))
                     (torch_seed (seed cfg)) (cuda_seed (seed cfg)) true false)
    = (inr dp, r1) ->
  train_test_split (seq 0 (length (samples dp))) (rs_label <$> samples dp)
                   (val_size (Data cfg)) = inr (tr, va) ->
  Permutation (tr ++ va) (seq 0 (length (samples dp))) ->
  encoder cfg dp (encoder_args cfg) (data_files w) = inr ds ->
  length ds = length (samples dp) ->
  0 < batch_size (Train cfg) ->
  model_class cfg (model_args cfg) r1 = (inr m, r2) ->
  exists tl vl w',
    prepare cfg w = (inr (tl, vl, model_to m torch_device), w') /\
    dl_dataset tl = Subset ds tr /\ dl_dataset vl = Subset ds va /\
    Permutation (dl_dataset tl ++ dl_dataset vl) ds /\
    dl_shuffle tl = true /\ dl_shuffle vl = false /\
    dl_batch_size tl = batch_size (Train cfg) /\
    dl_batch_size vl = batch_size (Train cfg) /\
    w_files w' = w_files w /\ w_log w' = w_log w /\
    w_stdout w' =
      w_stdout w ++
      ["Total samples: " +:+ Py.str (Z.of_nat (length (samples dp)));
       "Samples in train set: " +:+ Py.str (Z.of_nat (length (Subset ds tr)));
       "Samples in validation set: " +:+ Py.str (Z.of_nat (length (Subset ds va)));
       "Model loaded on " +:+ device_str torch_device].
Proof.
  intros Hseed Hdp Hsplit Hperm Henc Hlen Hbs Hm.
  unfold prepare.
  rewrite (bind_run _ _ _ _ _ (set_seed_valid _ w Hseed)).
  rewrite (bind_run read_data_files _ _ _ _ eq_refl); cbv beta.
  change (data_files _) with (data_files w).
  unfold bind at 1, try_with_rng at 1. cbn [w_rng]. rewrite Hdp. cbv zeta.
  rewrite (bind_run (print _) _ _ _ _ eq_refl).
  unfold lift at 1. rewrite Hsplit.
  rewrite (bind_run _ _ _ _ _ eq_refl); cbv beta iota.
  unfold lift at 1. rewrite Henc.
  rewrite (bind_run _ _ _ _ _ eq_refl); cbv beta zeta.
  rewrite (bind_run (print _) _ _ _ _ eq_refl).
  rewrite (bind_run (print _) _ _ _ _ eq_refl).
  unfold mk_DataLoader. destruct (Z.leb_spec (batch_size (Train cfg)) 0) as [|_]; [lia |].
  unfold lift at 1. rewrite (bind_run _ _ _ _ _ eq_refl); cbv beta.
  unfold lift at 1. rewrite (bind_run _ _ _ _ _ eq_refl); cbv beta.
  unfold bind at 1, try_with_rng at 1. cbn [w_rng print fst snd]. rewrite Hm.
  rewrite (bind_run (print _) _ _ _ _ eq_refl).
  eexists _, _, _. split; [reflexivity |].
  cbn [dl_dataset dl_shuffle dl_batch_size w_files w_log w_stdout print snd].
  split_and!; try done.
  - rewrite <- Hlen in Hperm. by apply Subset_partition.
  - by rewrite <- !app_assoc.
Qed.

End Coverage.

(** * Further concrete runs *)

Module Cases.

Import Toy.

(** Transfer learning switched on in a training section that has no
    [chkp_prefix] key, as in the demonstration configuration. *)
Definition no_prefix : config (B := backend) :=
  @Build_config backend "demo_chai2_sp" "models" "train.log" "plots" 100
    Demo.new_model [] Demo.encode [] Demo.data
    (@Build_train_config backend 128 50 100 false (inr tt)
       (fun m args => inr 7%nat) [("lr", "1e-5")] false (Some true) None)
    Demo.testing.

(** An optimizer that rejects its arguments, under a scheduler. *)
Definition bad_optimizer : config (B := backend) :=
  @Build_config backend "demo_chai2_sp" "models" "train.log" "plots" 100
    Demo.new_model [] Demo.encode [] Demo.data
    (@Build_train_config backend 128 50 100 false (inr tt)
       (fun m args => inl (Py.ValueError "Invalid learning rate"))
       [("lr", "-1")] true None None)
    Demo.testing.

(** A provider without samples. *)
Definition empty : provider := Provider [] [].


End Cases.

(** A backend whose curve functions return, for runs of test.py. *)
Module Eval.

Import Toy.

(** The provider of the test data: three samples over two HLAs, or the one
    sample of a specific HLA. *)
Definition provide (files : string -> option string) (epi : string)
    (epi_args : kwargs) (hla : string) (hla_args : kwargs)
    (specific_hla : option string) (r : rng nat)
  : (Py.exn + provider) * rng nat :=
  match files epi with
  | Some content =>
      match specific_hla with
      | None => (inr Demo.three, r)
      | Some h => (inr (Provider [RawSample "e1" h Py.one] ["h1"; "h2"]), r)
      end
  | None => (inl (Py.FileNotFoundError epi), r)
  end.

Definition unit_curve
  : Py.exn + (list Py.float * list Py.float * list Py.float) :=
  inr ([Py.zero; Py.one], [Py.zero; Py.one], [Py.one]).

Definition backend : Backend := {|
  feat := Py.float;
  tensor := list Py.float;
  model := list Py.float;
  optimizer := nat;
  scheduler := nat;
  criterion := unit;
  state_dict := list Py.float;
  gen := nat;
  timestamp := Z;
  py_seed := fun s => Z.to_nat s;
  np_seed := fun s => Z.to_nat s;
  torch_seed := fun s => Z.to_nat s;
  cuda_seed := fun s => Z.to_nat s;
  cuda_is_available := false;
  model_train := fun m => m;
  model_eval := fun m => m;
  model_call := fun m X r => ((fun _ => hd_or_zero m) <$> X, r);
  model_regularize := fun m loss dev => loss;
  model_to := fun m dev => m;
  get_state_dict := fun m => m;
  load_state_dict := load;
  criterion_call := fun c outputs Y => [hd_or_zero outputs];
  backward := fun loss m => m;
  item := hd_or_zero;
  count_correct := count_equal;
  values := fun t => t;
  zero_grad := fun opt m => m;
  optimizer_step := fun opt m => (S opt, List.tl m);
  scheduler_step := fun sch opt => (S sch, opt);
  Adam := fun m lr => O;
  CosineAnnealingWarmUpRestarts := fun opt t0 tmult tup eta g => inr O;
  randperm := fun n r => (seq 0 n, r);
  randperm_perm := identity_perm;
  elapsed := fun t1 t0 => t1 - t0;
  data_provider := provide;
  train_test_split := split;
  roc_curve := fun y p => unit_curve;
  precision_recall_curve := fun y p => unit_curve;
  auc := fun x y => inr Py.half;
  torch_load_error := unpickling_error;
  config_error := import_error;
  torch_save_error := fun e => e;
  get_cmap := inr tab10;
|}.

Definition encode (dp : provider) (args : kwargs)
    (files : string -> option string) : Py.exn + dataset (B := backend) :=
  inr ((fun s => (rs_label s, rs_label s)) <$> samples dp).

Definition new_model (args : kwargs) (r : rng nat)
  : (Py.exn + list Py.float) * rng nat :=
  (inr [f 1], r).

Definition cfg : config (B := backend) :=
  @Build_config backend "demo_chai2_sp" "models" "train.log" "plots" 100
    new_model [] encode [] Demo.data
    (@Build_train_config backend 128 50 100 false (inr tt)
       (fun m args => inr 7%nat) [("lr", "1e-5")] false None None)
    Demo.testing.

(** The test data and the best checkpoint of an earlier training. *)
Definition trained : world (B := backend) :=
  @World backend rng0 (fun n => Z.of_nat n) O
    (<["test.csv" := Other "abc"]>
       (<["models" := Directory]>
          (<["models/demo_chai2_sp-best.pt" := Checkpoint (B := backend) [f 2]]> ∅)))
    [] [].

(** The curve of every evaluation under this backend. *)
Definition unit_line (label : curve_label) (color : string) : curve :=
  Curve [Py.zero; Py.one] [Py.zero; Py.one] (Some label) color.

End Eval.

(** Transfer learning without a [chkp_prefix] key. *)
Lemma transfer_outcomes_witness :
  (transfer (Train Cases.no_prefix) = Some true /\
   chkp_prefix (Train Cases.no_prefix) = None) /\
  exists w,
    main_with (B := Toy.backend) Cases.no_prefix Demo.data_world
      = (inl (Py.KeyError "chkp_prefix"), w).
Proof.
  split; [by split |].
  eexists.
  refine (transfer_outcomes (B := Toy.backend) Cases.no_prefix _ _ _
            Demo.data_world _ eq_refl _).
  vm_compute. reflexivity.
Defined.

(** An optimizer that cannot be built, with the scheduler switched on. *)
Lemma failing_optimizer_aborts_witness :
  (use_scheduler (Train Cases.bad_optimizer) = true /\
   criterion_class (Train Cases.bad_optimizer) = inr tt) /\
  exists w,
    main_with (B := Toy.backend) Cases.bad_optimizer Demo.data_world
      = (inl (Py.ValueError "Invalid learning rate"), w) /\
    w_files w = w_files Demo.data_world /\ w_log w = w_log Demo.data_world.
Proof.
  split; [by split |].
  eexists.
  refine (failing_optimizer_aborts (B := Toy.backend) Cases.bad_optimizer _ _ _ _
            Demo.data_world _ _ tt _ _ _ eq_refl eq_refl).
  - vm_compute. reflexivity.
  - vm_compute. reflexivity.
Defined.

(** Three epochs with patience 2 over a toy run. *)
Lemma train_model_epochs_logged_witness :
  (0 < dl_batch_size (Toy.loader 2) /\ 0 < dl_batch_size (Toy.loader 1) /\
   dl_dataset (Toy.loader 2) <> [] /\ dl_dataset (Toy.loader 1) <> [] /\
   log_opens (w_files Runs.ready) "train.log" /\
   checkpoint_ready (w_files Runs.ready) "models/demo") /\
  exists lines w',
    train_model (B := Toy.backend) [Toy.f 9; Toy.f 3; Toy.f 2; Toy.f 3; Toy.f 4]
                (Toy.loader 2) (Toy.loader 1) tt O Cpu "train.log" 3 2
                "models/demo" false None Runs.ready
      = (inr tt, w') /\
    w_log w' = w_log Runs.ready ++ lines /\
    (forall i line, lines !! i = Some line -> ll_epoch line = Z.of_nat i + 1) /\
    ll_epoch <$> w_log w' = [1; 2; 3].
Proof.
  assert (Hopen : log_opens (w_files Runs.ready) "train.log")
    by (right; split; [discriminate | reflexivity]).
  assert (Hready : checkpoint_ready (w_files Runs.ready) "models/demo")
    by (split; [reflexivity | by vm_compute]).
  split; [by split_and! |].
  destruct (train_model_epochs_logged (B := Toy.backend)
              [Toy.f 9; Toy.f 3; Toy.f 2; Toy.f 3; Toy.f 4]
              (Toy.loader 2) (Toy.loader 1) tt O Cpu "train.log" 3 2
              "models/demo" false None Runs.ready)
    as (lines & w' & Hrun & Hlog & _ & _ & Hlines);
    [reflexivity | reflexivity | discriminate | discriminate | exact Hopen
    | exact Hready |].
  exists lines, w'. split; [exact Hrun |]. split; [exact Hlog |].
  split; [intros i line Hi; exact (proj1 (Hlines i line Hi)) |].
  evaluate Hrun.
Defined.

(** The validation loss and accuracy the same run logs: the model predicts
    3, 2 and 3 for the one validation sample, whose label is 1. *)
Lemma train_model_logged_validation_witness :
  (0 < dl_batch_size (Toy.loader 2) /\ 0 < dl_batch_size (Toy.loader 1) /\
   dl_dataset (Toy.loader 2) <> [] /\ dl_dataset (Toy.loader 1) <> [] /\
   log_opens (w_files Runs.ready) "train.log" /\
   checkpoint_ready (w_files Runs.ready) "models/demo") /\
  exists (lines : list log_line) w',
    train_model (B := Toy.backend) [Toy.f 9; Toy.f 3; Toy.f 2; Toy.f 3; Toy.f 4]
                (Toy.loader 2) (Toy.loader 1) tt O Cpu "train.log" 3 2
                "models/demo" false None Runs.ready
      = (inr tt, w') /\
    w_log w' = w_log Runs.ready ++ lines /\
    (forall i line, lines !! i = Some line ->
       exists (m_i : list Py.float) r,
         ll_val_loss line = val_average (B := Toy.backend) tt (Toy.loader 1) m_i r /\
         ll_val_acc line = val_accuracy (B := Toy.backend) (Toy.loader 1) m_i r) /\
    ll_val_loss <$> w_log w' = [Toy.f 3; Toy.f 2; Toy.f 3] /\
    ll_val_acc <$> w_log w' = [Py.one; Py.one; Py.one].
Proof.
  assert (Hopen : log_opens (w_files Runs.ready) "train.log")
    by (right; split; [discriminate | reflexivity]).
  assert (Hready : checkpoint_ready (w_files Runs.ready) "models/demo")
    by (split; [reflexivity | by vm_compute]).
  split; [by split_and! |].
  destruct (train_model_logged_validation (B := Toy.backend)
              [Toy.f 9; Toy.f 3; Toy.f 2; Toy.f 3; Toy.f 4]
              (Toy.loader 2) (Toy.loader 1) tt O Cpu "train.log" 3 2
              "models/demo" false None Runs.ready)
    as (w0 & lines & w' & _ & Hrun & Hlog & Hlines);
    [reflexivity | reflexivity | discriminate | discriminate | exact Hopen
    | exact Hready |].
  exists lines, w'. split; [exact Hrun |]. split; [exact Hlog |].
  split.
  { intros i line Hi.
    destruct (Hlines i line Hi) as (s_i & w_i & r & _ & Hloss & Hacc).
    exists (ls_model s_i), r. split; [exact Hloss | exact Hacc]. }
  evaluate Hrun.
Defined.

(** Three samples in batches of 64, under a model that predicts 2. *)
Lemma predictions_follow_the_dataset_witness :
  (Demo.encode Demo.three [] (data_files Demo.data_world)
     = inr [(Py.one, Py.one); (Py.zero, Py.zero); (Py.one, Py.one)] /\
   test_batch_size (Test (Demo.cfg false None)) = Some 64) /\
  exists w',
    labels_and_predictions (B := Toy.backend) Demo.three [Toy.f 2]
                           (Demo.cfg false None) Cpu Demo.data_world
      = (inr ([Py.one; Py.zero; Py.one], [Toy.f 2; Toy.f 2; Toy.f 2]), w').
Proof.
  split; [by split |].
  destruct (predictions_follow_the_dataset (B := Toy.backend)
              Demo.three [Toy.f 2] (Demo.cfg false None) Cpu Demo.data_world
              [(Py.one, Py.one); (Py.zero, Py.zero); (Py.one, Py.one)]
              (fun _ => Toy.f 2))
    as (w' & Hrun & _);
    [intros X r; reflexivity | reflexivity | discriminate
    | intros b [= <-]; reflexivity |].
  exists w'. exact Hrun.
Defined.

(** A provider without samples, in batches of 64. *)
Lemma empty_test_set_raises_witness :
  Demo.encode Cases.empty [] (data_files Demo.data_world) = inr [] /\
  calculate_roc_auc (B := Toy.backend) Cases.empty [Toy.f 2] (Demo.cfg false None)
                    Cpu Demo.data_world
    = (inl (Py.ValueError "need at least one array to concatenate"),
       Demo.data_world).
Proof.
  split; [reflexivity |].
  destruct (empty_test_set_raises (B := Toy.backend) Cases.empty [Toy.f 2]
              (Demo.cfg false None) Cpu Demo.data_world)
    as (msg & Hmsg & _ & Hroc & _); [reflexivity |].
  rewrite Hroc, Hmsg. reflexivity.
Defined.

(** One epoch of training under the demonstration paths, then the model
    loading of test.py. *)
Lemma test_loads_the_best_of_training_witness :
  (0 < dl_batch_size (Toy.loader 2) /\ 0 < dl_batch_size (Toy.loader 1) /\
   dl_dataset (Toy.loader 2) <> [] /\ dl_dataset (Toy.loader 1) <> [] /\
   test_chkp_prefix (Test (Demo.cfg false None)) = "best" /\
   log_opens (w_files Runs.ready) "train.log" /\
   checkpoint_ready (w_files Runs.ready) "models/demo_chai2_sp") /\
  exists w0 w' s1 w1,
    train_model (B := Toy.backend) [Toy.f 9; Toy.f 3] (Toy.loader 2) (Toy.loader 1)
                tt O Cpu "train.log" 1 2 "models/demo_chai2_sp" false None
                Runs.ready
      = (inr tt, w') /\
    first_epochs (B := Toy.backend) [Toy.f 9; Toy.f 3] (Toy.loader 2) (Toy.loader 1)
                 tt O Cpu 1 2 "models/demo_chai2_sp" false None 1 w0
      = (inr s1, w1) /\
    load_test_model (Demo.cfg false None) w'
      = load_weights (Demo.cfg false None) (get_state_dict (ls_model s1)) w' /\
    w_files w' !! "models/demo_chai2_sp-best.pt"
      = Some (@Checkpoint Toy.backend [Toy.f 3]).
Proof.
  assert (Hopen : log_opens (w_files Runs.ready) "train.log")
    by (right; split; [discriminate | reflexivity]).
  assert (Hready : checkpoint_ready (w_files Runs.ready) "models/demo_chai2_sp")
    by (split; [reflexivity | by vm_compute]).
  split; [by split_and! |].
  destruct (test_loads_the_best_of_training (B := Toy.backend)
              (Demo.cfg false None) [Toy.f 9; Toy.f 3] (Toy.loader 2) (Toy.loader 1)
              tt O Cpu "train.log" 1 2 false None Runs.ready)
    as (w0 & lines & w' & _ & Hrun & Hlog & Himp & _);
    [reflexivity | reflexivity | discriminate | discriminate | reflexivity
    | exact Hopen | exact Hready |].
  assert (Hv : ll_val_loss <$> lines = [Toy.f 3]).
  { assert (Hl : ll_val_loss <$> w_log w' = [Toy.f 3]) by evaluate Hrun.
    rewrite Hlog in Hl. exact Hl. }
  cbv zeta in Himp. rewrite Hv in Himp.
  destruct (Himp O) as (s1 & w1 & Hfirst & Hload).
  - exists (Toy.f 3). split; reflexivity.
  - intros j Hj (v & Hlook & _). destruct j; [lia | discriminate Hlook].
  - exists w0, w', s1, w1. split; [exact Hrun |]. split; [exact Hfirst |].
    split; [apply Hload; reflexivity |].
    evaluate Hrun.
Defined.


(** test.py over the test data and a trained checkpoint: the plot of the
    two HLAs of the provider holds their curves in the first two colours of
    the colormap, and the diagonal. *)
Lemma test_saves_four_plots_witness :
  exists w',
    test_main_with (B := Eval.backend) Eval.cfg Eval.trained = (inr tt, w') /\
    (exists dp colors m rocs,
       w_files w' !! roc_hla_path Eval.cfg
         = Some (Plot (Figure "Receiver Operating Characteristic (Top 10 HLAs)"
                   (rocs ++ [diagonal]))) /\
       hla_curves (B := Eval.backend) Eval.cfg colors
                  (fun dp' m' =>
                     calculate_roc_auc (B := Eval.backend) dp' m' Eval.cfg
                                       (torch_device (B := Eval.backend)))
                  roc_xy m (top_10_hlas dp) rocs) /\
    w_files w' !! "plots" = Some (@Directory Eval.backend) /\
    w_files w' !! "plots/roc_curve-demo_chai2_sp.png"
      = Some (@Plot Eval.backend
                (Figure "Receiver Operating Characteristic (All HLAs)"
                   [Eval.unit_line (RocLabel Py.half) "lightseagreen"; diagonal])) /\
    w_files w' !! "plots/pr_curve-demo_chai2_sp.png"
      = Some (@Plot Eval.backend
                (Figure "Precision-Recall Curve (All HLAs)"
                   [Eval.unit_line (PrLabel Py.half) "purple"])) /\
    w_files w' !! "plots/roc_curve_hla-demo_chai2_sp.png"
      = Some (@Plot Eval.backend
                (Figure "Receiver Operating Characteristic (Top 10 HLAs)"
                   [Eval.unit_line (HlaLabel "h1" Py.half) "tab:blue";
                    Eval.unit_line (HlaLabel "h2" Py.half) "tab:orange";
                    diagonal])) /\
    w_files w' !! "plots/pr_curve_hla-demo_chai2_sp.png"
      = Some (@Plot Eval.backend
                (Figure "Precision-Recall Curve (Top 10 HLAs)"
                   [Eval.unit_line (HlaLabel "h1" Py.half) "tab:blue";
                    Eval.unit_line (HlaLabel "h2" Py.half) "tab:orange"])).
Proof.
  assert (Hrun : exists w', test_main_with (B := Eval.backend) Eval.cfg Eval.trained
                         = (inr tt, w'))
    by (eexists; vm_compute; reflexivity).
  destruct Hrun as [w' Hrun].
  destruct (test_saves_four_plots (B := Eval.backend) Eval.cfg Eval.trained w' Hrun)
    as (w0 & m1 & w1 & dp & w2 & colors & _ & _ & _ & _ & _ & _
        & (rocs & Hrocs & Hcurves) & _).
  exists w'. split; [exact Hrun |].
  split.
  { exists dp, colors, (Nat.iter 2 (model_eval (Backend := Eval.backend)) m1), rocs.
    split; [exact Hrocs | exact Hcurves]. }
  evaluate Hrun.
Defined.

(** The demonstration configuration over three samples: two for training,
    one for validation. *)
Lemma prepare_partitions_the_data_witness :
  ((0 <=? seed (Demo.cfg false None)) && (seed (Demo.cfg false None) <? 2 ^ 32)
     = true /\
   0 < batch_size (Train (Demo.cfg false None))) /\
  exists tl vl w',
    prepare (B := Toy.backend) (Demo.cfg false None) Demo.data_world
      = (inr (tl, vl, [Toy.f 100; Toy.f 3; Toy.f 2; Toy.f 3; Toy.f 4]), w') /\
    length (dl_dataset tl) = 2%nat /\ length (dl_dataset vl) = 1%nat /\
    dl_shuffle tl = true /\ dl_shuffle vl = false.
Proof.
  split; [by split |].
  edestruct (prepare_partitions_the_data (B := Toy.backend) (Demo.cfg false None)
               Demo.data_world)
    as (tl & vl & w' & Hrun & Htl & Hvl & _ & Hst & Hsv & _).
  - reflexivity.
  - vm_compute. reflexivity.
  - vm_compute. reflexivity.
  - vm_compute. reflexivity.
  - vm_compute. reflexivity.
  - reflexivity.
  - reflexivity.
  - vm_compute. reflexivity.
  - exists tl, vl, w'. rewrite Htl, Hvl.
    split; [exact Hrun |]. split; [reflexivity |]. split; [reflexivity |].
    split; [exact Hst | exact Hsv].
Defined.
